(** * vibe-loc: WiFi BSSID scanners (Linux, Windows, Termux)

    A shallow embedding of the output parsers and signal/channel normalizers
    of [wifi_scanner_linux.py], [wifi_scanner_windows.py] and
    [wifi_scanner_termux.py], with the properties of their specification.

    Python [str] values are modelled by [string]: a character is one of the
    256 code points U+0000..U+00FF (Latin-1), on which the tables below
    ([isspace], [isdigit], [lower], line boundaries) are those of CPython.
    Python [int] is [Z]. *)

From Stdlib Require Import ZArith List String Ascii Bool Lia Permutation Sorted.
From Stdlib Require Import Numbers.DecimalString.
Import ListNotations.

Set Warnings "-register-all".

Local Open Scope string_scope.
Local Open Scope Z_scope.

(** ** Values decoded from JSON

    [json.loads] maps [null] to [None], numbers without fraction or exponent
    to [int], objects to [dict] and arrays to [list]. A number with a
    fraction or an exponent (and [NaN], [Infinity]) becomes a [float]: it is
    kept as its literal, and a run that computes with it is [Unmodelled].
    An object keeps its members in document order; a later member with the
    same key replaces an earlier one. *)

Inductive json : Type :=
| JNull
| JBool (b : bool)
| JInt (n : Z)
| JFloat (literal : string)
| JStr (s : string)
| JArr (elements : list json)
| JObj (members : list (string * json)).

(** ** Exceptions and results *)

(** The message of a [RuntimeError] raised by the Termux scanner, kept as
    the arguments of its format string. *)
Inductive runtime_msg : Type :=
| ScanFailed (stderr : string)     (* f"Scan failed: {result.stderr}" *)
| TermuxApiError (error : json)    (* f"Termux API error: {scan_results['error']}" *)
| ScanTimedOut                     (* "WiFi scan timed out" *)
| ParseFailed                      (* f"Failed to parse scan results: {e}" *)
| ToolNotFound.                    (* "termux-wifi-scaninfo not found. ..." *)

Inductive exn : Type :=
| ValueError
| TypeError
| AttributeError
| ZeroDivisionError
| OverflowError
| CalledProcessError
| TimeoutExpired
| FileNotFoundError
| JSONDecodeError
| RuntimeError (msg : runtime_msg).

(** The outcome of a call: a value, an exception, or [Unmodelled] when the
    run leaves the fragment of Python modelled here (arithmetic on [float]
    values, characters above U+00FF). *)
Inductive result (A : Type) : Type :=
| Ok (a : A)
| Raise (e : exn)
| Unmodelled.
Arguments Ok {A} a.
Arguments Raise {A} e.
Arguments Unmodelled {A}.

Definition bind {A B} (c : result A) (k : A -> result B) : result B :=
  match c with
  | Ok a => k a
  | Raise e => Raise e
  | Unmodelled => Unmodelled
  end.

Notation "x <- c ;; k" := (bind c (fun x => k))
  (at level 61, c at next level, right associativity).

(** ** Python built-ins on [str] *)

Module Py.

Definition code (c : ascii) : Z := Z.of_N (N_of_ascii c).

Definition chr (n : Z) : ascii := ascii_of_N (Z.to_N n).

Definition in_range (lo hi : Z) (c : ascii) : bool :=
  (lo <=? code c) && (code c <=? hi).

(** [str.isspace] on one character; also the class [\s] of [re]. *)
Definition isspace (c : ascii) : bool :=
  in_range 9 13 c || in_range 28 32 c || (code c =? 133) || (code c =? 160).

(** Unicode decimal digits (category Nd): the class [\d] of [re] and the
    digits [int] accepts. *)
Definition isdecimal (c : ascii) : bool := in_range 48 57 c.

(** [str.isdigit] on one character: Nd, and the superscripts U+00B2, U+00B3
    and U+00B9 (Numeric_Type=Digit). *)
Definition isdigit_char (c : ascii) : bool :=
  isdecimal c || (code c =? 178) || (code c =? 179) || (code c =? 185).

Fixpoint forallb_str (p : ascii -> bool) (s : string) : bool :=
  match s with
  | EmptyString => true
  | String c s' => p c && forallb_str p s'
  end.

(** [s.isdigit()]: at least one character and every character a digit. *)
Definition isdigit (s : string) : bool :=
  match s with
  | EmptyString => false
  | _ => forallb_str isdigit_char s
  end.

(** [str.lower] on one character. *)
Definition lower_char (c : ascii) : ascii :=
  if in_range 65 90 c || (in_range 192 222 c && negb (code c =? 215))
  then chr (code c + 32) else c.

Fixpoint lower (s : string) : string :=
  match s with
  | EmptyString => EmptyString
  | String c s' => String (lower_char c) (lower s')
  end.

Fixpoint lstrip_of (space : ascii -> bool) (s : string) : string :=
  match s with
  | EmptyString => EmptyString
  | String c s' => if space c then lstrip_of space s' else s
  end.

Fixpoint rstrip_of (space : ascii -> bool) (s : string) : string :=
  match s with
  | EmptyString => EmptyString
  | String c s' =>
      match rstrip_of space s' with
      | EmptyString => if space c then EmptyString else String c EmptyString
      | r => String c r
      end
  end.

(** [s.strip()] *)
Definition strip (s : string) : string := rstrip_of isspace (lstrip_of isspace s).

(** [s.startswith(p)] *)
Definition startswith (p s : string) : bool := String.prefix p s.

(** [sub in s] *)
Fixpoint contains (sub s : string) : bool :=
  String.prefix sub s ||
  match s with
  | EmptyString => false
  | String _ s' => contains sub s'
  end.

(** [s.replace(old, new)] for a non-empty [old]: occurrences are replaced
    from the left and do not overlap. [skip] counts the characters of an
    occurrence still to be dropped. *)
Fixpoint replace_from (old new s : string) (skip : nat) : string :=
  match s with
  | EmptyString => EmptyString
  | String c s' =>
      match skip with
      | S k => replace_from old new s' k
      | O =>
          if String.prefix old s
          then new ++ replace_from old new s' (pred (String.length old))
          else String c (replace_from old new s' O)
      end
  end.

Definition replace (old new s : string) : string := replace_from old new s O.

(** [s.split(sep)] for a one-character separator. *)
Fixpoint split (sep : ascii) (s : string) : list string :=
  match s with
  | EmptyString => [EmptyString]
  | String c s' =>
      if Ascii.eqb c sep then EmptyString :: split sep s'
      else match split sep s' with
           | [] => [String c EmptyString]
           | p :: ps => String c p :: ps
           end
  end.

(** The line boundaries of [str.splitlines]. *)
Definition is_linebreak (c : ascii) : bool :=
  in_range 10 13 c || in_range 28 30 c || (code c =? 133).

Fixpoint splitlines_from (s cur : string) : list string :=
  match s with
  | EmptyString =>
      match cur with
      | EmptyString => []
      | _ => [cur]
      end
  | String c s' =>
      if is_linebreak c then
        cur ::
        (if code c =? 13 then
           match s' with
           | String c' s'' =>
               if code c' =? 10 then splitlines_from s'' EmptyString
               else splitlines_from s' EmptyString
           | EmptyString => splitlines_from s' EmptyString
           end
         else splitlines_from s' EmptyString)
      else splitlines_from s' (cur ++ String c EmptyString)
  end.

(** [s.splitlines()] *)
Definition splitlines (s : string) : list string := splitlines_from s EmptyString.

(** [s[:n]] for [n >= 0] *)
Definition slice_to (n : nat) (s : string) : string := String.substring 0 n s.

(** The digits of an [int] literal after its sign: decimal digits, with
    single underscores between digits. [prev] tells whether the previous
    character was a digit. *)
Fixpoint int_body (prev : bool) (acc : Z) (s : string) : option Z :=
  match s with
  | EmptyString => if prev then Some acc else None
  | String c s' =>
      if isdecimal c then int_body true (10 * acc + (code c - 48)) s'
      else if (code c =? 95) && prev then int_body false acc s'
      else None
  end.

(** The whitespace [int] skips around a number: ASCII whitespace and the
    spaces above U+007F, but not the separators U+001C..U+001F. *)
Definition int_space (c : ascii) : bool :=
  in_range 9 13 c || (code c =? 32) || (code c =? 133) || (code c =? 160).

(** [int(s)] on a [str]: surrounding whitespace, an optional sign, digits.
    (The length limit of recent CPython versions on the number of digits is
    not modelled: integers are unbounded.) *)
Definition int (s : string) : result Z :=
  let t := rstrip_of int_space (lstrip_of int_space s) in
  let '(neg, body) :=
    match t with
    | String c t' =>
        if code c =? 45 then (true, t')
        else if code c =? 43 then (false, t')
        else (false, t)
    | EmptyString => (false, t)
    end in
  match int_body false 0 body with
  | Some v => Ok (if neg then - v else v)
  | None => Raise ValueError
  end.

(** [str(n)] for an [int]. *)
Definition str_of_int (n : Z) : string := NilZero.string_of_int (Z.to_int n).

Fixpoint spaces (n : nat) : string :=
  match n with
  | O => EmptyString
  | S k => String " " (spaces k)
  end.

(** [format(s, "<w")] on a [str]: left-aligned, padded with spaces. *)
Definition ljust (w : nat) (s : string) : string :=
  s ++ spaces (w - String.length s).

(** *** True division of integers

    [x / y] on two [int]s is the binary64 number nearest to the exact
    quotient (ties to even). A finite binary64 value is kept as
    [mant * 2 ^ expo]. *)

Record float : Type := mkFloat { mant : Z; expo : Z }.

(** The integer nearest to [n / d], ties to even, for [0 <= n] and [0 < d]. *)
Definition round_half_even (n d : Z) : Z :=
  let q := n / d in
  let r := n mod d in
  if 2 * r <? d then q
  else if d <? 2 * r then q + 1
  else if Z.even q then q else q + 1.

(** [x / y]: with [l] the integer part of the binary logarithm of the
    quotient, the result has its last place at [2 ^ e] (53 significant bits,
    or the smallest exponent of binary64) and its mantissa [m] is the
    quotient rounded at that place. *)
Definition truediv (x y : Z) : result float :=
  if y =? 0 then Raise ZeroDivisionError
  else if x =? 0 then Ok (mkFloat 0 0)
  else
    let a := Z.abs x in
    let b := Z.abs y in
    let n := Z.log2 a - Z.log2 b in
    let l := if (if 0 <=? n then b * 2 ^ n <=? a else b <=? a * 2 ^ (- n))
             then n else n - 1 in
    let e := Z.max (l - 52) (-1074) in
    let m := if 0 <=? e then round_half_even a (b * 2 ^ e)
             else round_half_even (a * 2 ^ (- e)) b in
    if (0 <=? e) && (2 ^ 1024 <=? m * 2 ^ e) then Raise OverflowError
    else Ok (mkFloat (Z.sgn x * Z.sgn y * m) e).

(** [int(f)] on a finite [float]: truncation towards zero. *)
Definition int_of_float (f : float) : Z :=
  if 0 <=? expo f then mant f * 2 ^ expo f
  else Z.quot (mant f) (2 ^ (- expo f)).

End Py.

(** ** The fragment of [re] the scanners use

    Patterns are sequences of single-character atoms (literals, [.], [\s],
    [\d], bracket classes), each with an optional greedy quantifier, and
    capture groups around runs of atoms. [search] explores alternatives in
    the order of CPython's backtracking matcher: leftmost start, longest
    repetition first. *)

Module Re.

Inductive cls : Type :=
| Chr (c : ascii)
| Dot
| Space
| Digit
| Class (negated : bool) (items : list (ascii * ascii)).

Inductive quant : Type := One | Opt | Star | Plus.

Inductive tok : Type :=
| Atom (c : cls) (q : quant)
| Open
| Close
| Bad.

Definition pattern : Type := list tok.

Definition cls_matches (c : cls) (a : ascii) : bool :=
  match c with
  | Chr x => Ascii.eqb x a
  | Dot => negb (Py.code a =? 10)
  | Space => Py.isspace a
  | Digit => Py.isdecimal a
  | Class negated items =>
      xorb negated
        (existsb (fun it => (Py.code (fst it) <=? Py.code a) && (Py.code a <=? Py.code (snd it))) items)
  end.

(** *** Reading a pattern *)

Inductive mode : Type :=
| Normal
| Escape
| ClassStart
| InClass (negated : bool) (items : list (ascii * ascii)) (dash : bool).

Definition is_alnum (c : ascii) : bool :=
  Py.in_range 48 57 c || Py.in_range 65 90 c || Py.in_range 97 122 c.

Definition quantify (q : quant) (acc : list tok) : list tok :=
  match acc with
  | Atom c One :: acc' => Atom c q :: acc'
  | _ => Bad :: acc
  end.

Definition class_char (negated : bool) (items : list (ascii * ascii)) (dash : bool)
    (c : ascii) (acc : list tok) : mode * list tok :=
  if Ascii.eqb c "]" then
    let items' := if dash then ("-"%char, "-"%char) :: items else items in
    (Normal, Atom (Class negated (rev items')) One :: acc)
  else if Ascii.eqb c "\" then (Normal, Bad :: acc)
  else if dash then
    match items with
    | (lo, hi) :: items' =>
        if Ascii.eqb lo hi then (InClass negated ((lo, c) :: items') false, acc)
        else (Normal, Bad :: acc)
    | [] => (Normal, Bad :: acc)
    end
  else if Ascii.eqb c "-" then
    match items with
    | [] => (InClass negated [(c, c)] false, acc)
    | _ => (InClass negated items true, acc)
    end
  else (InClass negated ((c, c) :: items) false, acc).

Definition read_char (m : mode) (c : ascii) (acc : list tok) : mode * list tok :=
  match m with
  | Normal =>
      if Ascii.eqb c "\" then (Escape, acc)
      else if Ascii.eqb c "[" then (ClassStart, acc)
      else if Ascii.eqb c "(" then (Normal, Open :: acc)
      else if Ascii.eqb c ")" then (Normal, Close :: acc)
      else if Ascii.eqb c "." then (Normal, Atom Dot One :: acc)
      else if Ascii.eqb c "*" then (Normal, quantify Star acc)
      else if Ascii.eqb c "+" then (Normal, quantify Plus acc)
      else if Ascii.eqb c "?" then (Normal, quantify Opt acc)
      else if Ascii.eqb c "|" || Ascii.eqb c "{" || Ascii.eqb c "}"
              || Ascii.eqb c "^" || Ascii.eqb c "$" || Ascii.eqb c "]"
      then (Normal, Bad :: acc)
      else (Normal, Atom (Chr c) One :: acc)
  | Escape =>
      if Ascii.eqb c "s" then (Normal, Atom Space One :: acc)
      else if Ascii.eqb c "d" then (Normal, Atom Digit One :: acc)
      else if is_alnum c then (Normal, Bad :: acc)
      else (Normal, Atom (Chr c) One :: acc)
  | ClassStart =>
      if Ascii.eqb c "^" then (InClass true [] false, acc)
      else if Ascii.eqb c "]" then (Normal, Bad :: acc)
      else class_char false [] false c acc
  | InClass negated items dash =>
      match items with
      | [] => if Ascii.eqb c "]" then (Normal, Bad :: acc)
              else class_char negated items dash c acc
      | _ => class_char negated items dash c acc
      end
  end.

Fixpoint read (m : mode) (p : string) (acc : list tok) : list tok :=
  match p with
  | EmptyString =>
      match m with
      | Normal => rev acc
      | _ => rev (Bad :: acc)
      end
  | String c p' => let '(m', acc') := read_char m c acc in read m' p' acc'
  end.

(** [re.compile(p)] *)
Definition compile (p : string) : pattern := read Normal p [].

(** *** Matching *)

(** A greedy repetition of the class [c] followed by the continuation [k]:
    the longest run is tried first, then shorter ones. *)
Fixpoint greedy (c : cls) (k : string -> nat -> option (list nat))
    (s : string) (pos : nat) : option (list nat) :=
  match s with
  | String a s' =>
      if cls_matches c a then
        match greedy c k s' (S pos) with
        | Some g => Some g
        | None => k s pos
        end
      else k s pos
  | EmptyString => k s pos
  end.

(** [match_here toks s pos] matches [toks] at the start of [s], which is at
    offset [pos] of the subject, and returns the offsets at which the group
    parentheses were crossed, in pattern order. *)
Fixpoint match_here (toks : pattern) (s : string) (pos : nat) : option (list nat) :=
  match toks with
  | [] => Some []
  | Bad :: _ => None
  | Open :: rest | Close :: rest => option_map (cons pos) (match_here rest s pos)
  | Atom c One :: rest =>
      match s with
      | String a s' => if cls_matches c a then match_here rest s' (S pos) else None
      | EmptyString => None
      end
  | Atom c Opt :: rest =>
      match s with
      | String a s' =>
          if cls_matches c a then
            match match_here rest s' (S pos) with
            | Some g => Some g
            | None => match_here rest s pos
            end
          else match_here rest s pos
      | EmptyString => match_here rest s pos
      end
  | Atom c Star :: rest => greedy c (match_here rest) s pos
  | Atom c Plus :: rest =>
      match s with
      | String a s' =>
          if cls_matches c a then greedy c (match_here rest) s' (S pos) else None
      | EmptyString => None
      end
  end.

Fixpoint groups_of (subject : string) (bounds : list nat) : list string :=
  match bounds with
  | o :: c :: rest => String.substring o (c - o) subject :: groups_of subject rest
  | _ => []
  end.

Fixpoint search_from (toks : pattern) (subject s : string) (pos : nat)
    : option (list string) :=
  match match_here toks s pos with
  | Some bounds => Some (groups_of subject bounds)
  | None =>
      match s with
      | EmptyString => None
      | String _ s' => search_from toks subject s' (S pos)
      end
  end.

(** [re.search(p, s)]: the groups of the leftmost match, or [None]. *)
Definition search (p : pattern) (s : string) : option (list string) :=
  search_from p s s O.

(** A run of tokens without group parentheses. *)
Definition group_free (toks : pattern) : bool :=
  forallb (fun t => match t with Open | Close => false | _ => true end) toks.

(** [m.group(i)] for [i >= 1] *)
Definition group (i : nat) (m : list string) : string :=
  nth (pred i) m EmptyString.

End Re.

(** [l.append(x)] *)
Definition append {A : Type} (l : list A) (x : A) : list A := (l ++ [x])%list.

(** ** Network records

    The Linux and Windows scanners build each record as a [dict] with the
    keys ['ssid'], ['bssid'], ['signal'] and ['channel']. A field is [None]
    when the key is absent; for ['signal'] and ['channel'] the value of a
    present key is an [int] or Python's [None] ([Some None]). *)

Record network : Type := mkNetwork {
  ssid : option string;
  bssid : option string;
  signal : option (option Z);
  channel : option (option Z)
}.

(** [{}] *)
Definition empty_network : network := mkNetwork None None None None.

Definition set_ssid (v : string) (n : network) : network :=
  mkNetwork (Some v) (bssid n) (signal n) (channel n).
Definition set_bssid (v : string) (n : network) : network :=
  mkNetwork (ssid n) (Some v) (signal n) (channel n).
Definition set_signal (v : Z) (n : network) : network :=
  mkNetwork (ssid n) (bssid n) (Some (Some v)) (channel n).
Definition set_channel (v : Z) (n : network) : network :=
  mkNetwork (ssid n) (bssid n) (signal n) (Some (Some v)).

(** The truth value of [current_network.get('bssid')]. *)
Definition has_bssid (n : network) : bool :=
  match bssid n with
  | Some (String _ _) => true
  | _ => false
  end.

(** What [subprocess.run(..., capture_output=True, text=True)] returns. *)
Record completed : Type := mkCompleted {
  returncode : Z;
  stdout : string;
  stderr : string
}.

(** [subprocess.run(..., check=True)] *)
Definition check (r : result completed) : result completed :=
  p <- r ;;
  if returncode p =? 0 then Ok p else Raise CalledProcessError.

(** ** Console table: [print_networks] of the Linux and Windows scanners *)

Module Table.

(** [lambda x: x.get('signal') or 0] *)
Definition sort_key (x : network) : Z :=
  match signal x with
  | Some (Some n) => n
  | _ => 0
  end.

Fixpoint insert_desc (x : network) (l : list network) : list network :=
  match l with
  | [] => [x]
  | y :: l' =>
      if sort_key y <=? sort_key x then x :: l
      else y :: insert_desc x l'
  end.

(** [sorted(l, key=..., reverse=True)]: descending keys, equal keys in
    their original order. *)
Fixpoint sorted_desc (l : list network) : list network :=
  match l with
  | [] => []
  | x :: l' => insert_desc x (sorted_desc l')
  end.

(** A list in the order of the table: keys never increase. *)
Definition descending (l : list network) : Prop :=
  Sorted (fun a b => sort_key b <= sort_key a) l.

Definition nl : string := String (Py.chr 10) EmptyString.

Definition header : string :=
  nl ++ Py.ljust 32 "SSID" ++ " " ++ Py.ljust 20 "BSSID" ++ " "
     ++ Py.ljust 8 "Signal" ++ " " ++ Py.ljust 8 "Channel".

Fixpoint repeat_str (s : string) (n : nat) : string :=
  match n with
  | O => EmptyString
  | S k => s ++ repeat_str s k
  end.

(** One row of the table; formatting [None] with [:<8] is a [TypeError]. *)
Definition row (net : network) : result string :=
  let ssid := Py.slice_to 31 (match ssid net with Some s => s | None => "<Hidden>" end) in
  let bssid := match bssid net with Some b => b | None => "N/A" end in
  let signal := match signal net with
                | Some (Some n) => Py.str_of_int n ++ "%"
                | _ => "N/A"
                end in
  channel <- match channel net with
             | None => Ok "N/A"
             | Some (Some c) => Ok (Py.str_of_int c)
             | Some None => Raise TypeError
             end ;;
  Ok (Py.ljust 32 ssid ++ " " ++ Py.ljust 20 bssid ++ " "
        ++ Py.ljust 8 signal ++ " " ++ Py.ljust 8 channel).

Fixpoint rows (l : list network) (out : list string) : list string * result unit :=
  match l with
  | [] => (out, Ok tt)
  | net :: l' =>
      match row net with
      | Ok r => rows l' (append out r)
      | Raise e => (out, Raise e)
      | Unmodelled => (out, Unmodelled)
      end
  end.

(** The effect of a call: the contents of the list object passed in when
    the call ends, the strings printed, and how the call ended. *)
Record effect : Type := mkEffect {
  networks_after : list network;
  printed : list string;
  ended : result unit
}.

Definition print_networks (networks : list network) : effect :=
  match networks with
  | [] => mkEffect networks ["No WiFi networks found."] (Ok tt)
  | _ =>
      let out := [header; repeat_str "-" 70] in
      (* networks.sort(key=lambda x: x.get('signal') or 0, reverse=True) *)
      let networks := sorted_desc networks in
      match rows networks out with
      | (out, Ok _) =>
          mkEffect networks
            (append out (nl ++ "Total: " ++ Py.str_of_int (Z.of_nat (List.length networks))
                            ++ " access point(s)"))
            (Ok tt)
      | (out, ended) => mkEffect networks out ended
      end
  end.

End Table.

(** ** wifi_scanner_linux.py *)

Module Linux.

(** One iteration of the loop over the lines of [nmcli -t]. *)
Definition nmcli_line (line : string) (networks : list network)
    : result (list network) :=
  match Py.strip line with
  | EmptyString => Ok networks
  | _ =>
      let line_clean := Py.replace "\:" "##COLON##" line in
      let parts := Py.split ":" line_clean in
      if (4 <=? List.length parts)%nat then
        let ssid := Py.replace "##COLON##" ":" (nth 0 parts EmptyString) in
        let bssid := Py.lower (Py.replace "##COLON##" ":" (nth 1 parts EmptyString)) in
        let signal := nth 2 parts EmptyString in
        let channel := nth 3 parts EmptyString in
        sig <- (if Py.isdigit signal then v <- Py.int signal ;; Ok (Some v) else Ok None) ;;
        chan <- (if Py.isdigit channel then v <- Py.int channel ;; Ok (Some v) else Ok None) ;;
        Ok (append networks
              (mkNetwork (Some (match ssid with EmptyString => "<Hidden>" | _ => ssid end))
                         (Some bssid) (Some sig) (Some chan)))
      else Ok networks
  end.

Fixpoint nmcli_lines (lines : list string) (networks : list network)
    : result (list network) :=
  match lines with
  | [] => Ok networks
  | line :: rest => networks' <- nmcli_line line networks ;; nmcli_lines rest networks'
  end.

(** The parser applied to the standard output of [nmcli ... dev wifi list]. *)
Definition parse_nmcli (out : string) : result (list network) :=
  nmcli_lines (Py.splitlines out) [].

(** [rescan] and [listing] are the outcomes of the two [subprocess.run]
    calls. *)
Definition get_wifi_bssids_nmcli (rescan listing : result completed)
    : result (list network) :=
  _ <- match rescan with
       | Raise CalledProcessError | Raise TimeoutExpired => Ok tt
       | Raise e => Raise e
       | Unmodelled => Unmodelled
       | Ok _ => Ok tt
       end ;;
  result <- check listing ;;
  parse_nmcli (stdout result).

(** [max(0, min(100, 2 * (dbm + 100)))] *)
Definition signal_of_dbm (dbm : Z) : Z := Z.max 0 (Z.min 100 (2 * (dbm + 100))).

(** [int(100 * a / b)] *)
Definition signal_of_ratio (a b : Z) : result Z :=
  f <- Py.truediv (100 * a) b ;; Ok (Py.int_of_float f).

Definition dq : string := String (Py.chr 34) EmptyString.

Definition address_re : Re.pattern := Re.compile "Address:\s*([0-9A-Fa-f:]+)".
Definition channel_re : Re.pattern := Re.compile "Channel:(\d+)".
Definition dbm_re : Re.pattern := Re.compile "Signal level[=:]?\s*(-?\d+)\s*dBm".
Definition ratio_re : Re.pattern := Re.compile "Signal level[=:]?\s*(\d+)/(\d+)".
Definition essid_re : Re.pattern := Re.compile ("ESSID:" ++ dq ++ "([^" ++ dq ++ "]*)" ++ dq).

(** The state of the loop: [networks] and [current_network]. *)
Definition state : Type := (list network * network)%type.

(** One iteration of the loop over the lines of [iwlist scan]. *)
Definition iwlist_line (line : string) (st : state) : result state :=
  let '(networks, current_network) := st in
  let line := Py.strip line in
  if Py.startswith "Cell" line then
    let networks := if has_bssid current_network
                    then append networks current_network else networks in
    let current_network := empty_network in
    match Re.search address_re line with
    | Some m => Ok (networks, set_bssid (Py.lower (Re.group 1 m)) current_network)
    | None => Ok (networks, current_network)
    end
  else if Py.contains "Channel:" line then
    match Re.search channel_re line with
    | Some m => c <- Py.int (Re.group 1 m) ;; Ok (networks, set_channel c current_network)
    | None => Ok st
    end
  else if Py.contains "Signal level" line then
    match Re.search dbm_re line with
    | Some m =>
        dbm <- Py.int (Re.group 1 m) ;;
        Ok (networks, set_signal (signal_of_dbm dbm) current_network)
    | None =>
        match Re.search ratio_re line with
        | Some m =>
            a <- Py.int (Re.group 1 m) ;;
            b <- Py.int (Re.group 2 m) ;;
            v <- signal_of_ratio a b ;;
            Ok (networks, set_signal v current_network)
        | None => Ok st
        end
    end
  else if Py.contains "ESSID:" line then
    match Re.search essid_re line with
    | Some m =>
        Ok (networks,
            set_ssid (match Re.group 1 m with
                      | EmptyString => "<Hidden>"
                      | s => s
                      end) current_network)
    | None => Ok st
    end
  else Ok st.

(** An identifier line: a line that opens a cell and gives its address;
    [b] is the identifier stored. *)
Definition cell_line (line b : string) : Prop :=
  Py.startswith "Cell" (Py.strip line) = true /\
  exists m, Re.search address_re (Py.strip line) = Some m /\
            b = Py.lower (Re.group 1 m).

Fixpoint iwlist_lines (lines : list string) (st : state) : result state :=
  match lines with
  | [] => Ok st
  | line :: rest => st' <- iwlist_line line st ;; iwlist_lines rest st'
  end.

(** The flush after the loop. *)
Definition finish (st : state) : list network :=
  let '(networks, current_network) := st in
  if has_bssid current_network then append networks current_network else networks.

(** The parser applied to the standard output of [iwlist <iface> scan]. *)
Definition parse_iwlist (out : string) : result (list network) :=
  st <- iwlist_lines (Py.splitlines out) ([], empty_network) ;;
  Ok (finish st).

Definition get_wifi_bssids_iwlist (scan : result completed)
    : result (list network) :=
  result <- check scan ;;
  parse_iwlist (stdout result).

Definition print_networks := Table.print_networks.

End Linux.

(** ** wifi_scanner_windows.py *)

Module Windows.

Definition ssid_re : Re.pattern := Re.compile "SSID\s*\d*\s*:\s*(.+)".
Definition bssid_re : Re.pattern := Re.compile "BSSID\s*\d*\s*:\s*([0-9a-fA-F:]+)".
Definition signal_re : Re.pattern := Re.compile ":\s*(\d+)%".
Definition channel_re : Re.pattern := Re.compile ":\s*(\d+)".

Definition state : Type := (list network * network)%type.

(** One iteration of the loop over the lines of [netsh wlan show networks
    mode=bssid]. *)
Definition netsh_line (line : string) (st : state) : result state :=
  let '(networks, current_network) := st in
  let line := Py.strip line in
  if Py.startswith "SSID" line && negb (Py.contains "BSSID" line) then
    let '(networks, current_network) :=
      if has_bssid current_network
      then (append networks current_network, empty_network)
      else (networks, current_network) in
    match Re.search ssid_re line with
    | Some m => Ok (networks, set_ssid (Py.strip (Re.group 1 m)) current_network)
    | None => Ok (networks, current_network)
    end
  else if Py.contains "BSSID" line then
    match Re.search bssid_re line with
    | Some m =>
        (* networks.append(current_network.copy()) *)
        let networks := if has_bssid current_network
                        then append networks current_network else networks in
        Ok (networks, set_bssid (Py.lower (Re.group 1 m)) current_network)
    | None => Ok st
    end
  else if Py.contains "Signal" line || Py.contains "Intensit" line then
    match Re.search signal_re line with
    | Some m => v <- Py.int (Re.group 1 m) ;; Ok (networks, set_signal v current_network)
    | None => Ok st
    end
  else if Py.contains "Channel" line || Py.contains "Canal" line then
    match Re.search channel_re line with
    | Some m => v <- Py.int (Re.group 1 m) ;; Ok (networks, set_channel v current_network)
    | None => Ok st
    end
  else Ok st.

(** An identifier line: the branch of [netsh_line] that reads a BSSID is
    taken and its pattern matches; [b] is the identifier stored. *)
Definition bssid_line (line b : string) : Prop :=
  Py.contains "BSSID" (Py.strip line) = true /\
  exists m, Re.search bssid_re (Py.strip line) = Some m /\
            b = Py.lower (Re.group 1 m).

Fixpoint netsh_lines (lines : list string) (st : state) : result state :=
  match lines with
  | [] => Ok st
  | line :: rest => st' <- netsh_line line st ;; netsh_lines rest st'
  end.

(** The flush after the loop ("Don't forget the last network"). *)
Definition finish (st : state) : list network :=
  let '(networks, current_network) := st in
  if has_bssid current_network then append networks current_network else networks.

(** The parser applied to the standard output of [netsh]. *)
Definition parse_netsh (out : string) : result (list network) :=
  st <- netsh_lines (Py.splitlines out) ([], empty_network) ;;
  Ok (finish st).

Definition get_wifi_bssids (scan : result completed) : result (list network) :=
  result <- check scan ;;
  parse_netsh (stdout result).

Definition print_networks := Table.print_networks.

End Windows.

(** ** [json.loads]

    The decoder of CPython's [json] module on a [str]: a scanner that cuts
    the text into tokens, and a parser of the token list. Two limits of
    CPython are not modelled: the recursion limit on nested documents and
    the limit on the number of digits of an integer. *)

Module Json.

Inductive token : Type :=
| TLBrace | TRBrace | TLBracket | TRBracket | TComma | TColon
| TString (s : string)
| TInt (n : Z)
| TFloat (literal : string)
| TNull | TTrue | TFalse.

Inductive scan_state : Type :=
| SStart
| SMinus
| SNumber (text : string)
| SKeyword (rest : string) (t : token)
| SString (acc : string)
| SEscape (acc : string)
| SHex (acc : string) (count : nat) (value : Z).

Definition is_ws (c : ascii) : bool :=
  (Py.code c =? 32) || (Py.code c =? 9) || (Py.code c =? 10) || (Py.code c =? 13).

Definition is_number_char (c : ascii) : bool :=
  Py.isdecimal c || Ascii.eqb c "-" || Ascii.eqb c "+" || Ascii.eqb c "."
  || Ascii.eqb c "e" || Ascii.eqb c "E".

Definition hex_value (c : ascii) : option Z :=
  if Py.in_range 48 57 c then Some (Py.code c - 48)
  else if Py.in_range 97 102 c then Some (Py.code c - 87)
  else if Py.in_range 65 70 c then Some (Py.code c - 55)
  else None.

Fixpoint take_digits (s : string) : string * string :=
  match s with
  | String c s' =>
      if Py.isdecimal c then let '(d, r) := take_digits s' in (String c d, r)
      else (EmptyString, s)
  | EmptyString => (EmptyString, EmptyString)
  end.

Fixpoint digits_value (acc : Z) (s : string) : Z :=
  match s with
  | EmptyString => acc
  | String c s' => digits_value (10 * acc + (Py.code c - 48)) s'
  end.

(** The optional fraction (a dot and digits) and the optional exponent
    ([e] or [E], a sign, digits) of a number; [None] when they cannot be
    read to the end of the text. *)
Definition fraction_exponent (r : string) : option unit :=
  let after_fraction :=
    match r with
    | String "." r' =>
        match take_digits r' with
        | (EmptyString, _) => None
        | (_, r'') => Some r''
        end
    | _ => Some r
    end in
  match after_fraction with
  | None => None
  | Some EmptyString => Some tt
  | Some (String c r') =>
      if Ascii.eqb c "e" || Ascii.eqb c "E" then
        let r'' := match r' with
                   | String s t => if Ascii.eqb s "-" || Ascii.eqb s "+" then t else r'
                   | EmptyString => r'
                   end in
        match take_digits r'' with
        | (String _ _, EmptyString) => Some tt
        | _ => None
        end
      else None
  end.

(** A maximal run of number characters is one number (an optional minus,
    [0] or digits without leading zero, then fraction and exponent) or a
    decoding error. *)
Definition number_token (text : string) : option token :=
  let '(neg, t) := match text with
                   | String "-" t => (true, t)
                   | _ => (false, text)
                   end in
  match take_digits t with
  | (EmptyString, _) => None
  | (String d ds as ip, r) =>
      if Ascii.eqb d "0" && negb (String.eqb ds EmptyString) then None
      else match r with
           | EmptyString => Some (TInt (if neg then - digits_value 0 ip else digits_value 0 ip))
           | _ => match fraction_exponent r with
                  | Some _ => Some (TFloat text)
                  | None => None
                  end
           end
  end.

Definition snoc (s : string) (c : ascii) : string := s ++ String c EmptyString.

(** The scanner's state after the character [c] when no token is open. *)
Definition scan_start (c : ascii) (toks : list token) : option (scan_state * list token) :=
  if is_ws c then Some (SStart, toks)
  else if Ascii.eqb c "{" then Some (SStart, TLBrace :: toks)
  else if Ascii.eqb c "}" then Some (SStart, TRBrace :: toks)
  else if Ascii.eqb c "[" then Some (SStart, TLBracket :: toks)
  else if Ascii.eqb c "]" then Some (SStart, TRBracket :: toks)
  else if Ascii.eqb c "," then Some (SStart, TComma :: toks)
  else if Ascii.eqb c ":" then Some (SStart, TColon :: toks)
  else if Py.code c =? 34 then Some (SString EmptyString, toks)
  else if Ascii.eqb c "-" then Some (SMinus, toks)
  else if Py.isdecimal c then Some (SNumber (String c EmptyString), toks)
  else if Ascii.eqb c "n" then Some (SKeyword "ull" TNull, toks)
  else if Ascii.eqb c "t" then Some (SKeyword "rue" TTrue, toks)
  else if Ascii.eqb c "f" then Some (SKeyword "alse" TFalse, toks)
  else if Ascii.eqb c "N" then Some (SKeyword "aN" (TFloat "NaN"), toks)
  else if Ascii.eqb c "I" then Some (SKeyword "nfinity" (TFloat "Infinity"), toks)
  else None.

(** One character of the text. [toks] is in reverse order; [beyond] records
    an escape [\uXXXX] above U+00FF. *)
Definition scan_char (st : scan_state) (c : ascii) (toks : list token) (beyond : bool)
    : option (scan_state * list token * bool) :=
  match st with
  | SStart => option_map (fun r => (r, beyond)) (scan_start c toks)
  | SMinus =>
      if Ascii.eqb c "I" then Some (SKeyword "nfinity" (TFloat "-Infinity"), toks, beyond)
      else if is_number_char c then Some (SNumber (String "-" (String c EmptyString)), toks, beyond)
      else None
  | SNumber text =>
      if is_number_char c then Some (SNumber (snoc text c), toks, beyond)
      else match number_token text with
           | Some t => option_map (fun r => (r, beyond)) (scan_start c (t :: toks))
           | None => None
           end
  | SKeyword rest t =>
      match rest with
      | String r rest' =>
          if Ascii.eqb c r then
            match rest' with
            | EmptyString => Some (SStart, t :: toks, beyond)
            | _ => Some (SKeyword rest' t, toks, beyond)
            end
          else None
      | EmptyString => None
      end
  | SString acc =>
      if Py.code c =? 34 then Some (SStart, TString acc :: toks, beyond)
      else if Ascii.eqb c "\" then Some (SEscape acc, toks, beyond)
      else if Py.code c <? 32 then None
      else Some (SString (snoc acc c), toks, beyond)
  | SEscape acc =>
      if (Py.code c =? 34) || Ascii.eqb c "\" || Ascii.eqb c "/"
      then Some (SString (snoc acc c), toks, beyond)
      else if Ascii.eqb c "b" then Some (SString (snoc acc (Py.chr 8)), toks, beyond)
      else if Ascii.eqb c "f" then Some (SString (snoc acc (Py.chr 12)), toks, beyond)
      else if Ascii.eqb c "n" then Some (SString (snoc acc (Py.chr 10)), toks, beyond)
      else if Ascii.eqb c "r" then Some (SString (snoc acc (Py.chr 13)), toks, beyond)
      else if Ascii.eqb c "t" then Some (SString (snoc acc (Py.chr 9)), toks, beyond)
      else if Ascii.eqb c "u" then Some (SHex acc 0 0, toks, beyond)
      else None
  | SHex acc count value =>
      match hex_value c with
      | None => None
      | Some d =>
          let v := 16 * value + d in
          if (count <? 3)%nat then Some (SHex acc (S count) v, toks, beyond)
          else if v <=? 255 then Some (SString (snoc acc (Py.chr v)), toks, beyond)
          else Some (SString (snoc acc "?"), toks, true)
      end
  end.

Fixpoint scan (s : string) (st : scan_state) (toks : list token) (beyond : bool)
    : option (list token * bool) :=
  match s with
  | String c s' =>
      match scan_char st c toks beyond with
      | Some (st', toks', beyond') => scan s' st' toks' beyond'
      | None => None
      end
  | EmptyString =>
      match st with
      | SStart => Some (rev toks, beyond)
      | SNumber text =>
          match number_token text with
          | Some t => Some (rev (t :: toks), beyond)
          | None => None
          end
      | _ => None
      end
  end.

(** The parser: [value], the elements of an array after its bracket, the
    members of an object after its brace. Every call reads at least one
    token before it calls another, so a fuel of one more than the number of
    tokens is never exhausted ([loads_grammar] below). *)
Fixpoint value (fuel : nat) (toks : list token) : option (json * list token) :=
  match fuel with
  | O => None
  | S fuel' =>
      match toks with
      | TNull :: r => Some (JNull, r)
      | TTrue :: r => Some (JBool true, r)
      | TFalse :: r => Some (JBool false, r)
      | TInt n :: r => Some (JInt n, r)
      | TFloat l :: r => Some (JFloat l, r)
      | TString s :: r => Some (JStr s, r)
      | TLBracket :: TRBracket :: r => Some (JArr [], r)
      | TLBracket :: r =>
          match elements fuel' r with
          | Some (vs, r') => Some (JArr vs, r')
          | None => None
          end
      | TLBrace :: TRBrace :: r => Some (JObj [], r)
      | TLBrace :: r =>
          match members fuel' r with
          | Some (ms, r') => Some (JObj ms, r')
          | None => None
          end
      | _ => None
      end
  end
with elements (fuel : nat) (toks : list token) : option (list json * list token) :=
  match fuel with
  | O => None
  | S fuel' =>
      match value fuel' toks with
      | Some (v, TRBracket :: r) => Some ([v], r)
      | Some (v, TComma :: r) =>
          match elements fuel' r with
          | Some (vs, r') => Some (v :: vs, r')
          | None => None
          end
      | _ => None
      end
  end
with members (fuel : nat) (toks : list token)
    : option (list (string * json) * list token) :=
  match fuel with
  | O => None
  | S fuel' =>
      match toks with
      | TString k :: TColon :: r =>
          match value fuel' r with
          | Some (v, TRBrace :: r') => Some ([(k, v)], r')
          | Some (v, TComma :: r') =>
              match members fuel' r' with
              | Some (ms, r'') => Some ((k, v) :: ms, r'')
              | None => None
              end
          | _ => None
          end
      | _ => None
      end
  end.

(** The grammar the parser follows, without fuel. *)
Inductive parses_value : list token -> json -> list token -> Prop :=
| parses_null r : parses_value (TNull :: r) JNull r
| parses_true r : parses_value (TTrue :: r) (JBool true) r
| parses_false r : parses_value (TFalse :: r) (JBool false) r
| parses_int n r : parses_value (TInt n :: r) (JInt n) r
| parses_float l r : parses_value (TFloat l :: r) (JFloat l) r
| parses_string s r : parses_value (TString s :: r) (JStr s) r
| parses_empty_array r : parses_value (TLBracket :: TRBracket :: r) (JArr []) r
| parses_array toks vs r :
    parses_elements toks vs r -> parses_value (TLBracket :: toks) (JArr vs) r
| parses_empty_object r : parses_value (TLBrace :: TRBrace :: r) (JObj []) r
| parses_object toks ms r :
    parses_members toks ms r -> parses_value (TLBrace :: toks) (JObj ms) r
with parses_elements : list token -> list json -> list token -> Prop :=
| parses_last_element toks v r :
    parses_value toks v (TRBracket :: r) -> parses_elements toks [v] r
| parses_next_element toks v toks' vs r :
    parses_value toks v (TComma :: toks') -> parses_elements toks' vs r ->
    parses_elements toks (v :: vs) r
with parses_members : list token -> list (string * json) -> list token -> Prop :=
| parses_last_member k toks v r :
    parses_value toks v (TRBrace :: r) ->
    parses_members (TString k :: TColon :: toks) [(k, v)] r
| parses_next_member k toks v toks' ms r :
    parses_value toks v (TComma :: toks') -> parses_members toks' ms r ->
    parses_members (TString k :: TColon :: toks) ((k, v) :: ms) r.

(** [json.loads(s)] *)
Definition loads (s : string) : result json :=
  match scan s SStart [] false with
  | None => Raise JSONDecodeError
  | Some (toks, beyond) =>
      match value (S (List.length toks)) toks with
      | Some (v, []) => if beyond then Unmodelled else Ok v
      | _ => Raise JSONDecodeError
      end
  end.

(** [d.get(k)] on a decoded object: the last member with key [k]. *)
Fixpoint get (k : string) (members : list (string * json)) : option json :=
  match members with
  | [] => None
  | (k', v) :: rest =>
      match get k rest with
      | Some v' => Some v'
      | None => if String.eqb k k' then Some v else None
      end
  end.

(** [k in d] *)
Definition has_key (k : string) (members : list (string * json)) : bool :=
  existsb (fun m => String.eqb k (fst m)) members.

End Json.

(** ** wifi_scanner_termux.py *)

Module Termux.

(** [dbm_to_percent(rssi)] on an [int]. The division is Python's true
    division, [int] truncates its result. *)
Definition dbm_to_percent (rssi : Z) : result Z :=
  if rssi >=? -30 then Ok 100
  else if rssi <=? -90 then Ok 0
  else f <- Py.truediv (100 * (rssi + 90)) 60 ;; Ok (Py.int_of_float f).

(** [freq_to_channel(freq_mhz)] on an [int]; [//] is floor division. *)
Definition freq_to_channel (freq_mhz : Z) : option Z :=
  if (2412 <=? freq_mhz) && (freq_mhz <=? 2484) then
    if freq_mhz =? 2484 then Some 14
    else Some ((freq_mhz - 2412) / 5 + 1)
  else if (5170 <=? freq_mhz) && (freq_mhz <=? 5825) then
    Some ((freq_mhz - 5170) / 5 + 34)
  else if (5955 <=? freq_mhz) && (freq_mhz <=? 7115) then
    Some ((freq_mhz - 5955) / 5 + 1)
  else None.

(** The two normalizers called on a decoded value: a [bool] is an [int],
    comparing any other non-number with an [int] is a [TypeError]. Of the
    floats, the three that [json.loads] reads from [NaN], [Infinity] and
    [-Infinity] are followed through [dbm_to_percent]: the infinities are
    settled by its comparisons, and the float that is not a number fails
    both, goes through the interpolation and is refused by [int] with a
    [ValueError]. *)
Definition call_dbm_to_percent (v : json) : result Z :=
  match v with
  | JInt n => dbm_to_percent n
  | JBool b => dbm_to_percent (if b then 1 else 0)
  | JFloat literal =>
      if String.eqb literal "NaN" then Raise ValueError
      else if String.eqb literal "Infinity" then Ok 100
      else if String.eqb literal "-Infinity" then Ok 0
      else Unmodelled
  | _ => Raise TypeError
  end.

Definition call_freq_to_channel (v : json) : result (option Z) :=
  match v with
  | JInt n => Ok (freq_to_channel n)
  | JBool b => Ok (freq_to_channel (if b then 1 else 0))
  | JFloat _ => Unmodelled
  | _ => Raise TypeError
  end.

(** The record built for one access point; every key is present. *)
Record network : Type := mkNetwork {
  ssid : json;
  bssid : string;
  signal : Z;
  rssi_dbm : json;
  channel : option Z;
  frequency_mhz : json
}.

(** The truth value of a decoded value. *)
Definition truthy (v : json) : result bool :=
  match v with
  | JNull => Ok false
  | JBool b => Ok b
  | JInt n => Ok (negb (n =? 0))
  | JFloat _ => Unmodelled
  | JStr s => Ok (negb (String.eqb s EmptyString))
  | JArr l => Ok (match l with [] => false | _ => true end)
  | JObj m => Ok (match m with [] => false | _ => true end)
  end.

(** [ap.get(k, default)]; only a [dict] has [get]. *)
Definition get (ap : json) (k : string) (default : json) : result json :=
  match ap with
  | JObj m => Ok (match Json.get k m with Some v => v | None => default end)
  | _ => Raise AttributeError
  end.

(** [.lower()]; only a [str] has it. *)
Definition lower (v : json) : result string :=
  match v with
  | JStr s => Ok (Py.lower s)
  | _ => Raise AttributeError
  end.

(** The body of the loop: the record of one element. *)
Definition access_point (ap : json) : result network :=
  s <- get ap "ssid" (JStr EmptyString) ;;
  t <- truthy s ;;
  let ssid := if t then s else JStr "<Hidden>" in
  b <- get ap "bssid" (JStr EmptyString) ;;
  bssid <- lower b ;;
  r <- get ap "rssi" (JInt (-100)) ;;
  signal <- call_dbm_to_percent r ;;
  rssi_dbm <- get ap "rssi" JNull ;;
  f <- get ap "frequency_mhz" (JInt 0) ;;
  channel <- call_freq_to_channel f ;;
  frequency_mhz <- get ap "frequency_mhz" JNull ;;
  Ok (mkNetwork ssid bssid signal rssi_dbm channel frequency_mhz).

Fixpoint keys (members : list (string * json)) (seen : list string) : list string :=
  match members with
  | [] => []
  | (k, _) :: rest =>
      if existsb (String.eqb k) seen then keys rest seen
      else k :: keys rest (k :: seen)
  end.

Fixpoint chars (s : string) : list json :=
  match s with
  | EmptyString => []
  | String c s' => JStr (String c EmptyString) :: chars s'
  end.

(** What [for ap in scan_results] iterates over: the elements of a list,
    the keys of a dict, the characters of a str. *)
Definition iterate (scan_results : json) : result (list json) :=
  match scan_results with
  | JArr l => Ok l
  | JObj m => Ok (map JStr (keys m []))
  | JStr s => Ok (chars s)
  | _ => Raise TypeError
  end.

Fixpoint access_points (aps : list json) (networks : list network)
    : result (list network) :=
  match aps with
  | [] => Ok networks
  | ap :: rest =>
      network <- access_point ap ;;
      access_points rest (append networks network)
  end.

(** The statements after [scan_results = json.loads(result.stdout)]. *)
Definition networks_of (scan_results : json) : result (list network) :=
  _ <- match scan_results with
       | JObj m =>
           if Json.has_key "error" m
           then Raise (RuntimeError
                         (TermuxApiError (match Json.get "error" m with
                                          | Some v => v
                                          | None => JNull
                                          end)))
           else Ok tt
       | _ => Ok tt
       end ;;
  aps <- iterate scan_results ;;
  access_points aps [].

(** The [try] block. *)
Definition scan_body (run : result completed) : result (list network) :=
  result <- run ;;
  if negb (returncode result =? 0)
  then Raise (RuntimeError (ScanFailed (stderr result)))
  else
    scan_results <- Json.loads (stdout result) ;;
    networks_of scan_results.

(** [run] is the outcome of [subprocess.run(['termux-wifi-scaninfo'], ...)]. *)
Definition get_wifi_bssids (run : result completed) : result (list network) :=
  match scan_body run with
  | Raise TimeoutExpired => Raise (RuntimeError ScanTimedOut)
  | Raise JSONDecodeError => Raise (RuntimeError ParseFailed)
  | Raise FileNotFoundError => Raise (RuntimeError ToolNotFound)
  | r => r
  end.

End Termux.

(** * The rest of the scanners *)

(** ** Texts below the limit on integer strings

    CPython refuses to convert a string of more than 4300 digits to an
    [int] and raises [ValueError]; [Py.int] and [Json.loads] convert digits
    in any number. What the scanners pass to [int] is a run of digits of
    their input, so on a text without a longer run the model and CPython
    agree on every conversion. *)

(** The longest run of digits in [s], after a run of [cur] digits that ends
    where [s] starts. *)
Fixpoint digit_run (cur : nat) (s : string) : nat :=
  match s with
  | EmptyString => cur
  | String c s' =>
      if Py.isdigit_char c then digit_run (S cur) s'
      else Nat.max cur (digit_run 0 s')
  end.

Definition within_digit_limit (s : string) : bool :=
  (digit_run 0 s <=? 4300)%nat.

(** ** Lines of the nmcli listing *)

Module Nmcli.

(** The fields of a line, still with their placeholders. *)
Definition fields (line : string) : list string :=
  Py.split ":" (Py.replace "\:" "##COLON##" line).

(** A line for which the loop builds a record: not blank, four fields. *)
Definition record_line (line : string) : bool :=
  negb (String.eqb (Py.strip line) EmptyString)
  && (4 <=? List.length (fields line))%nat.

(** A field that passes [isdigit] and is not made of decimal digits. *)
Definition odd_digits (field : string) : bool :=
  Py.isdigit field && negb (Py.forallb_str Py.isdecimal field).

(** A line on which the loop raises. *)
Definition raising_line (line : string) : bool :=
  record_line line
  && (odd_digits (nth 2 (fields line) EmptyString)
      || odd_digits (nth 3 (fields line) EmptyString)).

(** The integer a field stands for, [None] when [isdigit] refuses it. *)
Definition number (field : string) : option Z :=
  if Py.isdigit field then
    match Py.int field with
    | Ok v => Some v
    | _ => None
    end
  else None.

(** The record of a record line, field by field. *)
Definition record_of (line : string) : network :=
  let parts := fields line in
  let ssid := Py.replace "##COLON##" ":" (nth 0 parts EmptyString) in
  mkNetwork
    (Some (match ssid with EmptyString => "<Hidden>" | _ => ssid end))
    (Some (Py.lower (Py.replace "##COLON##" ":" (nth 1 parts EmptyString))))
    (Some (number (nth 2 parts EmptyString)))
    (Some (number (nth 3 parts EmptyString))).

End Nmcli.

(** ** Signal lines of the iwlist scan *)

Module Iwlist.

(** A line whose signal level is read as a ratio: the loop reaches its
    third branch, the dBm pattern fails and the ratio pattern matches. *)
Definition ratio_line (line : string) : bool :=
  let line := Py.strip line in
  negb (Py.startswith "Cell" line)
  && negb (Py.contains "Channel:" line)
  && Py.contains "Signal level" line
  && match Re.search Linux.dbm_re line with Some _ => false | None => true end
  && match Re.search Linux.ratio_re line with Some _ => true | None => false end.

(** A run of decimal digits, with or without a minus sign in front. *)
Definition signed (p : string) : Prop :=
  exists d, d <> EmptyString /\ Py.forallb_str Py.isdecimal d = true /\
            (p = d \/ p = String "-" d).

End Iwlist.

(** ** Exceptions of the Termux loop *)

(** What the loop over the decoded document can raise. *)
Definition of_the_loop (e : exn) : Prop :=
  e = TypeError \/ e = AttributeError \/ e = ValueError.

(** A scan result whose one access point reports a level that is not a
    number. *)
Definition nan_level : string :=
  "[{" ++ Linux.dq ++ "rssi" ++ Linux.dq ++ ": NaN}]".

(** ** Records as the multi-line parsers keep them *)

(** A record whose identifier is in lower case, whose name satisfies
    [name_ok], and whose signal and channel, when the keys are present, are
    integers (not Python's [None]). *)
Definition record_ok (name_ok : string -> Prop) (r : network) : Prop :=
  (forall b, bssid r = Some b -> Py.lower b = b) /\
  (forall s, ssid r = Some s -> name_ok s) /\
  signal r <> Some None /\
  channel r <> Some None.

(** A record with the ['bssid'] key. *)
Definition keyed (r : network) : Prop := exists b, bssid r = Some b.

Definition nonempty (s : string) : Prop := s <> EmptyString.

Definition any_name (s : string) : Prop := True.

Definition hidden_listing : string := ":aa\:bb\:cc\:dd\:ee\:ff:70:11".

(** ** Rows the table cannot print *)

(** A record whose ['channel'] key holds Python's [None]. *)
Definition unprintable (r : network) : bool :=
  match channel r with
  | Some None => true
  | _ => false
  end.

(** A record line of the terse listing whose channel field is no digit
    string. *)
Definition no_channel_line (line : string) : bool :=
  Nmcli.record_line line
  && negb (Py.isdigit (nth 3 (Nmcli.fields line) EmptyString)).

Definition no_channel_listing : string := "Net:aa\:bb\:cc\:dd\:ee\:ff:80:".

(** * The programs around the scanners *)

(** ** Exceptions and outcomes of the programs *)

(** What a call can raise in the programs: an exception of the scanners, or
    one that only the facade and the programs meet. [NoToolAvailable] is the
    [RuntimeError] of the Linux facade, [OSError] stands for a failure of
    the network. *)
Inductive raised : Type :=
| Scanner (e : exn)
| NoToolAvailable
| KeyError
| PermissionError
| OSError
| KeyboardInterrupt.

(** [except RuntimeError] *)
Definition is_runtime_error (r : raised) : bool :=
  match r with
  | Scanner (RuntimeError _) | NoToolAvailable => true
  | _ => false
  end.

(** [except Exception]: everything here but [KeyboardInterrupt]. *)
Definition is_exception (r : raised) : bool :=
  match r with
  | KeyboardInterrupt => false
  | _ => true
  end.

Inductive outcome (A : Type) : Type :=
| Returned (a : A)
| Raised (r : raised)
| Beyond.

Arguments Returned {A} a.
Arguments Raised {A} r.
Arguments Beyond {A}.

(** The outcome of a scanner, seen from a program. *)
Definition lift {A : Type} (r : result A) : outcome A :=
  match r with
  | Ok a => Returned a
  | Raise e => Raised (Scanner e)
  | Unmodelled => Beyond
  end.

(** ** [get_wifi_bssids] of wifi_scanner_linux.py *)

Module Facade.

Definition interfaces : list string := ["wlan0"; "wlp2s0"; "wlp3s0"; "wifi0"].

(** The [for] loop: the outcome of the first interface whose scan does not
    raise [CalledProcessError]; [None] when the loop runs to its end.
    [iwlist iface] is the outcome of [get_wifi_bssids_iwlist(iface)]. *)
Fixpoint try_interfaces (iwlist : string -> outcome (list network))
    (ifaces : list string) : option (outcome (list network)) :=
  match ifaces with
  | [] => None
  | iface :: rest =>
      match iwlist iface with
      | Raised (Scanner CalledProcessError) => try_interfaces iwlist rest
      | o => Some o
      end
  end.

(** [which_nmcli] and [which_iwlist] are the truth values of
    [shutil.which(...)], [nmcli] is the outcome of
    [get_wifi_bssids_nmcli()]. *)
Definition get_wifi_bssids (which_nmcli which_iwlist : bool)
    (nmcli : outcome (list network))
    (iwlist : string -> outcome (list network)) : outcome (list network) :=
  let first :=
    if which_nmcli then
      match nmcli with
      | Raised (Scanner CalledProcessError) => None
      | o => Some o
      end
    else None in
  match first with
  | Some o => o
  | None =>
      let second :=
        if which_iwlist then try_interfaces iwlist interfaces else None in
      match second with
      | Some o => o
      | None => Raised NoToolAvailable
      end
  end.

(** The machine the facade runs on: which tools are installed and what
    their processes give. *)
Record host : Type := mkHost {
  nmcli_found : bool;
  iwlist_found : bool;
  rescan : result completed;
  listing : result completed;
  scan : string -> result completed
}.

Definition on_host (h : host) : outcome (list network) :=
  get_wifi_bssids (nmcli_found h) (iwlist_found h)
    (lift (Linux.get_wifi_bssids_nmcli (rescan h) (listing h)))
    (fun iface => lift (Linux.get_wifi_bssids_iwlist (scan h iface))).

(** The calls the facade can make, in its order. *)
Definition candidates (which_nmcli which_iwlist : bool)
    (nmcli : outcome (list network))
    (iwlist : string -> outcome (list network))
    : list (outcome (list network)) :=
  ((if which_nmcli then [nmcli] else [])
     ++ (if which_iwlist then map iwlist interfaces else []))%list.

Definition fails_to_run (o : outcome (list network)) : bool :=
  match o with
  | Raised (Scanner CalledProcessError) => true
  | _ => false
  end.

End Facade.

(** ** [print_networks] of wifi_scanner_termux.py

    The records are those the Termux scanner builds: all six keys are
    present. *)

Module TermuxTable.

(** [networks.sort(key=lambda x: x.get('signal', 0), reverse=True)] *)
Fixpoint insert_desc (x : Termux.network) (l : list Termux.network)
    : list Termux.network :=
  match l with
  | [] => [x]
  | y :: l' =>
      if Termux.signal y <=? Termux.signal x then x :: l
      else y :: insert_desc x l'
  end.

Fixpoint sorted_desc (l : list Termux.network) : list Termux.network :=
  match l with
  | [] => []
  | x :: l' => insert_desc x (sorted_desc l')
  end.

Definition header : string :=
  Table.nl ++ Py.ljust 28 "SSID" ++ " " ++ Py.ljust 18 "BSSID" ++ " "
     ++ Py.ljust 8 "Signal" ++ " " ++ Py.ljust 4 "Ch" ++ " "
     ++ Py.ljust 6 "Freq".

(** [net.get('ssid', '<Hidden>')[:27]], then formatted with [:<28]. Only a
    [str] and a [list] can be sliced, and a [list] cannot be formatted so;
    slicing a [dict] raises an exception that depends on the version of
    Python. *)
Definition ssid_cell (v : json) : result string :=
  match v with
  | JStr s => Ok (Py.ljust 28 (Py.slice_to 27 s))
  | JObj _ => Unmodelled
  | _ => Raise TypeError
  end.

(** [f"{channel:<4}"]: [None] has no such format. *)
Definition channel_cell (c : option Z) : result string :=
  match c with
  | Some n => Ok (Py.ljust 4 (Py.str_of_int n))
  | None => Raise TypeError
  end.

(** [f"{freq:<6}"]; a [bool] is formatted as the [int] it is. *)
Definition freq_cell (v : json) : result string :=
  match v with
  | JInt n => Ok (Py.ljust 6 (Py.str_of_int n))
  | JBool b => Ok (Py.ljust 6 (if b then "1" else "0"))
  | JStr s => Ok (Py.ljust 6 s)
  | JFloat _ => Unmodelled
  | _ => Raise TypeError
  end.

Definition row (net : Termux.network) : result string :=
  ssid <- ssid_cell (Termux.ssid net) ;;
  let bssid := Py.ljust 18 (Termux.bssid net) in
  let signal := Py.ljust 8 (Py.str_of_int (Termux.signal net) ++ "%") in
  channel <- channel_cell (Termux.channel net) ;;
  freq <- freq_cell (Termux.frequency_mhz net) ;;
  Ok (ssid ++ " " ++ bssid ++ " " ++ signal ++ " " ++ channel ++ " " ++ freq).

Fixpoint rows (l : list Termux.network) (out : list string)
    : list string * result unit :=
  match l with
  | [] => (out, Ok tt)
  | net :: l' =>
      match row net with
      | Ok r => rows l' (append out r)
      | Raise e => (out, Raise e)
      | Unmodelled => (out, Unmodelled)
      end
  end.

Record effect : Type := mkEffect {
  networks_after : list Termux.network;
  printed : list string;
  ended : result unit
}.

Definition print_networks (networks : list Termux.network) : effect :=
  match networks with
  | [] => mkEffect networks ["No WiFi networks found."] (Ok tt)
  | _ =>
      let out := [header; Table.repeat_str "-" 70] in
      let networks := sorted_desc networks in
      match rows networks out with
      | (out, Ok _) =>
          mkEffect networks
            (append out (Table.nl ++ "Total: "
                           ++ Py.str_of_int (Z.of_nat (List.length networks))
                           ++ " access point(s)"))
            (Ok tt)
      | (out, ended) => mkEffect networks out ended
      end
  end.

(** A record the table can print: a name that is a string, a channel. *)
Definition named (r : Termux.network) : bool :=
  match Termux.ssid r with
  | JStr _ => true
  | _ => false
  end.

Definition has_channel (r : Termux.network) : bool :=
  match Termux.channel r with
  | Some _ => true
  | None => false
  end.

(** A record as the loop of the scanner builds it: when it has a channel,
    its frequency is the integer the channel was computed from. *)
Definition scanned (r : Termux.network) : Prop :=
  Termux.channel r <> None ->
  (exists n, Termux.frequency_mhz r = JInt n) \/
  (exists b, Termux.frequency_mhz r = JBool b).

End TermuxTable.

(** A scan result with an access point on 5845 MHz (channel 169). *)
Definition out_of_band : string :=
  "[{" ++ Linux.dq ++ "ssid" ++ Linux.dq ++ ": " ++ Linux.dq ++ "Net" ++ Linux.dq
       ++ ", " ++ Linux.dq ++ "bssid" ++ Linux.dq ++ ": "
       ++ Linux.dq ++ "AA:BB:CC:DD:EE:FF" ++ Linux.dq
       ++ ", " ++ Linux.dq ++ "rssi" ++ Linux.dq ++ ": -50"
       ++ ", " ++ Linux.dq ++ "frequency_mhz" ++ Linux.dq ++ ": 5845}]".

(** ** [run_mqtt_publisher] and [main]

    A run is recorded as the sequence of its calls that reach outside:
    [print], the calls on the MQTT client, [time.sleep]. The callbacks
    [on_connect] and [on_publish] run on the network thread of the client
    and are not part of it. The client's constructor, [loop_start],
    [loop_stop], [disconnect], [time.strftime] and [json.dumps] return;
    [connect], [publish], the scanner and [time.sleep] end as the
    environment says. *)

Module Program.

(** The parsed command line. *)
Record args : Type := mkArgs {
  mqtt : bool;
  broker : string;
  port : Z;
  topic : string;
  interval : Z;
  once : bool
}.

(** A printed line: its text, or a text followed by [str(e)] for the
    exception [e] caught, which is not rendered. *)
Inductive line : Type :=
| Text (s : string)
| About (s : string) (r : raised).

(** The [dict] passed to [json.dumps]. *)
Record payload (A : Type) : Type := mkPayload {
  timestamp : string;
  device : string;
  count : Z;
  networks : list A
}.

Arguments mkPayload {A} timestamp device count networks.
Arguments timestamp {A} p.
Arguments device {A} p.
Arguments count {A} p.
Arguments networks {A} p.

Inductive event (A : Type) : Type :=
| Print (l : line)
| Connect (broker : string) (port keepalive : Z)
| LoopStart
| Publish (topic : string) (p : payload A) (qos : Z)
| Sleep (seconds : Z)
| LoopStop
| Disconnect.

Arguments Print {A} l.
Arguments Connect {A} broker port keepalive.
Arguments LoopStart {A}.
Arguments Publish {A} topic p qos.
Arguments Sleep {A} seconds.
Arguments LoopStop {A}.
Arguments Disconnect {A}.

(** How a run ends: the function returns, [sys.exit] is called, an
    exception leaves it, the loop is still going when the environment
    given has been used up, or the run has left the model. *)
Inductive ending : Type :=
| Returns
| Exits (code : Z)
| Raises (r : raised)
| Loops
| NotModelled.

Record run (A : Type) : Type := mkRun {
  trace : list (event A);
  ends : ending
}.

Arguments mkRun {A} trace ends.
Arguments trace {A} r.
Arguments ends {A} r.

(** What one turn of the loop meets: the outcome of [get_wifi_bssids()],
    the time, what [client.publish] raises and what stops [time.sleep]. *)
Record cycle (A : Type) : Type := mkCycle {
  scan_gives : outcome (list A);
  now : string;
  publish_raises : option raised;
  sleep_raises : option raised
}.

Arguments mkCycle {A} scan_gives now publish_raises sleep_raises.
Arguments scan_gives {A} c.
Arguments now {A} c.
Arguments publish_raises {A} c.
Arguments sleep_raises {A} c.

(** The longest wait, in seconds, whose length in nanoseconds fits the
    signed 64-bit integer in which CPython 3.11 keeps it. *)
Definition sleep_limit : Z := 9223372036.

(** [time.sleep(seconds)] on an [int]: a length beyond [sleep_limit] on
    either side is an [OverflowError], raised before the sign is looked at;
    a negative length within it is a [ValueError]; any other wait ends as
    the environment says (it runs to its end, Ctrl+C arrives, or the
    system refuses it with an [OSError]). *)
Definition sleep (seconds : Z) (stopped : option raised) : option raised :=
  if (seconds <? - sleep_limit) || (sleep_limit <? seconds)
  then Some (Scanner OverflowError)
  else if seconds <? 0 then Some (Scanner ValueError)
  else stopped.

(** What [time.sleep] raises on a length it refuses. *)
Definition refusal (seconds : Z) : exn :=
  if (seconds <? - sleep_limit) || (sleep_limit <? seconds)
  then OverflowError else ValueError.

Definition cleanup {A : Type} : list (event A) :=
  [LoopStop; Disconnect; Print (Text "Disconnected")].

Section Publisher.

Context {A : Type}.

(** What differs between the three programs: the sort of the summary, the
    text of a summary line, the device name and the [except] clause of the
    inner [try]. *)
Variable sorted : list A -> list A.
Variable summary_line : A -> outcome string.
Variable device_name : string.
Variable caught : raised -> bool.

(** [for net in ...: print(...)] *)
Fixpoint summary (l : list A) : list (event A) * outcome unit :=
  match l with
  | [] => ([], Returned tt)
  | net :: rest =>
      match summary_line net with
      | Returned s =>
          let (evs, o) := summary rest in (Print (Text s) :: evs, o)
      | Raised r => ([], Raised r)
      | Beyond => ([], Beyond)
      end
  end.

(** The statements of the inner [try]. *)
Definition attempt (a : args) (c : cycle A) : list (event A) * outcome unit :=
  match scan_gives c with
  | Returned networks =>
      let n := Z.of_nat (List.length networks) in
      let p := mkPayload (now c) device_name n networks in
      match publish_raises c with
      | Some r => ([], Raised r)
      | None =>
          let (lines, o) := summary (firstn 5 (sorted networks)) in
          let evs :=
            Publish (topic a) p 1
              :: Print (Text ("Published " ++ Py.str_of_int n
                                ++ " networks to: " ++ topic a))
              :: lines in
          match o with
          | Returned _ =>
              (if 5 <? n
               then append evs (Print (Text ("  ... and " ++ Py.str_of_int (n - 5)
                                               ++ " more")))
               else evs,
               Returned tt)
          | o => (evs, o)
          end
      end
  | Raised r => ([], Raised r)
  | Beyond => ([], Beyond)
  end.

(** One turn of [while True] up to the test of [args.once]. *)
Definition iteration (a : args) (c : cycle A) : list (event A) * outcome unit :=
  let (evs, o) := attempt a c in
  let evs := Print (Text (Table.nl ++ "Scanning for WiFi networks...")) :: evs in
  match o with
  | Raised r =>
      if caught r then (append evs (Print (About "Scan error: " r)), Returned tt)
      else (evs, Raised r)
  | o => (evs, o)
  end.

Fixpoint loop (a : args) (cycles : list (cycle A)) : list (event A) * ending :=
  match cycles with
  | [] => ([], Loops)
  | c :: rest =>
      let (evs, o) := iteration a c in
      match o with
      | Raised r => (evs, Raises r)
      | Beyond => (evs, NotModelled)
      | Returned _ =>
          if once a then (evs, Returns)
          else
            let evs :=
              (evs ++ [Print (Text (Table.nl ++ "Next scan in "
                                      ++ Py.str_of_int (interval a)
                                      ++ "s... (Ctrl+C to stop)"));
                       Sleep (interval a)])%list in
            match sleep (interval a) (sleep_raises c) with
            | Some r => (evs, Raises r)
            | None => let (evs', e) := loop a rest in ((evs ++ evs')%list, e)
            end
      end
  end.

(** [installed] tells whether [import paho.mqtt.client] succeeds,
    [connect_raises] what [client.connect] raises. *)
Definition run_mqtt_publisher (a : args) (installed : bool)
    (connect_raises : option raised) (cycles : list (cycle A)) : run A :=
  if installed then
    let start :=
      [Print (Text ("Connecting to " ++ broker a ++ ":"
                      ++ Py.str_of_int (port a) ++ "..."));
       Connect (broker a) (port a) 60] in
    match connect_raises with
    | Some r =>
        if is_exception r
        then mkRun (append start (Print (About "Failed to connect: " r))) (Exits 1)
        else mkRun start (Raises r)
    | None =>
        let (evs, e) := loop a cycles in
        let evs := (start ++ LoopStart :: evs)%list in
        match e with
        | Raises KeyboardInterrupt =>
            mkRun (evs ++ Print (Text (Table.nl ++ "Stopping...")) :: cleanup)%list
                  Returns
        | Loops => mkRun evs Loops
        | NotModelled => mkRun evs NotModelled
        | e => mkRun (evs ++ cleanup)%list e
        end
    end
  else
    mkRun [Print (Text "Error: paho-mqtt not installed");
           Print (Text "Run: pip install paho-mqtt")]
          (Exits 1).

(** The simple scan mode of [main] up to its [except] clauses: the banner,
    the scan and the table. *)
Definition scan_and_print (print_networks : list A -> list string * result unit)
    (banner : string) (scan : outcome (list A))
    : list (event A) * outcome unit :=
  match scan with
  | Returned networks =>
      let (out, e) := print_networks networks in
      (Print (Text banner) :: map (fun s => Print (Text s)) out, lift e)
  | Raised r => ([Print (Text banner)], Raised r)
  | Beyond => ([Print (Text banner)], Beyond)
  end.

End Publisher.

(** An event of one turn of the loop: a line or a message. *)
Definition in_turn {A : Type} (ev : event A) : Prop :=
  match ev with
  | Print _ | Publish _ _ _ => True
  | _ => False
  end.


(** A turn that nothing interrupts: the scan stays in the model, no Ctrl+C
    arrives during the scan or the publication, the wait runs to its
    end. *)
Definition uninterrupted {A : Type} (c : cycle A) : Prop :=
  scan_gives c <> Beyond /\
  scan_gives c <> Raised KeyboardInterrupt /\
  publish_raises c <> Some KeyboardInterrupt /\
  sleep_raises c = None.

(** A payload that reports a scan of the run: the list one of the turns
    got from the scanner, with its length, its time and the device name. *)
Definition genuine {A : Type} (device_name : string) (cycles : list (cycle A))
    (p : payload A) : Prop :=
  device p = device_name /\
  count p = Z.of_nat (List.length (networks p)) /\
  exists c, In c cycles /\ scan_gives c = Returned (networks p) /\
            now c = timestamp p /\ publish_raises c = None.

(** The payloads published in a run, in order. *)
Fixpoint published {A : Type} (evs : list (event A)) : list (payload A) :=
  match evs with
  | [] => []
  | Publish _ p _ :: rest => p :: published rest
  | _ :: rest => published rest
  end.

(** The number of calls of [time.sleep] in a run. *)
Fixpoint sleeps {A : Type} (evs : list (event A)) : nat :=
  match evs with
  | [] => O
  | Sleep _ :: rest => S (sleeps rest)
  | _ :: rest => sleeps rest
  end.

End Program.

Module LinuxProgram.

Import Program.

(** [f"  {net.get('ssid', '?')}: {net['bssid']} ({net.get('signal', '?')}%)"] *)
Definition summary_line (net : network) : outcome string :=
  match bssid net with
  | None => Raised KeyError
  | Some b =>
      Returned ("  " ++ match ssid net with Some s => s | None => "?" end
                  ++ ": " ++ b ++ " ("
                  ++ match signal net with
                     | Some (Some n) => Py.str_of_int n
                     | Some None => "None"
                     | None => "?"
                     end
                  ++ "%)")
  end.

Definition run_mqtt_publisher :=
  Program.run_mqtt_publisher Table.sorted_desc summary_line "linux"
    is_runtime_error.

Definition print_networks (networks : list network) : list string * result unit :=
  let e := Linux.print_networks networks in (Table.printed e, Table.ended e).

(** [scan] is the outcome of [get_wifi_bssids()] in the simple mode. *)
Definition main (a : args) (installed : bool) (connect_raises : option raised)
    (cycles : list (cycle network)) (scan : outcome (list network))
    : run network :=
  if mqtt a then run_mqtt_publisher a installed connect_raises cycles
  else
    let (evs, o) :=
      scan_and_print print_networks "Scanning for WiFi networks..." scan in
    match o with
    | Returned _ => mkRun evs Returns
    | Raised PermissionError =>
        mkRun (evs ++ [Print (Text "Error: Root privileges required for WiFi scanning with iwlist.");
                       Print (Text "Try running with: sudo python3 wifi_scanner_linux.py")])%list
              (Exits 1)
    | Raised r =>
        if is_runtime_error r
        then mkRun (append evs (Print (About "Error: " r))) (Exits 1)
        else mkRun evs (Raises r)
    | Beyond => mkRun evs NotModelled
    end.

End LinuxProgram.

Module WindowsProgram.

Import Program.

Definition run_mqtt_publisher :=
  Program.run_mqtt_publisher Table.sorted_desc LinuxProgram.summary_line
    "windows" is_exception.

Definition print_networks (networks : list network) : list string * result unit :=
  let e := Windows.print_networks networks in (Table.printed e, Table.ended e).

Definition main (a : args) (installed : bool) (connect_raises : option raised)
    (cycles : list (cycle network)) (scan : outcome (list network))
    : run network :=
  if mqtt a then run_mqtt_publisher a installed connect_raises cycles
  else
    let (evs, o) :=
      scan_and_print print_networks "Scanning for WiFi networks..." scan in
    match o with
    | Returned _ => mkRun evs Returns
    | Raised (Scanner FileNotFoundError) =>
        mkRun (append evs (Print (Text "Error: netsh command not found. This script requires Windows.")))
              (Exits 1)
    | Raised (Scanner CalledProcessError) =>
        mkRun (append evs (Print (About "Error running netsh command: "
                                    (Scanner CalledProcessError))))
              (Exits 1)
    | Raised r => mkRun evs (Raises r)
    | Beyond => mkRun evs NotModelled
    end.

End WindowsProgram.

Module TermuxProgram.

Import Program.

(** [check_termux_api()]; [which] is the outcome of
    [subprocess.run(['which', 'termux-wifi-scaninfo'], ...)]. *)
Definition check_termux_api (which : outcome completed) : outcome bool :=
  match which with
  | Returned result => Returned (returncode result =? 0)
  | Raised r => if is_exception r then Returned false else Raised r
  | Beyond => Beyond
  end.

(** The summary line; the name is a decoded value, rendered here when it is
    a string, an integer, a boolean or null. *)
Definition summary_line (net : Termux.network) : outcome string :=
  match match Termux.ssid net with
        | JStr s => Some s
        | JInt n => Some (Py.str_of_int n)
        | JBool b => Some (if b then "True" else "False")
        | JNull => Some "None"
        | _ => None
        end with
  | Some name =>
      Returned ("  " ++ name ++ ": " ++ Termux.bssid net ++ " ("
                  ++ Py.str_of_int (Termux.signal net) ++ "%)")
  | None => Beyond
  end.

Definition run_mqtt_publisher :=
  Program.run_mqtt_publisher TermuxTable.sorted_desc summary_line
    "android-termux" is_runtime_error.

Definition print_networks (networks : list Termux.network)
    : list string * result unit :=
  let e := TermuxTable.print_networks networks in
  (TermuxTable.printed e, TermuxTable.ended e).

Definition not_found : list (event Termux.network) :=
  [Print (Text "Error: termux-api not found!");
   Print (Text EmptyString);
   Print (Text "Install it with:");
   Print (Text "  1. Install 'Termux:API' app from F-Droid");
   Print (Text "  2. Run: pkg install termux-api");
   Print (Text "  3. Grant location permission to Termux:API")].

Definition main (a : args) (which : outcome completed) (installed : bool)
    (connect_raises : option raised) (cycles : list (cycle Termux.network))
    (scan : outcome (list Termux.network)) : run Termux.network :=
  match check_termux_api which with
  | Returned false => mkRun not_found (Exits 1)
  | Returned true =>
      if mqtt a then run_mqtt_publisher a installed connect_raises cycles
      else
        let (evs, o) :=
          scan_and_print print_networks "Scanning WiFi networks..." scan in
        match o with
        | Returned _ => mkRun evs Returns
        | Raised r =>
            if is_runtime_error r
            then mkRun (append evs (Print (About "Error: " r))) (Exits 1)
            else mkRun evs (Raises r)
        | Beyond => mkRun evs NotModelled
        end
  | Raised r => mkRun [] (Raises r)
  | Beyond => mkRun [] NotModelled
  end.

End TermuxProgram.

(** A turn whose scan fails with [CalledProcessError] (netsh could not
    run), and one whose scan finds nothing. *)
Definition failing_turn : Program.cycle network :=
  Program.mkCycle (Raised (Scanner CalledProcessError)) "2024-01-01T00:00:00Z"
    None None.

Definition empty_turn : Program.cycle network :=
  Program.mkCycle (Returned []) "2024-01-01T00:00:05Z" None None.


Definition looping : Program.args :=
  Program.mkArgs true "test.mosquitto.org" 1883 "geoloc/wifi/bssids" 5 false.

Definition hasty : Program.args :=
  Program.mkArgs true "test.mosquitto.org" 1883 "geoloc/wifi/bssids" (-1) false.

Definition patient : Program.args :=
  Program.mkArgs true "test.mosquitto.org" 1883 "geoloc/wifi/bssids"
    100000000000 false.

Definition single : Program.args :=
  Program.mkArgs true "test.mosquitto.org" 1883 "geoloc/wifi/bssids" 5 true.

Definition simple : Program.args :=
  Program.mkArgs false "test.mosquitto.org" 1883 "geoloc/wifi/bssids" 5 false.


(** ** Sample inputs and helpers of the statements *)

(** A run that stays within the fragment of Python modelled here. *)
Definition modelled {A : Type} (r : result A) : Prop := r <> Unmodelled.

(** The integers [lo], [lo + 1], ..., [lo + n - 1]. *)
Definition zrange (lo : Z) (n : nat) : list Z :=
  map (fun k => lo + Z.of_nat k) (seq 0 n).

Definition weak_network : network :=
  mkNetwork (Some "Cafe") (Some "aa:bb:cc:dd:ee:01") (Some (Some 10)) (Some (Some 1)).

Definition strong_network : network :=
  mkNetwork (Some "Home") (Some "aa:bb:cc:dd:ee:02") (Some (Some 90)) (Some (Some 6)).

Definition two_access_points : string :=
  "SSID 1 : Home" ++ Table.nl ++
  "    BSSID 1                 : aa:bb:cc:dd:ee:01" ++ Table.nl ++
  "    BSSID 2                 : aa:bb:cc:dd:ee:02" ++ Table.nl.

(** U+00B2, SUPERSCRIPT TWO: [isdigit] accepts it, [int] does not. *)
Definition superscript_two : string := String (Py.chr 178) EmptyString.

Definition escaped_line : string := "MyNet\:Work:aa\:bb\:cc\:dd\:ee\:ff:80:6".

Definition error_object : string :=
  "{" ++ Linux.dq ++ "error" ++ Linux.dq ++ ": "
      ++ Linux.dq ++ "permission denied" ++ Linux.dq ++ "}".

Definition loud_line : string := "Net:aa\:bb\:cc\:dd\:ee\:ff:250:6".

Definition one_access_point : string :=
  "[{" ++ Linux.dq ++ "bssid" ++ Linux.dq ++ ": "
       ++ Linux.dq ++ "AA:BB:CC:DD:EE:01" ++ Linux.dq ++ ", "
       ++ Linux.dq ++ "rssi" ++ Linux.dq ++ ": -75}]".

Definition no_bssid_line : string := "Net::80:6".

Definition ratio_cell (ratio : string) : string :=
  "Cell 01 - Address: 00:11:22:AA:BB:CC" ++ Table.nl ++
  "          Quality=70/70  Signal level=" ++ ratio.

(** Two cells of one network. *)
Definition two_cells : string :=
  "Cell 01 - Address: 00:11:22:AA:BB:01" ++ Table.nl ++
  "          ESSID:" ++ Linux.dq ++ "Home" ++ Linux.dq ++ Table.nl ++
  "Cell 02 - Address: 00:11:22:AA:BB:02" ++ Table.nl ++
  "          ESSID:" ++ Linux.dq ++ "Home" ++ Linux.dq.

(** The same scan, ended by a level whose ratio has denominator 0. *)
Definition two_cells_zero_ratio : string :=
  two_cells ++ Table.nl ++ "          Quality=70/70  Signal level=5/0".

Definition one_cell : string :=
  "Cell 01 - Address: 00:11:22:AA:BB:CC" ++ Table.nl ++
  "          ESSID:" ++ Linux.dq ++ "Home" ++ Linux.dq ++ Table.nl ++
  "Cell 02 - no address".

(** * Properties *)

Arguments Linux.nmcli_line : simpl never.
Arguments Linux.iwlist_line : simpl never.
Arguments Windows.netsh_line : simpl never.
Arguments Termux.access_point : simpl never.

Lemma Ok_inj {A : Type} (a b : A) : Ok a = Ok b -> a = b.
Proof. congruence. Qed.

(** ** Signal and channel normalizers *)

Lemma zrange_In (lo : Z) (n : nat) (x : Z) :
  lo <= x < lo + Z.of_nat n -> In x (zrange lo n).
Proof.
  intros H. unfold zrange. apply in_map_iff.
  exists (Z.to_nat (x - lo)). split; [lia |].
  apply in_seq. lia.
Qed.

(** A property checked on every integer of a range holds on the range. *)
Lemma zrange_forallb (p : Z -> bool) (lo : Z) (n : nat) :
  forallb p (zrange lo n) = true ->
  forall x, lo <= x < lo + Z.of_nat n -> p x = true.
Proof.
  intros H x Hx. rewrite forallb_forall in H. apply H, zrange_In, Hx.
Qed.

(** Between the two clamps the float quotient truncates to the exact
    integer quotient. *)
Lemma dbm_to_percent_interpolates (rssi : Z) :
  -90 < rssi < -30 ->
  Termux.dbm_to_percent rssi = Ok (Z.quot (100 * (rssi + 90)) 60).
Proof.
  intros H.
  pose (p := fun r => match Termux.dbm_to_percent r with
                      | Ok v => v =? Z.quot (100 * (r + 90)) 60
                      | _ => false
                      end).
  assert (Hp : p rssi = true).
  { apply (zrange_forallb p (-89) 59); [vm_compute; reflexivity | lia]. }
  unfold p in Hp. destruct (Termux.dbm_to_percent rssi); try discriminate.
  apply Z.eqb_eq in Hp. now subst.
Qed.

Lemma dbm_to_percent_high (rssi : Z) :
  -30 <= rssi -> Termux.dbm_to_percent rssi = Ok 100.
Proof.
  intros H. unfold Termux.dbm_to_percent.
  destruct (Z.geb_spec rssi (-30)); [reflexivity | lia].
Qed.

Lemma dbm_to_percent_low (rssi : Z) :
  rssi <= -90 -> Termux.dbm_to_percent rssi = Ok 0.
Proof.
  intros H. unfold Termux.dbm_to_percent.
  destruct (Z.geb_spec rssi (-30)); [lia |].
  destruct (Z.leb_spec rssi (-90)); [reflexivity | lia].
Qed.

Lemma interpolation_bounds (rssi : Z) :
  -90 < rssi < -30 -> 0 < Z.quot (100 * (rssi + 90)) 60 < 100.
Proof.
  intros H. rewrite Z.quot_div_nonneg by lia.
  split.
  - apply Z.div_str_pos. lia.
  - apply Z.div_lt_upper_bound; lia.
Qed.

Lemma interpolation_increasing (r r' : Z) :
  -90 < r -> r < r' ->
  Z.quot (100 * (r + 90)) 60 < Z.quot (100 * (r' + 90)) 60.
Proof.
  intros H H'. rewrite !Z.quot_div_nonneg by lia.
  apply Z.lt_le_trans with ((100 * (r + 90) + 1 * 60) / 60).
  - rewrite Z.div_add by lia. lia.
  - apply Z.div_le_mono; lia.
Qed.

(** The value of [dbm_to_percent] as a total function of the integer. *)
Lemma dbm_to_percent_total (rssi : Z) :
  exists p, Termux.dbm_to_percent rssi = Ok p /\ 0 <= p <= 100.
Proof.
  destruct (Z_le_gt_dec (-30) rssi) as [Hh | Hh].
  - exists 100. split; [now apply dbm_to_percent_high | lia].
  - destruct (Z_le_gt_dec rssi (-90)) as [Hl | Hl].
    + exists 0. split; [now apply dbm_to_percent_low | lia].
    + exists (Z.quot (100 * (rssi + 90)) 60).
      split; [apply dbm_to_percent_interpolates; lia |].
      pose proof (interpolation_bounds rssi). lia.
Qed.

(** C3. [dbm_to_percent] is 100 from -30 dBm up, 0 from -90 dBm down, and in
    between the truncated quotient [100 * (rssi + 90) / 60], which increases
    with [rssi]; the result always lies in [0, 100], and -60 dBm gives 50. *)
Theorem dbm_to_percent_contract (rssi : Z) :
  (-30 <= rssi -> Termux.dbm_to_percent rssi = Ok 100) /\
  (rssi <= -90 -> Termux.dbm_to_percent rssi = Ok 0) /\
  (-90 < rssi < -30 ->
     Termux.dbm_to_percent rssi = Ok (Z.quot (100 * (rssi + 90)) 60)) /\
  (forall r', -90 < rssi -> rssi < r' -> r' < -30 ->
     exists p p', Termux.dbm_to_percent rssi = Ok p /\
                  Termux.dbm_to_percent r' = Ok p' /\ p < p') /\
  (exists p, Termux.dbm_to_percent rssi = Ok p /\ 0 <= p <= 100) /\
  Termux.dbm_to_percent (-60) = Ok 50.
Proof.
  split; [apply dbm_to_percent_high |].
  split; [apply dbm_to_percent_low |].
  split; [apply dbm_to_percent_interpolates |].
  split; [| split; [apply dbm_to_percent_total | reflexivity]].
  intros r' H1 H2 H3.
  exists (Z.quot (100 * (rssi + 90)) 60), (Z.quot (100 * (r' + 90)) 60).
  split; [apply dbm_to_percent_interpolates; lia |].
  split; [apply dbm_to_percent_interpolates; lia |].
  now apply interpolation_increasing.
Qed.

Lemma dbm_to_percent_contract_witness :
  -90 < -75 < -30 /\
  Termux.dbm_to_percent (-75) = Ok 25 /\
  (exists p p', Termux.dbm_to_percent (-75) = Ok p /\
                Termux.dbm_to_percent (-45) = Ok p' /\ p < p').
Proof.
  destruct (dbm_to_percent_contract (-75)) as (_ & _ & Hmid & Hmono & _).
  split; [lia |].
  split; [apply Hmid; lia |].
  apply Hmono; lia.
Defined.

(** C4. [freq_to_channel] maps the three bands to their channel numbers and
    every other frequency to [None]; it is a total function. *)
Theorem freq_to_channel_contract (freq_mhz : Z) :
  (2412 <= freq_mhz <= 2484 ->
     Termux.freq_to_channel freq_mhz =
     Some (if freq_mhz =? 2484 then 14 else (freq_mhz - 2412) / 5 + 1)) /\
  (5170 <= freq_mhz <= 5825 ->
     Termux.freq_to_channel freq_mhz = Some ((freq_mhz - 5170) / 5 + 34)) /\
  (5955 <= freq_mhz <= 7115 ->
     Termux.freq_to_channel freq_mhz = Some ((freq_mhz - 5955) / 5 + 1)) /\
  (~ 2412 <= freq_mhz <= 2484 -> ~ 5170 <= freq_mhz <= 5825 ->
   ~ 5955 <= freq_mhz <= 7115 -> Termux.freq_to_channel freq_mhz = None) /\
  Termux.freq_to_channel 2412 = Some 1 /\
  Termux.freq_to_channel 2484 = Some 14 /\
  Termux.freq_to_channel 2485 = None /\
  Termux.freq_to_channel 5180 = Some 36 /\
  Termux.freq_to_channel 5955 = Some 1 /\
  Termux.freq_to_channel 3000 = None.
Proof.
  unfold Termux.freq_to_channel.
  repeat split; try reflexivity; intros;
    repeat match goal with
           | |- context [?a <=? ?b] => destruct (Z.leb_spec a b); simpl
           | |- context [?a =? ?b] => destruct (Z.eqb_spec a b); simpl
           end; try reflexivity; lia.
Qed.

Lemma freq_to_channel_contract_witness :
  2412 <= 2437 <= 2484 /\ Termux.freq_to_channel 2437 = Some 6 /\
  Termux.freq_to_channel 5745 = Some 149 /\
  Termux.freq_to_channel 6115 = Some 33 /\
  Termux.freq_to_channel 100 = None.
Proof.
  destruct (freq_to_channel_contract 2437) as (H24 & _).
  destruct (freq_to_channel_contract 5745) as (_ & H5 & _).
  destruct (freq_to_channel_contract 6115) as (_ & _ & H6 & _).
  destruct (freq_to_channel_contract 100) as (_ & _ & _ & Hn & _).
  split; [lia |].
  split; [apply H24; lia |].
  split; [apply H5; lia |].
  split; [apply H6; lia | apply Hn; lia].
Defined.

(** The dBm conversion of the iwlist parser is clamped to [0, 100]. *)
Lemma signal_of_dbm_bounds (dbm : Z) : 0 <= Linux.signal_of_dbm dbm <= 100.
Proof. unfold Linux.signal_of_dbm. lia. Qed.

(** C2, as stated, fails: at -60 dBm the iwlist parser computes 80 and
    [dbm_to_percent] computes 50. *)
Lemma dbm_conversions_differ :
  Linux.signal_of_dbm (-60) = 80 /\
  Termux.dbm_to_percent (-60) = Ok 50 /\
  Termux.dbm_to_percent (-60) <> Ok (Linux.signal_of_dbm (-60)).
Proof. repeat split. discriminate. Qed.

(** C2, amended. The conversion of the iwlist parser,
    [max(0, min(100, 2 * (dbm + 100)))], agrees with [dbm_to_percent]
    exactly where both are saturated: up to -100 dBm and from -30 dBm. *)
Theorem dbm_conversions_agree_iff (rssi_dbm : Z) :
  Termux.dbm_to_percent rssi_dbm = Ok (Linux.signal_of_dbm rssi_dbm) <->
  rssi_dbm <= -100 \/ -30 <= rssi_dbm.
Proof.
  unfold Linux.signal_of_dbm.
  destruct (Z_le_gt_dec (-30) rssi_dbm) as [Hh | Hh].
  { rewrite dbm_to_percent_high by lia. split; [intros _; lia | intros _; f_equal; lia]. }
  destruct (Z_le_gt_dec rssi_dbm (-90)) as [Hl | Hl].
  { rewrite dbm_to_percent_low by lia.
    split; [intros H; apply Ok_inj in H; lia | intros H; f_equal; lia]. }
  rewrite dbm_to_percent_interpolates by lia.
  split; [| intros; lia].
  intros H. exfalso. apply Ok_inj in H.
  pose (p := fun r => negb (Z.quot (100 * (r + 90)) 60 =? Z.max 0 (Z.min 100 (2 * (r + 100))))).
  assert (Hp : p rssi_dbm = true).
  { apply (zrange_forallb p (-89) 59); [vm_compute; reflexivity | lia]. }
  unfold p in Hp. rewrite H, Z.eqb_refl in Hp. discriminate.
Qed.

Lemma dbm_conversions_agree_iff_witness :
  Termux.dbm_to_percent (-120) = Ok (Linux.signal_of_dbm (-120)) /\
  Termux.dbm_to_percent (-10) = Ok (Linux.signal_of_dbm (-10)).
Proof.
  split.
  - apply (proj2 (dbm_conversions_agree_iff (-120))). left. lia.
  - apply (proj2 (dbm_conversions_agree_iff (-10))). right. lia.
Defined.

(** ** The console table sorts its argument *)

Section Sorting.

Import Table.

Lemma insert_desc_perm (x : network) (l : list network) :
  Permutation (x :: l) (insert_desc x l).
Proof.
  induction l as [| y l IH]; simpl.
  - apply Permutation_refl.
  - destruct (sort_key y <=? sort_key x).
    + apply Permutation_refl.
    + apply perm_trans with (y :: x :: l); [apply perm_swap |].
      now apply perm_skip.
Qed.

Lemma sorted_desc_perm (l : list network) : Permutation l (sorted_desc l).
Proof.
  induction l as [| x l IH]; simpl.
  - apply perm_nil.
  - apply perm_trans with (x :: sorted_desc l).
    + now apply perm_skip.
    + apply insert_desc_perm.
Qed.

Lemma insert_desc_descending (x : network) (l : list network) :
  descending l -> descending (insert_desc x l).
Proof.
  unfold descending.
  induction l as [| y l IH]; simpl; intros Hs.
  - repeat constructor.
  - destruct (Z.leb_spec (sort_key y) (sort_key x)) as [Hle | Hgt].
    + constructor; [assumption | now constructor].
    + inversion Hs as [| ? ? Hl Hhd]; subst.
      constructor; [now apply IH |].
      destruct l as [| z l]; simpl.
      * constructor. lia.
      * destruct (sort_key z <=? sort_key x); constructor; [lia |].
        now inversion Hhd.
Qed.

Lemma sorted_desc_descending (l : list network) : descending (sorted_desc l).
Proof.
  induction l as [| x l IH]; simpl.
  - constructor.
  - now apply insert_desc_descending.
Qed.

(** A list already in table order is left as it is. *)
Lemma sorted_desc_fixed (l : list network) : descending l -> sorted_desc l = l.
Proof.
  unfold descending.
  induction l as [| x l IH]; simpl; intros Hs; [reflexivity |].
  inversion Hs as [| ? ? Hl Hhd]; subst.
  rewrite IH by assumption.
  destruct l as [| y l]; simpl; [reflexivity |].
  inversion Hhd; subst.
  destruct (Z.leb_spec (sort_key y) (sort_key x)); [reflexivity | lia].
Qed.

(** The sort is stable: the records of any one key keep their order. *)
Lemma insert_desc_filter (k : Z) (x : network) (l : list network) :
  descending l ->
  filter (fun n => sort_key n =? k) (insert_desc x l) =
  filter (fun n => sort_key n =? k) (x :: l).
Proof.
  unfold descending.
  induction l as [| y l IH]; simpl; intros Hs; [reflexivity |].
  destruct (Z.leb_spec (sort_key y) (sort_key x)) as [Hle | Hgt]; [reflexivity |].
  inversion Hs; subst. simpl. rewrite IH by assumption. simpl.
  destruct (Z.eqb_spec (sort_key y) k), (Z.eqb_spec (sort_key x) k);
    try reflexivity; lia.
Qed.

Lemma sorted_desc_stable (k : Z) (l : list network) :
  filter (fun n => sort_key n =? k) (sorted_desc l) =
  filter (fun n => sort_key n =? k) l.
Proof.
  induction l as [| x l IH]; simpl; [reflexivity |].
  rewrite insert_desc_filter by apply sorted_desc_descending.
  simpl. now rewrite IH.
Qed.

(** The list object after the call holds the sorted list, whether or not a
    row could be printed. *)
Lemma print_networks_after (networks : list network) :
  networks_after (print_networks networks) = sorted_desc networks.
Proof.
  unfold print_networks.
  destruct networks as [| n networks]; [reflexivity |].
  destruct (rows _ _) as [out [u | e |]]; reflexivity.
Qed.

End Sorting.

(** C1, as stated, fails: [print_networks] sorts the list it is given in
    place; a list with the weaker network first holds the stronger one
    first after the call. *)
Lemma print_networks_reorders_argument :
  Table.networks_after (Linux.print_networks [weak_network; strong_network])
  = [strong_network; weak_network] /\
  Table.networks_after (Linux.print_networks [weak_network; strong_network])
  <> [weak_network; strong_network] /\
  Table.networks_after (Windows.print_networks [weak_network; strong_network])
  <> [weak_network; strong_network].
Proof. repeat split; discriminate. Qed.

(** C1, amended. [print_networks] reorders the list passed in: after the
    call it holds the same records, by descending signal (an absent signal
    counting as 0), and it is unchanged exactly when it was in that order
    already. The Linux and Windows scanners behave alike. *)
Theorem print_networks_sorts_in_place (networks : list network) :
  Permutation networks (Table.networks_after (Linux.print_networks networks)) /\
  Table.descending (Table.networks_after (Linux.print_networks networks)) /\
  (Table.networks_after (Linux.print_networks networks) = networks <->
   Table.descending networks) /\
  Table.networks_after (Windows.print_networks networks) =
  Table.networks_after (Linux.print_networks networks).
Proof.
  unfold Linux.print_networks, Windows.print_networks.
  rewrite print_networks_after.
  split; [apply sorted_desc_perm |].
  split; [apply sorted_desc_descending |].
  split; [| reflexivity].
  split.
  - intros H. rewrite <- H. apply sorted_desc_descending.
  - apply sorted_desc_fixed.
Qed.

(** ** Strings *)

Section Strings.

Local Open Scope nat_scope.

Lemma sapp_nil_r (s : string) : (s ++ "")%string = s.
Proof. induction s as [| c s IH]; simpl; [reflexivity | now rewrite IH]. Qed.

Lemma sapp_assoc (a b c : string) : ((a ++ b) ++ c)%string = (a ++ (b ++ c))%string.
Proof. induction a as [| x a IH]; simpl; [reflexivity | now rewrite IH]. Qed.

Lemma sapp_length (a b : string) :
  String.length (a ++ b) = String.length a + String.length b.
Proof. induction a as [| x a IH]; simpl; [reflexivity | now rewrite IH]. Qed.

Lemma substring_prefix (p r : string) :
  String.substring 0 (String.length p) (p ++ r) = p.
Proof.
  induction p as [| c p IH]; simpl.
  - now destruct r.
  - now rewrite IH.
Qed.

(** The slice that starts after [a] and has the length of [p]. *)
Lemma substring_middle (a p r : string) :
  String.substring (String.length a) (String.length p) (a ++ p ++ r) = p.
Proof.
  induction a as [| c a IH]; simpl.
  - apply substring_prefix.
  - exact IH.
Qed.

Lemma forallb_str_app (f : ascii -> bool) (a b : string) :
  Py.forallb_str f (a ++ b) = Py.forallb_str f a && Py.forallb_str f b.
Proof.
  induction a as [| c a IH]; simpl; [reflexivity |].
  now rewrite IH, andb_assoc.
Qed.

Lemma lower_nonempty (s : string) : s <> EmptyString -> Py.lower s <> EmptyString.
Proof. destruct s; simpl; [congruence | discriminate]. Qed.

End Strings.

(** ** What a match of the patterns captures *)

Section Matching.

Import Re.
Local Open Scope nat_scope.
Local Open Scope list_scope.

(** A greedy repetition consumes a prefix of characters of its class and
    hands the rest to its continuation. *)
Lemma greedy_inv (c : cls) (k : string -> nat -> option (list nat)) :
  forall s pos g,
    greedy c k s pos = Some g ->
    exists p r, s = (p ++ r)%string /\
                Py.forallb_str (cls_matches c) p = true /\
                k r (pos + String.length p) = Some g.
Proof.
  induction s as [| a s IH]; intros pos g H; simpl in H.
  - exists EmptyString, EmptyString. simpl. now rewrite Nat.add_0_r.
  - destruct (cls_matches c a) eqn:Ha.
    + destruct (greedy c k s (S pos)) as [g' |] eqn:Hg.
      * injection H as <-.
        destruct (IH _ _ Hg) as (p & r & -> & Hp & Hk).
        exists (String a p), r. simpl. rewrite Ha, Hp.
        now rewrite Nat.add_succ_r.
      * exists EmptyString, (String a s). simpl. now rewrite Nat.add_0_r.
    + exists EmptyString, (String a s). simpl. now rewrite Nat.add_0_r.
Qed.

(** Tokens outside groups record no offset. *)
Lemma match_group_free (toks : pattern) :
  group_free toks = true ->
  forall s pos g, match_here toks s pos = Some g -> g = [].
Proof.
  induction toks as [| t toks IH]; intros Hf s pos g H.
  - simpl in H. congruence.
  - simpl in Hf. apply andb_prop in Hf as [Ht Hf].
    specialize (IH Hf).
    destruct t as [c q | | |]; try discriminate.
    destruct q; simpl in H.
    + destruct s as [| a s]; [discriminate |].
      destruct (cls_matches c a); [eauto | discriminate].
    + destruct s as [| a s]; [eauto |].
      destruct (cls_matches c a); [| eauto].
      destruct (match_here toks s (S pos)) eqn:E; [| eauto].
      injection H as <-. eauto.
    + apply greedy_inv in H as (p & r & _ & _ & H). eauto.
    + destruct s as [| a s]; [discriminate |].
      destruct (cls_matches c a); [| discriminate].
      apply greedy_inv in H as (p & r & _ & _ & H). eauto.
Qed.

(** A group-free prefix of a pattern consumes a prefix of the text. *)
Lemma match_skip (pre rest : pattern) :
  group_free pre = true ->
  forall s pos g,
    match_here (pre ++ rest) s pos = Some g ->
    exists p r, s = (p ++ r)%string /\
                match_here rest r (pos + String.length p) = Some g.
Proof.
  induction pre as [| t pre IH]; intros Hf s pos g H.
  - exists EmptyString, s. simpl. now rewrite Nat.add_0_r.
  - simpl in Hf. apply andb_prop in Hf as [Ht Hf].
    specialize (IH Hf).
    assert (Hcons : forall a s' g',
               match_here (pre ++ rest) s' (S pos) = Some g' ->
               exists p r, String a s' = (p ++ r)%string /\
                           match_here rest r (pos + String.length p) = Some g').
    { intros a s' g' H'. destruct (IH _ _ _ H') as (p & r & -> & Hr).
      exists (String a p), r. simpl. now rewrite Nat.add_succ_r. }
    assert (Hrun : forall p0 r0 g',
               match_here (pre ++ rest) r0 (pos + String.length p0) = Some g' ->
               exists p r, (p0 ++ r0)%string = (p ++ r)%string /\
                           match_here rest r (pos + String.length p) = Some g').
    { intros p0 r0 g' H'. destruct (IH _ _ _ H') as (p & r & -> & Hr).
      exists (p0 ++ p)%string, r. rewrite sapp_assoc, sapp_length.
      now rewrite Nat.add_assoc. }
    destruct t as [c q | | |]; try discriminate.
    destruct q; simpl in H.
    + destruct s as [| a s]; [discriminate |].
      destruct (cls_matches c a); [eauto | discriminate].
    + destruct s as [| a s]; [apply (Hrun EmptyString); simpl; now rewrite Nat.add_0_r |].
      destruct (cls_matches c a).
      * destruct (match_here (pre ++ rest) s (S pos)) eqn:E.
        -- injection H as <-. eauto.
        -- apply (Hrun EmptyString). simpl. now rewrite Nat.add_0_r.
      * apply (Hrun EmptyString). simpl. now rewrite Nat.add_0_r.
    + apply greedy_inv in H as (p & r & -> & _ & H). eauto.
    + destruct s as [| a s]; [discriminate |].
      destruct (cls_matches c a); [| discriminate].
      apply greedy_inv in H as (p & r & -> & _ & H).
      apply (Hrun (String a p)). simpl. now rewrite Nat.add_succ_r in *.
Qed.

(** A group around one repeated class, [(c+)], captures a non-empty run of
    characters of the class. *)
Lemma match_plus_group (c : cls) (post : pattern) :
  group_free post = true ->
  forall s pos g,
    match_here (Open :: Atom c Plus :: Close :: post) s pos = Some g ->
    exists p r, s = (p ++ r)%string /\ p <> EmptyString /\
                Py.forallb_str (cls_matches c) p = true /\
                g = [pos; pos + String.length p].
Proof.
  intros Hf s pos g H. simpl in H.
  destruct s as [| a s]; [discriminate |].
  destruct (cls_matches c a) eqn:Ha; [| discriminate].
  destruct (greedy _ _ _ _) as [g' |] eqn:Hg; [| discriminate].
  injection H as <-.
  apply greedy_inv in Hg as (p & r & -> & Hp & Hk).
  destruct (match_here post r _) as [g'' |] eqn:Hpost; [| discriminate].
  injection Hk as <-.
  apply (match_group_free post Hf) in Hpost as ->.
  exists (String a p), r. simpl. rewrite Ha, Hp, Nat.add_succ_r.
  repeat split. discriminate.
Qed.

(** [search] finds its match at some split of the subject. *)
Lemma search_from_inv (toks : pattern) (subject : string) (m : list string) :
  forall s done,
    subject = (done ++ s)%string ->
    search_from toks subject s (String.length done) = Some m ->
    exists a b bounds,
      subject = (a ++ b)%string /\
      match_here toks b (String.length a) = Some bounds /\
      m = groups_of subject bounds.
Proof.
  induction s as [| c s IH]; intros done Hs H; simpl in H.
  - destruct (match_here toks _ _) as [bounds |] eqn:E; [| discriminate].
    injection H as <-. now exists done, EmptyString, bounds.
  - destruct (match_here toks _ _) as [bounds |] eqn:E.
    + injection H as <-. now exists done, (String c s), bounds.
    + apply (IH (done ++ String c EmptyString)%string).
      * now rewrite sapp_assoc.
      * rewrite sapp_length. simpl. now rewrite Nat.add_1_r.
Qed.

(** The one group of a pattern [pre (c+) post]. *)
Lemma search_plus_group (pre post : pattern) (c : cls) (subject : string)
    (m : list string) :
  group_free pre = true ->
  group_free post = true ->
  search (pre ++ Open :: Atom c Plus :: Close :: post) subject = Some m ->
  exists g, m = [g] /\ g <> EmptyString /\
            Py.forallb_str (cls_matches c) g = true.
Proof.
  intros Hpre Hpost H.
  apply (search_from_inv _ subject m subject EmptyString eq_refl)
    in H as (a & b & bounds & Hab & Hm & ->).
  apply (match_skip pre _ Hpre) in Hm as (p0 & r0 & -> & Hm).
  apply (match_plus_group c post Hpost) in Hm as (p & r & -> & Hne & Hp & ->).
  exists p. split; [| now split].
  unfold groups_of.
  replace (String.length a + String.length p0 + String.length p
           - (String.length a + String.length p0)) with (String.length p) by lia.
  subst subject.
  rewrite <- sapp_length, <- sapp_assoc.
  now rewrite substring_middle.
Qed.

End Matching.

(** ** [int] on strings of digits *)

Section IntOfDigits.

Lemma isdigit_char_codes (c : ascii) :
  Py.isdigit_char c = true ->
  48 <= Py.code c <= 57 \/ Py.code c = 178 \/ Py.code c = 179 \/ Py.code c = 185.
Proof.
  unfold Py.isdigit_char, Py.isdecimal, Py.in_range. intros H.
  repeat match type of H with
         | (_ || _) = true => apply orb_prop in H as [H | H]
         end.
  - apply andb_prop in H as [H1 H2]. lia.
  - lia.
  - lia.
  - lia.
Qed.

Lemma isdecimal_code (c : ascii) :
  Py.isdecimal c = true -> 48 <= Py.code c <= 57.
Proof.
  unfold Py.isdecimal, Py.in_range. intros H.
  apply andb_prop in H as [H1 H2]. lia.
Qed.

Lemma isdecimal_isdigit_char (c : ascii) :
  Py.isdecimal c = true -> Py.isdigit_char c = true.
Proof. unfold Py.isdigit_char. now intros ->. Qed.

Lemma isdigit_char_not_space (c : ascii) :
  Py.isdigit_char c = true -> Py.int_space c = false.
Proof.
  intros H. apply isdigit_char_codes in H.
  unfold Py.int_space, Py.in_range.
  repeat match goal with
         | |- context [?a <=? ?b] => destruct (Z.leb_spec a b); simpl
         | |- context [?a =? ?b] => destruct (Z.eqb_spec a b); simpl
         end; try reflexivity; lia.
Qed.

Lemma rstrip_digits (s : string) :
  Py.forallb_str Py.isdigit_char s = true -> Py.rstrip_of Py.int_space s = s.
Proof.
  induction s as [| c s IH]; simpl; intros H; [reflexivity |].
  apply andb_prop in H as [Hc Hs]. rewrite (IH Hs).
  destruct s; [| reflexivity].
  now rewrite (isdigit_char_not_space c Hc).
Qed.

(** No whitespace to strip around digits. *)
Lemma strip_digits (s : string) :
  Py.forallb_str Py.isdigit_char s = true ->
  Py.rstrip_of Py.int_space (Py.lstrip_of Py.int_space s) = s.
Proof.
  intros H.
  assert (Hl : Py.lstrip_of Py.int_space s = s).
  { destruct s as [| c s]; [reflexivity |]. simpl in *.
    apply andb_prop in H as [Hc _].
    now rewrite (isdigit_char_not_space c Hc). }
  rewrite Hl. now apply rstrip_digits.
Qed.

Lemma int_body_nonneg (s : string) :
  forall prev acc v, 0 <= acc -> Py.int_body prev acc s = Some v -> 0 <= v.
Proof.
  induction s as [| c s IH]; simpl; intros prev acc v Hacc H.
  - destruct prev; congruence.
  - destruct (Py.isdecimal c) eqn:Hc.
    + apply isdecimal_code in Hc.
      apply (IH true (10 * acc + (Py.code c - 48)) v); [lia | exact H].
    + destruct ((Py.code c =? 95) && prev); [eauto | discriminate].
Qed.

Lemma int_body_decimal (s : string) :
  forall prev acc,
    Py.forallb_str Py.isdecimal s = true ->
    s <> EmptyString \/ prev = true ->
    exists v, Py.int_body prev acc s = Some v.
Proof.
  induction s as [| c s IH]; simpl; intros prev acc H Hne.
  - destruct Hne as [Hne | ->]; [congruence | eauto].
  - apply andb_prop in H as [Hc Hs]. rewrite Hc. apply IH; auto.
Qed.

(** A string of digits never reads as a negative number. *)
Lemma int_digits_nonneg (s : string) (v : Z) :
  Py.forallb_str Py.isdigit_char s = true -> Py.int s = Ok v -> 0 <= v.
Proof.
  intros Hd H. unfold Py.int in H. rewrite (strip_digits s Hd) in H.
  destruct s as [| c s].
  - simpl in H. discriminate.
  - simpl in Hd. apply andb_prop in Hd as [Hc _].
    apply isdigit_char_codes in Hc.
    destruct (Z.eqb_spec (Py.code c) 45); [lia |].
    destruct (Z.eqb_spec (Py.code c) 43); [lia |].
    destruct (Py.int_body false 0 (String c s)) as [w |] eqn:E; [| discriminate].
    apply Ok_inj in H. subst w.
    apply (int_body_nonneg _ _ _ _ (Z.le_refl 0) E).
Qed.

(** [int] succeeds on what [\d+] captures. *)
Lemma int_decimal (s : string) :
  s <> EmptyString -> Py.forallb_str Py.isdecimal s = true ->
  exists v, Py.int s = Ok v.
Proof.
  intros Hne Hd.
  assert (Hg : Py.forallb_str Py.isdigit_char s = true).
  { clear Hne. induction s as [| c s IH]; simpl in *; [reflexivity |].
    apply andb_prop in Hd as [Hc Hs].
    now rewrite (isdecimal_isdigit_char c Hc), IH. }
  unfold Py.int. rewrite (strip_digits s Hg).
  destruct s as [| c s]; [congruence |].
  simpl in Hg. apply andb_prop in Hg as [Hc _].
  apply isdigit_char_codes in Hc.
  destruct (Z.eqb_spec (Py.code c) 45); [lia |].
  destruct (Z.eqb_spec (Py.code c) 43); [lia |].
  destruct (int_body_decimal (String c s) false 0 Hd) as [v Hv]; [now left |].
  rewrite Hv. eauto.
Qed.

End IntOfDigits.

(** ** The netsh parser *)

Section Netsh.

Import Re.
Local Open Scope list_scope.

(** [int] succeeds on the group of a pattern [pre (\d+) post]. *)
Lemma search_digits (pre post : pattern) (s : string) (m : list string) :
  group_free pre = true -> group_free post = true ->
  search (pre ++ Open :: Atom Digit Plus :: Close :: post) s = Some m ->
  exists v, Py.int (group 1 m) = Ok v.
Proof.
  intros Hpre Hpost H.
  apply search_plus_group in H as (g & -> & Hne & Hg); try assumption.
  now apply int_decimal.
Qed.

Lemma signal_re_shape :
  Windows.signal_re =
  [Atom (Chr ":") One; Atom Space Star]
    ++ Open :: Atom Digit Plus :: Close :: [Atom (Chr "%") One].
Proof. reflexivity. Qed.

Lemma channel_re_shape :
  Windows.channel_re =
  [Atom (Chr ":") One; Atom Space Star] ++ Open :: Atom Digit Plus :: Close :: [].
Proof. reflexivity. Qed.

Lemma bssid_re_shape :
  Windows.bssid_re =
  [Atom (Chr "B") One; Atom (Chr "S") One; Atom (Chr "S") One; Atom (Chr "I") One;
   Atom (Chr "D") One; Atom Space Star; Atom Digit Star; Atom Space Star;
   Atom (Chr ":") One; Atom Space Star]
    ++ Open
    :: Atom (Class false [("0", "9"); ("a", "f"); ("A", "F"); (":", ":")]%char) Plus
    :: Close :: [].
Proof. reflexivity. Qed.

(** The identifier a BSSID line stores is never empty. *)
Lemma bssid_line_nonempty (line b : string) :
  Windows.bssid_line line b -> b <> EmptyString.
Proof.
  intros (_ & m & Hm & ->).
  rewrite bssid_re_shape in Hm.
  apply search_plus_group in Hm as (g & -> & Hne & _); try reflexivity.
  now apply lower_nonempty.
Qed.

Lemma has_bssid_set_bssid (b : string) (n : network) :
  b <> EmptyString -> has_bssid (set_bssid b n) = true.
Proof. destruct b; [congruence | reflexivity]. Qed.

(** No line makes the parser raise. *)
Lemma netsh_line_total (line : string) (st : Windows.state) :
  exists st', Windows.netsh_line line st = Ok st'.
Proof.
  destruct st as [networks cur]. unfold Windows.netsh_line. cbv zeta.
  destruct (_ && _).
  { destruct (has_bssid cur); destruct (search Windows.ssid_re _); eauto. }
  destruct (Py.contains "BSSID" _).
  { destruct (search Windows.bssid_re _); eauto. }
  destruct (_ || _).
  { destruct (search Windows.signal_re _) as [m |] eqn:E; [| eauto].
    rewrite signal_re_shape in E.
    apply search_digits in E as [v ->]; try reflexivity. simpl. eauto. }
  destruct (_ || _); [| eauto].
  destruct (search Windows.channel_re _) as [m |] eqn:E; [| eauto].
  rewrite channel_re_shape in E.
  apply search_digits in E as [v ->]; try reflexivity. simpl. eauto.
Qed.

Lemma netsh_lines_total (lines : list string) :
  forall st, exists st', Windows.netsh_lines lines st = Ok st'.
Proof.
  induction lines as [| line lines IH]; intros st; simpl; [eauto |].
  destruct (netsh_line_total line st) as [st1 ->]. simpl. apply IH.
Qed.

Lemma netsh_lines_app (l1 l2 : list string) :
  forall st,
    Windows.netsh_lines (l1 ++ l2) st =
    (st' <- Windows.netsh_lines l1 st ;; Windows.netsh_lines l2 st').
Proof.
  induction l1 as [| line l1 IH]; intros st; simpl; [reflexivity |].
  destruct (Windows.netsh_line line st); simpl; [apply IH | reflexivity | reflexivity].
Qed.

(** What one line does to the state: either it flushes the accumulator,
    which then held an identifier, or it appends nothing, and then leaves
    the name and the identifier of an accumulator that holds one. *)
Lemma netsh_line_spec (line : string) (networks networks' : list network)
    (cur cur' : network) :
  Windows.netsh_line line (networks, cur) = Ok (networks', cur') ->
  (has_bssid cur = true /\ networks' = append networks cur) \/
  (networks' = networks /\
   (has_bssid cur = true -> bssid cur' = bssid cur /\ ssid cur' = ssid cur)).
Proof.
  unfold Windows.netsh_line. cbv zeta.
  destruct (_ && _).
  { destruct (has_bssid cur) eqn:Hb;
      destruct (search Windows.ssid_re _); intros H; apply Ok_inj in H;
      injection H as <- <-; auto; right; split; auto; discriminate. }
  destruct (Py.contains "BSSID" _).
  { destruct (search Windows.bssid_re _).
    - destruct (has_bssid cur) eqn:Hb; intros H; apply Ok_inj in H;
        injection H as <- <-; auto. right. split; auto. discriminate.
    - intros H. apply Ok_inj in H. injection H as <- <-. auto. }
  destruct (_ || _).
  { destruct (search Windows.signal_re _).
    - destruct (Py.int _); simpl; try discriminate.
      intros H. apply Ok_inj in H. injection H as <- <-. auto.
    - intros H. apply Ok_inj in H. injection H as <- <-. auto. }
  destruct (_ || _).
  { destruct (search Windows.channel_re _).
    - destruct (Py.int _); simpl; try discriminate.
      intros H. apply Ok_inj in H. injection H as <- <-. auto.
    - intros H. apply Ok_inj in H. injection H as <- <-. auto. }
  intros H. apply Ok_inj in H. injection H as <- <-. auto.
Qed.

(** The records already appended stay where they are. *)
Lemma netsh_lines_prefix (lines : list string) :
  forall networks cur st,
    Windows.netsh_lines lines (networks, cur) = Ok st ->
    exists back, Windows.finish st = networks ++ back.
Proof.
  induction lines as [| line lines IH]; intros networks cur st H; simpl in H.
  - apply Ok_inj in H. subst st. simpl.
    destruct (has_bssid cur); [now exists [cur] | exists []; now rewrite app_nil_r].
  - destruct (Windows.netsh_line line (networks, cur)) as [[n1 c1] | |] eqn:E;
      try discriminate.
    simpl in H. apply IH in H as [back ->].
    apply netsh_line_spec in E as [[_ ->] | [-> _]]; [| eauto].
    unfold append. rewrite <- app_assoc. eauto.
Qed.

(** An accumulator that holds an identifier is the next record appended,
    with its name and identifier as they are. *)
Lemma netsh_lines_pending (lines : list string) :
  forall networks cur,
    has_bssid cur = true ->
    exists st r back,
      Windows.netsh_lines lines (networks, cur) = Ok st /\
      Windows.finish st = networks ++ r :: back /\
      bssid r = bssid cur /\ ssid r = ssid cur.
Proof.
  induction lines as [| line lines IH]; intros networks cur Hb; simpl.
  - exists (networks, cur), cur, []. simpl. now rewrite Hb.
  - destruct (netsh_line_total line (networks, cur)) as [[n1 c1] E].
    rewrite E. simpl.
    destruct (netsh_line_spec _ _ _ _ _ E) as [[_ ->] | [-> Hsame]].
    + destruct (netsh_lines_total lines (append networks cur, c1)) as [st Hst].
      destruct (netsh_lines_prefix _ _ _ _ Hst) as [back Hback].
      exists st, cur, back. unfold append in Hback.
      rewrite <- app_assoc in Hback. now rewrite Hst.
    + destruct (Hsame Hb) as [Hbs Hss].
      assert (Hb1 : has_bssid c1 = true).
      { unfold has_bssid in *. now rewrite Hbs. }
      destruct (IH networks c1 Hb1) as (st & r & back & -> & Hf & Hrb & Hrs).
      exists st, r, back. repeat split; congruence.
Qed.

(** The step taken at an identifier line. *)
Lemma netsh_bssid_line (line b : string) (networks : list network) (cur : network) :
  Windows.bssid_line line b ->
  Windows.netsh_line line (networks, cur) =
  Ok (if has_bssid cur then append networks cur else networks, set_bssid b cur).
Proof.
  intros (Hc & m & Hm & ->).
  unfold Windows.netsh_line. cbv zeta.
  rewrite Hc, Hm. simpl. rewrite andb_false_r. reflexivity.
Qed.

End Netsh.

(** ** The iwlist parser *)

Section Iwlist.

Local Open Scope list_scope.

(** The step taken at a line that opens a cell. *)
Lemma iwlist_cell_line (line : string) (networks : list network) (cur : network) :
  Py.startswith "Cell" (Py.strip line) = true ->
  Linux.iwlist_line line (networks, cur) =
  Ok (if has_bssid cur then append networks cur else networks,
      match Re.search Linux.address_re (Py.strip line) with
      | Some m => set_bssid (Py.lower (Re.group 1 m)) empty_network
      | None => empty_network
      end).
Proof.
  intros Hc. unfold Linux.iwlist_line. cbv zeta. rewrite Hc.
  now destruct (Re.search Linux.address_re _).
Qed.

(** What one line does to the state: either it flushes the accumulator,
    which then held an identifier, or it appends nothing, and then leaves
    the identifier of an accumulator that holds one. *)
Lemma iwlist_line_spec (line : string) (networks networks' : list network)
    (cur cur' : network) :
  Linux.iwlist_line line (networks, cur) = Ok (networks', cur') ->
  (has_bssid cur = true /\ networks' = append networks cur) \/
  (networks' = networks /\ (has_bssid cur = true -> bssid cur' = bssid cur)).
Proof.
  unfold Linux.iwlist_line. cbv zeta.
  destruct (Py.startswith "Cell" _).
  { destruct (has_bssid cur) eqn:Hb; destruct (Re.search Linux.address_re _);
      intros H; apply Ok_inj in H; injection H as <- <-; auto;
      right; split; auto; discriminate. }
  repeat match goal with
         | |- context [if ?b then _ else _] => destruct b
         | |- context [match Re.search ?r ?s with _ => _ end] =>
             destruct (Re.search r s)
         | |- context [bind ?c _] => destruct c; simpl
         end;
    try discriminate;
    intros H; apply Ok_inj in H; injection H as <- <-; auto.
Qed.

Lemma iwlist_lines_invariant (lines : list string) :
  forall networks cur st,
    Forall (fun r => has_bssid r = true) networks ->
    Linux.iwlist_lines lines (networks, cur) = Ok st ->
    Forall (fun r => has_bssid r = true) (Linux.finish st).
Proof.
  induction lines as [| line lines IH]; intros networks cur st Hall H; simpl in H.
  - apply Ok_inj in H. subst st. simpl.
    destruct (has_bssid cur) eqn:Hb; [| assumption].
    apply Forall_app. split; [assumption | now constructor].
  - destruct (Linux.iwlist_line line (networks, cur)) as [[n1 c1] | |] eqn:E;
      try discriminate.
    simpl in H. apply (IH n1 c1); [| assumption].
    apply iwlist_line_spec in E as [[Hb ->] | [-> _]]; [| assumption].
    apply Forall_app. split; [assumption | now constructor].
Qed.

Lemma iwlist_lines_app (l1 l2 : list string) :
  forall st,
    Linux.iwlist_lines (l1 ++ l2) st =
    (st' <- Linux.iwlist_lines l1 st ;; Linux.iwlist_lines l2 st').
Proof.
  induction l1 as [| line l1 IH]; intros st; simpl; [reflexivity |].
  destruct (Linux.iwlist_line line st); simpl; [apply IH | reflexivity | reflexivity].
Qed.

Lemma iwlist_lines_prefix (lines : list string) :
  forall networks cur st,
    Linux.iwlist_lines lines (networks, cur) = Ok st ->
    exists back, Linux.finish st = networks ++ back.
Proof.
  induction lines as [| line lines IH]; intros networks cur st H; simpl in H.
  - apply Ok_inj in H. subst st. simpl.
    destruct (has_bssid cur); [now exists [cur] | exists []; now rewrite app_nil_r].
  - destruct (Linux.iwlist_line line (networks, cur)) as [[n1 c1] | |] eqn:E;
      try discriminate.
    simpl in H. apply IH in H as [back ->].
    apply iwlist_line_spec in E as [[_ ->] | [-> _]]; [| eauto].
    unfold append. rewrite <- app_assoc. eauto.
Qed.

(** When the scan returns, an accumulator that held an identifier is the
    next record appended, with that identifier. *)
Lemma iwlist_lines_pending (lines : list string) :
  forall networks cur st,
    has_bssid cur = true ->
    Linux.iwlist_lines lines (networks, cur) = Ok st ->
    exists r back,
      Linux.finish st = networks ++ r :: back /\ bssid r = bssid cur.
Proof.
  induction lines as [| line lines IH]; intros networks cur st Hb H; simpl in H.
  - apply Ok_inj in H. subst st. exists cur, []. simpl. now rewrite Hb.
  - destruct (Linux.iwlist_line line (networks, cur)) as [[n1 c1] | |] eqn:E;
      try discriminate.
    simpl in H.
    apply iwlist_line_spec in E as [[_ ->] | [-> Hsame]].
    + apply iwlist_lines_prefix in H as [back Hback].
      exists cur, back. unfold append in Hback.
      now rewrite <- app_assoc in Hback.
    + assert (Hb1 : has_bssid c1 = true).
      { unfold has_bssid in *. now rewrite (Hsame Hb). }
      destruct (IH _ _ _ Hb1 H) as (r & back & Hf & Hr).
      exists r, back. split; [assumption |]. rewrite Hr. auto.
Qed.

Lemma address_re_shape :
  Linux.address_re =
  [Re.Atom (Re.Chr "A") Re.One; Re.Atom (Re.Chr "d") Re.One; Re.Atom (Re.Chr "d") Re.One;
   Re.Atom (Re.Chr "r") Re.One; Re.Atom (Re.Chr "e") Re.One; Re.Atom (Re.Chr "s") Re.One;
   Re.Atom (Re.Chr "s") Re.One; Re.Atom (Re.Chr ":") Re.One; Re.Atom Re.Space Re.Star]
    ++ Re.Open
    :: Re.Atom (Re.Class false [("0", "9"); ("A", "F"); ("a", "f"); (":", ":")]%char) Re.Plus
    :: Re.Close :: [].
Proof. reflexivity. Qed.

(** The identifier a Cell line stores is never empty. *)
Lemma cell_line_nonempty (line b : string) :
  Linux.cell_line line b -> b <> EmptyString.
Proof.
  intros (_ & m & Hm & ->).
  rewrite address_re_shape in Hm.
  apply search_plus_group in Hm as (g & -> & Hne & _); try reflexivity.
  now apply lower_nonempty.
Qed.

Lemma iwlist_cell_line_address (line b : string) (networks : list network)
    (cur : network) :
  Linux.cell_line line b ->
  Linux.iwlist_line line (networks, cur) =
  Ok (if has_bssid cur then append networks cur else networks,
      set_bssid b empty_network).
Proof.
  intros (Hc & m & Hm & ->).
  rewrite (iwlist_cell_line line networks cur Hc). now rewrite Hm.
Qed.

End Iwlist.

Section NetshInvariant.

Local Open Scope list_scope.

Lemma netsh_lines_invariant (lines : list string) :
  forall networks cur st,
    Forall (fun r => has_bssid r = true) networks ->
    Windows.netsh_lines lines (networks, cur) = Ok st ->
    Forall (fun r => has_bssid r = true) (Windows.finish st).
Proof.
  induction lines as [| line lines IH]; intros networks cur st Hall H; simpl in H.
  - apply Ok_inj in H. subst st. simpl.
    destruct (has_bssid cur) eqn:Hb; [| assumption].
    apply Forall_app. split; [assumption | now constructor].
  - destruct (Windows.netsh_line line (networks, cur)) as [[n1 c1] | |] eqn:E;
      try discriminate.
    simpl in H. apply (IH n1 c1); [| assumption].
    apply netsh_line_spec in E as [[Hb ->] | [-> _]]; [| assumption].
    apply Forall_app. split; [assumption | now constructor].
Qed.

End NetshInvariant.

(** The flush of the two multi-line parsers. Both flush the accumulator at
    an identifier line when it already holds an identifier (a BSSID line of
    netsh, a Cell line of iwlist), and once more after the last line, where
    to flush is to append the accumulator if it holds an identifier. So two
    adjacent BSSID lines of netsh with different identifiers give two
    adjacent records with these identifiers and the same name; and two
    adjacent Cell lines of iwlist give two adjacent records with their
    identifiers on the scans for which the parser returns. ([int] is taken
    without the length limit of CPython on its input, so a signal level of
    netsh is always converted.) *)
Lemma multiline_parsers_flush :
  (forall line b networks cur,
     Windows.bssid_line line b -> has_bssid cur = true ->
     Windows.netsh_line line (networks, cur)
     = Ok (append networks cur, set_bssid b cur)) /\
  (forall line networks cur,
     Py.startswith "Cell" (Py.strip line) = true -> has_bssid cur = true ->
     exists cur',
       Linux.iwlist_line line (networks, cur) = Ok (append networks cur, cur')) /\
  (forall out networks cur,
     Windows.netsh_lines (Py.splitlines out) ([], empty_network) = Ok (networks, cur) ->
     Windows.parse_netsh out
     = Ok (networks ++ (if has_bssid cur then [cur] else []))%list) /\
  (forall out networks cur,
     Linux.iwlist_lines (Py.splitlines out) ([], empty_network) = Ok (networks, cur) ->
     Linux.parse_iwlist out
     = Ok (networks ++ (if has_bssid cur then [cur] else []))%list) /\
  (forall out pre l1 l2 post b1 b2,
     Py.splitlines out = (pre ++ l1 :: l2 :: post)%list ->
     Windows.bssid_line l1 b1 -> Windows.bssid_line l2 b2 -> b1 <> b2 ->
     exists front r1 r2 back,
       Windows.parse_netsh out = Ok (front ++ r1 :: r2 :: back)%list /\
       bssid r1 = Some b1 /\ bssid r2 = Some b2 /\
       ssid r1 = ssid r2 /\ r1 <> r2) /\
  (forall out pre l1 l2 post b1 b2 networks,
     Py.splitlines out = (pre ++ l1 :: l2 :: post)%list ->
     Linux.cell_line l1 b1 -> Linux.cell_line l2 b2 ->
     Linux.parse_iwlist out = Ok networks ->
     exists front r1 r2 back,
       networks = (front ++ r1 :: r2 :: back)%list /\
       bssid r1 = Some b1 /\ bssid r2 = Some b2).
Proof.
  split.
  { intros line b networks cur Hl Hb.
    rewrite (netsh_bssid_line line b networks cur Hl). now rewrite Hb. }
  split.
  { intros line networks cur Hc Hb.
    rewrite (iwlist_cell_line line networks cur Hc), Hb. eauto. }
  split.
  { intros out networks cur H. unfold Windows.parse_netsh. rewrite H. simpl.
    destruct (has_bssid cur); [reflexivity | now rewrite app_nil_r]. }
  split.
  { intros out networks cur H. unfold Linux.parse_iwlist. rewrite H. simpl.
    destruct (has_bssid cur); [reflexivity | now rewrite app_nil_r]. }
  split.
  2: { intros out pre l1 l2 post b1 b2 networks Hsplit H1 H2 H.
       unfold Linux.parse_iwlist in H. rewrite Hsplit, iwlist_lines_app in H.
       destruct (Linux.iwlist_lines pre _) as [[n0 c0] | |]; try discriminate.
       simpl in H. rewrite (iwlist_cell_line_address l1 b1 n0 c0 H1) in H.
       simpl in H. rewrite (iwlist_cell_line_address l2 b2 _ _ H2) in H.
       simpl in H.
       rewrite (has_bssid_set_bssid b1 _ (cell_line_nonempty l1 b1 H1)) in H.
       set (n1 := if has_bssid c0 then append n0 c0 else n0) in H.
       destruct (Linux.iwlist_lines post _) as [st | |] eqn:E; try discriminate.
       simpl in H. apply Ok_inj in H. subst networks.
       apply iwlist_lines_pending in E as (r & back & Hf & Hr).
       - exists n1, (set_bssid b1 empty_network), r, back.
         unfold append in Hf. rewrite <- app_assoc in Hf. now rewrite Hf.
       - apply has_bssid_set_bssid, (cell_line_nonempty l2 b2 H2). }
  intros out pre l1 l2 post b1 b2 Hsplit H1 H2 Hne.
  unfold Windows.parse_netsh. rewrite Hsplit, netsh_lines_app.
  destruct (netsh_lines_total pre ([], empty_network)) as [[n0 c0] ->].
  simpl. rewrite (netsh_bssid_line l1 b1 n0 c0 H1). simpl.
  rewrite (netsh_bssid_line l2 b2 _ _ H2). simpl.
  rewrite (has_bssid_set_bssid b1 c0 (bssid_line_nonempty l1 b1 H1)).
  set (n1 := if has_bssid c0 then append n0 c0 else n0).
  destruct (netsh_lines_pending post (append n1 (set_bssid b1 c0))
              (set_bssid b2 (set_bssid b1 c0)))
    as (st & r & back & -> & Hf & Hrb & Hrs).
  { apply has_bssid_set_bssid, (bssid_line_nonempty l2 b2 H2). }
  exists n1, (set_bssid b1 c0), r, back. simpl.
  unfold append in Hf. rewrite <- app_assoc in Hf. simpl in Hf.
  rewrite Hf. simpl in Hrb, Hrs.
  repeat split; auto.
  intros <-. simpl in Hrb. congruence.
Qed.

(** Two access points under one name. *)
Remark netsh_two_access_points :
  Windows.parse_netsh two_access_points
  = Ok [mkNetwork (Some "Home") (Some "aa:bb:cc:dd:ee:01") None None;
        mkNetwork (Some "Home") (Some "aa:bb:cc:dd:ee:02") None None].
Proof. reflexivity. Qed.

Lemma multiline_parsers_flush_witness :
  exists front r1 r2 back,
    Windows.parse_netsh two_access_points = Ok (front ++ r1 :: r2 :: back)%list /\
    bssid r1 = Some "aa:bb:cc:dd:ee:01" /\ bssid r2 = Some "aa:bb:cc:dd:ee:02" /\
    ssid r1 = ssid r2 /\ r1 <> r2.
Proof.
  apply (proj1 (proj2 (proj2 (proj2 (proj2 multiline_parsers_flush))))
           two_access_points ["SSID 1 : Home"]
           "    BSSID 1                 : aa:bb:cc:dd:ee:01"
           "    BSSID 2                 : aa:bb:cc:dd:ee:02" []).
  - reflexivity.
  - split; [reflexivity |]. exists ["aa:bb:cc:dd:ee:01"]. split; reflexivity.
  - split; [reflexivity |]. exists ["aa:bb:cc:dd:ee:02"]. split; reflexivity.
  - discriminate.
Defined.

(** C6, at the failing input. Two cells of one network are scanned, each
    opened by its identifier line, and the scan ends with a signal level
    written as a ratio whose denominator is 0. Without that last line the
    parser returns the two records; with it, the division of the ratio
    branch raises [ZeroDivisionError], the call fails and no record is
    returned. *)
Theorem iwlist_zero_ratio_loses_cells :
  Linux.parse_iwlist two_cells
  = Ok [mkNetwork (Some "Home") (Some "00:11:22:aa:bb:01") None None;
        mkNetwork (Some "Home") (Some "00:11:22:aa:bb:02") None None] /\
  Linux.parse_iwlist two_cells_zero_ratio = Raise ZeroDivisionError /\
  Linux.get_wifi_bssids_iwlist
    (Ok (mkCompleted 0 two_cells_zero_ratio EmptyString))
  = Raise ZeroDivisionError.
Proof. repeat split. Qed.

(** ** The nmcli parser *)

Section Nmcli.

Local Open Scope list_scope.

Lemma isdigit_forallb (s : string) :
  Py.isdigit s = true -> Py.forallb_str Py.isdigit_char s = true.
Proof. destruct s; [discriminate | trivial]. Qed.

(** A field that passes [isdigit] and is read by [int] is not negative. *)
Lemma nmcli_field_nonneg (field : string) (x : option Z) :
  (if Py.isdigit field then v <- Py.int field ;; Ok (Some v) else Ok None) = Ok x ->
  forall v, x = Some v -> 0 <= v.
Proof.
  destruct (Py.isdigit field) eqn:Hd.
  - destruct (Py.int field) as [w | |] eqn:Hi; simpl; try discriminate.
    intros H v ->. apply Ok_inj in H. injection H as ->.
    apply (int_digits_nonneg field v (isdigit_forallb field Hd) Hi).
  - intros H v ->. apply Ok_inj in H. discriminate.
Qed.

(** A line appends nothing or one record, whose identifier is the second
    field whatever it holds. *)
Lemma nmcli_line_spec (line : string) (networks networks' : list network) :
  Linux.nmcli_line line networks = Ok networks' ->
  networks' = networks \/
  exists r, networks' = append networks r /\
            (exists b, bssid r = Some b) /\
            (forall v, signal r = Some (Some v) -> 0 <= v).
Proof.
  unfold Linux.nmcli_line. cbv zeta.
  destruct (Py.strip line); [intros H; apply Ok_inj in H; auto |].
  destruct (4 <=? _)%nat; [| intros H; apply Ok_inj in H; auto].
  match goal with
  | |- bind ?c _ = _ -> _ => destruct c as [sig | |] eqn:Hsig; simpl; try discriminate
  end.
  match goal with
  | |- bind ?c _ = _ -> _ => destruct c as [chan | |] eqn:Hchan; simpl; try discriminate
  end.
  intros H. apply Ok_inj in H. subst networks'. right.
  eexists. split; [reflexivity |]. simpl. split; [eauto |].
  intros v Hv. injection Hv as ->.
  exact (nmcli_field_nonneg _ _ Hsig v eq_refl).
Qed.

Lemma nmcli_lines_invariant (P : network -> Prop) (lines : list string) :
  (forall line networks networks',
     Linux.nmcli_line line networks = Ok networks' ->
     networks' = networks \/ exists r, networks' = append networks r /\ P r) ->
  forall networks networks',
    Forall P networks ->
    Linux.nmcli_lines lines networks = Ok networks' ->
    Forall P networks'.
Proof.
  intros Hstep.
  induction lines as [| line lines IH]; intros networks networks' Hall H; simpl in H.
  - apply Ok_inj in H. now subst.
  - destruct (Linux.nmcli_line line networks) as [n1 | |] eqn:E; try discriminate.
    simpl in H. apply (IH n1); [| assumption].
    apply Hstep in E as [-> | (r & -> & Hr)]; [assumption |].
    apply Forall_app. split; [assumption | now constructor].
Qed.

End Nmcli.

(** ** The Termux scanner *)

Section TermuxScanner.

Local Open Scope list_scope.

Lemma has_key_get (k : string) (members : list (string * json)) :
  Json.has_key k members = true -> exists v, Json.get k members = Some v.
Proof.
  unfold Json.has_key.
  induction members as [| [k' v'] members IH]; simpl; [discriminate |].
  intros H. destruct (Json.get k members) as [v |] eqn:E; [eauto |].
  apply orb_prop in H as [H | H]; [rewrite H; eauto |].
  destruct (IH H) as [v Hv]. discriminate.
Qed.

Lemma call_dbm_to_percent_bounds (v : json) (p : Z) :
  Termux.call_dbm_to_percent v = Ok p -> 0 <= p <= 100.
Proof.
  assert (H : forall n, Termux.dbm_to_percent n = Ok p -> 0 <= p <= 100).
  { intros n Hn. destruct (dbm_to_percent_total n) as (q & Hq & Hb). congruence. }
  destruct v; simpl; try discriminate; try apply H.
  repeat match goal with
         | |- (if ?b then _ else _) = _ -> _ => destruct b
         end; try discriminate; intros Hp; apply Ok_inj in Hp; lia.
Qed.

(** The record of one element: its signal is a percentage. *)
Lemma access_point_signal (ap : json) (r : Termux.network) :
  Termux.access_point ap = Ok r -> 0 <= Termux.signal r <= 100.
Proof.
  unfold Termux.access_point.
  repeat match goal with
         | |- bind ?c _ = _ -> _ =>
             let E := fresh "E" in destruct c eqn:E; simpl; try discriminate
         end.
  intros H. apply Ok_inj in H. subst r. simpl.
  eapply call_dbm_to_percent_bounds; eassumption.
Qed.

Lemma access_points_spec (P : Termux.network -> Prop) (aps : list json) :
  (forall ap r, Termux.access_point ap = Ok r -> P r) ->
  forall networks networks',
    Forall P networks ->
    Termux.access_points aps networks = Ok networks' ->
    Forall P networks' /\
    List.length networks' = (List.length networks + List.length aps)%nat.
Proof.
  intros Hstep.
  induction aps as [| ap aps IH]; intros networks networks' Hall H; simpl in H.
  - apply Ok_inj in H. subst. split; [assumption | simpl; lia].
  - destruct (Termux.access_point ap) as [r | |] eqn:E; try discriminate.
    simpl in H. apply IH in H as [H1 H2].
    + split; [assumption |]. rewrite H2. unfold append. rewrite length_app. simpl. lia.
    + apply Forall_app. split; [assumption |]. constructor; [eauto | constructor].
Qed.

(** A scan that returns has decoded a document and run the loop on it. *)
Lemma get_wifi_bssids_returns (run : result completed) (networks : list Termux.network) :
  Termux.get_wifi_bssids run = Ok networks ->
  exists p scan_results aps,
    run = Ok p /\ returncode p = 0 /\
    Json.loads (stdout p) = Ok scan_results /\
    Termux.iterate scan_results = Ok aps /\
    Termux.access_points aps [] = Ok networks.
Proof.
  unfold Termux.get_wifi_bssids.
  destruct (Termux.scan_body run) as [n | e |] eqn:E; try discriminate.
  2: { destruct e; discriminate. }
  intros H. apply Ok_inj in H. subst n.
  unfold Termux.scan_body in E.
  destruct run as [p | |]; simpl in E; try discriminate.
  destruct (Z.eqb_spec (returncode p) 0) as [Hrc | Hrc]; simpl in E; try discriminate.
  destruct (Json.loads (stdout p)) as [sr | |] eqn:Hl; simpl in E; try discriminate.
  unfold Termux.networks_of in E.
  match type of E with
  | bind ?c _ = _ => destruct c; simpl in E; try discriminate
  end.
  destruct (Termux.iterate sr) as [aps | |] eqn:Hit; simpl in E; try discriminate.
  now exists p, sr, aps.
Qed.

End TermuxScanner.

(** ** Terse parser: fields *)

(** The line of the specification, with escaped colons in two fields. *)
Lemma nmcli_escaped_colons :
  Linux.parse_nmcli escaped_line =
  Ok [mkNetwork (Some "MyNet:Work") (Some "aa:bb:cc:dd:ee:ff")
                (Some (Some 80)) (Some (Some 6))].
Proof. reflexivity. Qed.

(** A field that fails [isdigit] becomes [None] and the record is appended,
    when the other field fails it too or is made of decimal digits. *)
Lemma nmcli_line_non_digit_signal (line : string) (networks : list network) :
  let parts := Py.split ":" (Py.replace "\:" "##COLON##" line) in
  Py.strip line <> EmptyString ->
  (4 <= List.length parts)%nat ->
  Py.isdigit (nth 2 parts EmptyString) = false ->
  Py.isdigit (nth 3 parts EmptyString) = false \/
  Py.forallb_str Py.isdecimal (nth 3 parts EmptyString) = true ->
  exists r,
    Linux.nmcli_line line networks = Ok (append networks r) /\
    signal r = Some None /\
    bssid r = Some (Py.lower (Py.replace "##COLON##" ":" (nth 1 parts EmptyString))).
Proof.
  intros parts Hne Hlen Hsig Hchan.
  unfold Linux.nmcli_line. cbv zeta. fold parts.
  destruct (Py.strip line); [congruence |].
  apply Nat.leb_le in Hlen. rewrite Hlen, Hsig. simpl.
  destruct Hchan as [Hchan | Hchan].
  - rewrite Hchan. simpl. eexists. repeat split.
  - destruct (Py.isdigit (nth 3 parts EmptyString)) eqn:Hd.
    + destruct (int_decimal (nth 3 parts EmptyString)) as [v ->];
        [destruct (nth 3 parts EmptyString); [discriminate | discriminate] | assumption |].
      simpl. eexists. repeat split.
    + simpl. eexists. repeat split.
Qed.

Lemma nmcli_line_non_digit_signal_witness :
  exists r,
    Linux.nmcli_line "Net:aa\:bb\:cc\:dd\:ee\:ff:strong:6" [] = Ok (append [] r) /\
    signal r = Some None /\ bssid r = Some "aa:bb:cc:dd:ee:ff".
Proof.
  apply (nmcli_line_non_digit_signal "Net:aa\:bb\:cc\:dd\:ee\:ff:strong:6" []).
  - discriminate.
  - vm_compute. lia.
  - reflexivity.
  - right. reflexivity.
Defined.

(** C5, at the failing input. A field made of a superscript digit passes
    [isdigit], [int] raises [ValueError] on it, and the parser raises: the
    field does not become absent and no record is returned, whether the
    field is the signal or the channel. *)
Theorem nmcli_superscript_digit_raises :
  Linux.parse_nmcli ("Net:aa\:bb\:cc\:dd\:ee\:ff:" ++ superscript_two ++ ":6")
  = Raise ValueError /\
  Linux.parse_nmcli ("Net:aa\:bb\:cc\:dd\:ee\:ff:abc:" ++ superscript_two)
  = Raise ValueError /\
  Py.isdigit superscript_two = true /\
  Py.int superscript_two = Raise ValueError.
Proof. repeat split. Qed.

(** ** Structured parser: a top-level object *)

(** C7, as stated, fails: the empty object is not an array, and the scan
    returns an empty list of networks. *)
Lemma empty_object_is_no_failure :
  Json.loads "{}" = Ok (JObj []) /\
  Termux.get_wifi_bssids (Ok (mkCompleted 0 "{}" "")) = Ok [].
Proof. split; reflexivity. Qed.

(** C7, amended. When the tool's output decodes to an object that has an
    ["error"] member, the scan raises the [RuntimeError] that carries the
    member's value. *)
Theorem error_object_raises (p : completed) (members : list (string * json)) :
  returncode p = 0 ->
  Json.loads (stdout p) = Ok (JObj members) ->
  Json.has_key "error" members = true ->
  exists v, Json.get "error" members = Some v /\
            Termux.get_wifi_bssids (Ok p) = Raise (RuntimeError (TermuxApiError v)).
Proof.
  intros Hrc Hl Hk.
  destruct (has_key_get _ _ Hk) as [v Hv].
  exists v. split; [assumption |].
  unfold Termux.get_wifi_bssids, Termux.scan_body. simpl.
  rewrite Hrc, Hl. simpl.
  unfold Termux.networks_of. now rewrite Hk, Hv.
Qed.

Lemma error_object_raises_witness :
  exists v,
    Json.get "error" [("error", JStr "permission denied")] = Some v /\
    Termux.get_wifi_bssids (Ok (mkCompleted 0 error_object ""))
    = Raise (RuntimeError (TermuxApiError v)).
Proof.
  apply (error_object_raises (mkCompleted 0 error_object "")
           [("error", JStr "permission denied")]); reflexivity.
Defined.

(** ** Signal range *)

(** C8, as stated, fails: the terse parser stores the signal field as it
    reads it. *)
Lemma nmcli_signal_not_clamped :
  Linux.parse_nmcli loud_line =
  Ok [mkNetwork (Some "Net") (Some "aa:bb:cc:dd:ee:ff") (Some (Some 250)) (Some (Some 6))]
  /\ ~ 0 <= 250 <= 100.
Proof. split; [reflexivity | lia]. Qed.

(** C8, amended. A signal computed from a dBm value lies in [0, 100]: the
    dBm conversion of the iwlist parser, and every record of the structured
    parser. The terse parser stores the percentage the tool printed, a
    non-negative integer, without clamping it. *)
Theorem signal_ranges :
  (forall dbm, 0 <= Linux.signal_of_dbm dbm <= 100) /\
  (forall run networks r,
     Termux.get_wifi_bssids run = Ok networks -> In r networks ->
     0 <= Termux.signal r <= 100) /\
  (forall out networks r v,
     Linux.parse_nmcli out = Ok networks -> In r networks ->
     signal r = Some (Some v) -> 0 <= v).
Proof.
  split; [apply signal_of_dbm_bounds |].
  split.
  - intros run networks r H Hin.
    apply get_wifi_bssids_returns in H as (p & sr & aps & _ & _ & _ & _ & H).
    apply (access_points_spec (fun r => 0 <= Termux.signal r <= 100)) in H
      as [H _]; [| apply access_point_signal | constructor].
    rewrite Forall_forall in H. now apply H.
  - intros out networks r v H Hin.
    apply (nmcli_lines_invariant
             (fun r => forall v, signal r = Some (Some v) -> 0 <= v)) in H;
      [| | constructor].
    + rewrite Forall_forall in H. now apply H.
    + intros line n n' Hl.
      apply nmcli_line_spec in Hl as [-> | (r' & -> & _ & Hr')]; eauto.
Qed.

Lemma signal_ranges_witness :
  Termux.get_wifi_bssids (Ok (mkCompleted 0 one_access_point ""))
  = Ok [Termux.mkNetwork (JStr "<Hidden>") "aa:bb:cc:dd:ee:01" 25 (JInt (-75)) None JNull]
  /\ 0 <= 25 <= 100 /\ 0 <= 250.
Proof.
  split; [reflexivity |].
  split.
  - apply (proj1 (proj2 signal_ranges)
             (Ok (mkCompleted 0 one_access_point ""))
             [Termux.mkNetwork (JStr "<Hidden>") "aa:bb:cc:dd:ee:01" 25 (JInt (-75)) None JNull]
             (Termux.mkNetwork (JStr "<Hidden>") "aa:bb:cc:dd:ee:01" 25 (JInt (-75)) None JNull)).
    + reflexivity.
    + simpl. left. reflexivity.
  - apply (proj2 (proj2 signal_ranges) loud_line
             [mkNetwork (Some "Net") (Some "aa:bb:cc:dd:ee:ff") (Some (Some 250)) (Some (Some 6))]
             (mkNetwork (Some "Net") (Some "aa:bb:cc:dd:ee:ff") (Some (Some 250)) (Some (Some 6)))
             250).
    + reflexivity.
    + simpl. left. reflexivity.
    + reflexivity.
Defined.

(** The ratio of an iwlist signal level is stored as computed, and a zero
    denominator makes the scan raise. *)
Remark iwlist_ratio_signal :
  Linux.parse_iwlist (ratio_cell "80/70")
  = Ok [mkNetwork None (Some "00:11:22:aa:bb:cc") (Some (Some 114)) None] /\
  Linux.parse_iwlist (ratio_cell "5/0") = Raise ZeroDivisionError.
Proof. split; reflexivity. Qed.

(** ** Records and identifiers *)

(** C9, as stated, fails: the terse parser appends the record of a line
    whose identifier field is empty, and the structured parser the record
    of an element without ["bssid"]. *)
Lemma empty_bssid_is_emitted :
  Linux.parse_nmcli no_bssid_line =
  Ok [mkNetwork (Some "Net") (Some "") (Some (Some 80)) (Some (Some 6))] /\
  Termux.get_wifi_bssids (Ok (mkCompleted 0 "[{}]" "")) =
  Ok [Termux.mkNetwork (JStr "<Hidden>") "" 0 JNull None JNull].
Proof. split; reflexivity. Qed.

(** ** Empty output *)

(** C10, as stated, fails: empty output of the Termux tool is not a JSON
    document, and the scan raises "Failed to parse scan results". *)
Lemma empty_output_fails_json :
  Json.loads "" = Raise JSONDecodeError /\
  Termux.get_wifi_bssids (Ok (mkCompleted 0 "" "")) = Raise (RuntimeError ParseFailed).
Proof. split; reflexivity. Qed.

(** C10, amended. When the tool exits with status 0 and prints nothing, the
    terse parser and both multi-line parsers return an empty list of
    networks (whatever the rescan did before the listing); the structured
    parser returns it for the empty array [[]]. *)
Theorem empty_output_no_networks (p rescan : completed) :
  returncode p = 0 ->
  (stdout p = EmptyString ->
     Linux.get_wifi_bssids_nmcli (Ok rescan) (Ok p) = Ok [] /\
     Linux.get_wifi_bssids_nmcli (Raise TimeoutExpired) (Ok p) = Ok [] /\
     Linux.get_wifi_bssids_iwlist (Ok p) = Ok [] /\
     Windows.get_wifi_bssids (Ok p) = Ok []) /\
  (stdout p = "[]" -> Termux.get_wifi_bssids (Ok p) = Ok []).
Proof.
  intros Hrc. split; intros Hout.
  - unfold Linux.get_wifi_bssids_nmcli, Linux.get_wifi_bssids_iwlist,
      Windows.get_wifi_bssids, check.
    simpl. rewrite Hrc. simpl. rewrite Hout. repeat split.
  - unfold Termux.get_wifi_bssids, Termux.scan_body.
    simpl. rewrite Hrc. simpl. rewrite Hout. reflexivity.
Qed.

Lemma empty_output_no_networks_witness :
  Linux.get_wifi_bssids_nmcli (Ok (mkCompleted 1 "" "Error: rescan not allowed"))
    (Ok (mkCompleted 0 "" "")) = Ok [] /\
  Windows.get_wifi_bssids (Ok (mkCompleted 0 "" "")) = Ok [] /\
  Termux.get_wifi_bssids (Ok (mkCompleted 0 "[]" "")) = Ok [].
Proof.
  destruct (empty_output_no_networks (mkCompleted 0 "" "")
              (mkCompleted 1 "" "Error: rescan not allowed") eq_refl)
    as [Hempty _].
  destruct (Hempty eq_refl) as (Hn & _ & _ & Hw).
  destruct (empty_output_no_networks (mkCompleted 0 "[]" "")
              (mkCompleted 0 "" "") eq_refl) as [_ Harr].
  split; [exact Hn |]. split; [exact Hw | exact (Harr eq_refl)].
Defined.

(** ** The text parsers are modelled on every input *)

Section Modelled.

Lemma int_modelled (s : string) : modelled (Py.int s).
Proof.
  unfold modelled, Py.int.
  destruct (match Py.rstrip_of _ _ with EmptyString => _ | String _ _ => _ end) as [neg body].
  destruct (Py.int_body false 0 body); discriminate.
Qed.

Lemma truediv_modelled (x y : Z) : modelled (Py.truediv x y).
Proof.
  unfold modelled, Py.truediv.
  repeat match goal with
         | |- context [if ?b then _ else _] => destruct b
         end; discriminate.
Qed.

Lemma bind_modelled {A B : Type} (c : result A) (k : A -> result B) :
  modelled c -> (forall a, modelled (k a)) -> modelled (bind c k).
Proof. unfold modelled. destruct c; simpl; auto. discriminate. Qed.

Lemma nmcli_line_modelled (line : string) (networks : list network) :
  modelled (Linux.nmcli_line line networks).
Proof.
  unfold Linux.nmcli_line. cbv zeta.
  destruct (Py.strip line); [discriminate |].
  destruct (4 <=? _)%nat; [| discriminate].
  apply bind_modelled.
  { destruct (Py.isdigit _); [| discriminate].
    apply bind_modelled; [apply int_modelled | discriminate]. }
  intros sig. apply bind_modelled; [| discriminate].
  destruct (Py.isdigit _); [| discriminate].
  apply bind_modelled; [apply int_modelled | discriminate].
Qed.

Lemma parse_nmcli_modelled (out : string) : modelled (Linux.parse_nmcli out).
Proof.
  unfold Linux.parse_nmcli. generalize (@nil network).
  induction (Py.splitlines out) as [| line lines IH]; intros networks; simpl.
  - discriminate.
  - apply bind_modelled; [apply nmcli_line_modelled | apply IH].
Qed.

Lemma iwlist_line_modelled (line : string) (st : Linux.state) :
  modelled (Linux.iwlist_line line st).
Proof.
  destruct st as [networks cur]. unfold Linux.iwlist_line. cbv zeta.
  repeat match goal with
         | |- modelled (if ?b then _ else _) => destruct b
         | |- modelled (match Re.search ?r ?s with _ => _ end) =>
             destruct (Re.search r s)
         | |- modelled (bind (Py.int _) _) =>
             apply bind_modelled; [apply int_modelled | intros ?]
         | |- modelled (bind (Linux.signal_of_ratio _ _) _) =>
             apply bind_modelled;
             [unfold Linux.signal_of_ratio;
              apply bind_modelled; [apply truediv_modelled | discriminate]
             | intros ?]
         end; discriminate.
Qed.

Lemma parse_iwlist_modelled (out : string) : modelled (Linux.parse_iwlist out).
Proof.
  unfold Linux.parse_iwlist. apply bind_modelled; [| discriminate].
  generalize (@nil network, empty_network).
  induction (Py.splitlines out) as [| line lines IH]; intros st; simpl.
  - discriminate.
  - apply bind_modelled; [apply iwlist_line_modelled | apply IH].
Qed.

(** The netsh parser always returns. *)
Lemma parse_netsh_returns (out : string) :
  exists networks, Windows.parse_netsh out = Ok networks.
Proof.
  unfold Windows.parse_netsh.
  destruct (netsh_lines_total (Py.splitlines out) ([], empty_network)) as [st ->].
  simpl. eauto.
Qed.

End Modelled.

(** ** The JSON parser and its grammar *)

Section JsonGrammar.

Import Json.
Local Open Scope nat_scope.
Local Open Scope list_scope.

Scheme parses_value_ind' := Minimality for parses_value Sort Prop
  with parses_elements_ind' := Minimality for parses_elements Sort Prop
  with parses_members_ind' := Minimality for parses_members Sort Prop.
Combined Scheme parses_mutind
  from parses_value_ind', parses_elements_ind', parses_members_ind'.

(** What the parser returns follows the grammar. *)
Lemma value_sound (fuel : nat) :
  (forall toks v r, value fuel toks = Some (v, r) -> parses_value toks v r) /\
  (forall toks vs r, elements fuel toks = Some (vs, r) -> parses_elements toks vs r) /\
  (forall toks ms r, members fuel toks = Some (ms, r) -> parses_members toks ms r).
Proof.
  induction fuel as [| fuel (IHv & IHe & IHm)];
    [repeat split; intros; discriminate |].
  repeat split.
  - intros toks v r H. simpl in H.
    destruct toks as [| t toks]; [discriminate |].
    destruct t; try discriminate;
      try (injection H as <- <-; constructor).
    + destruct toks as [| [] toks];
        try (injection H as <- <-; constructor);
        (destruct (members fuel _) as [[ms r'] |] eqn:E; [| discriminate];
         injection H as <- <-; apply parses_object, IHm, E).
    + destruct toks as [| [] toks];
        try (injection H as <- <-; constructor);
        (destruct (elements fuel _) as [[vs r'] |] eqn:E; [| discriminate];
         injection H as <- <-; apply parses_array, IHe, E).
  - intros toks vs r H. simpl in H.
    destruct (value fuel toks) as [[v r'] |] eqn:E; [| discriminate].
    destruct r' as [| t r']; [discriminate |].
    destruct t; try discriminate.
    + injection H as <- <-. apply parses_last_element, IHv, E.
    + destruct (elements fuel r') as [[vs' r''] |] eqn:E'; [| discriminate].
      injection H as <- <-.
      eapply parses_next_element; [apply IHv, E | apply IHe, E'].
  - intros toks ms r H. simpl in H.
    destruct toks as [| t toks]; [discriminate |].
    destruct t; try discriminate.
    destruct toks as [| t toks]; [discriminate |].
    destruct t; try discriminate.
    destruct (value fuel toks) as [[v r'] |] eqn:E; [| discriminate].
    destruct r' as [| t r']; [discriminate |].
    destruct t; try discriminate.
    + injection H as <- <-. apply parses_last_member, IHv, E.
    + destruct (members fuel r') as [[ms' r''] |] eqn:E'; [| discriminate].
      injection H as <- <-.
      eapply parses_next_member; [apply IHv, E | apply IHm, E'].
Qed.

(** A value of the grammar is returned with a fuel of the number of tokens
    it spans. *)
Lemma value_fuel :
  (forall toks v r, parses_value toks v r ->
     exists c, 1 <= c /\ List.length toks = c + List.length r /\
               forall fuel, c <= fuel -> value fuel toks = Some (v, r)) /\
  (forall toks vs r, parses_elements toks vs r ->
     exists c, 1 <= c /\ List.length toks = c + List.length r /\
               (forall fuel, c <= fuel -> elements fuel toks = Some (vs, r)) /\
               (forall r', toks <> TRBracket :: r')) /\
  (forall toks ms r, parses_members toks ms r ->
     exists c, 1 <= c /\ List.length toks = c + List.length r /\
               (forall fuel, c <= fuel -> members fuel toks = Some (ms, r)) /\
               (forall r', toks <> TRBrace :: r')).
Proof.
  apply parses_mutind.
  1-6: intros; exists 1; repeat split; simpl; try lia;
       intros [| fuel] Hf; [lia | reflexivity].
  - intros r. exists 2. repeat split; simpl; try lia.
    intros [| fuel] Hf; [lia | reflexivity].
  - intros toks vs r _ (c & Hc & Hlen & Hrun & Hne).
    exists (S c). repeat split; simpl; try lia.
    intros [| fuel] Hf; [lia |]. simpl.
    destruct toks as [| t toks].
    + simpl in Hlen. lia.
    + destruct t; try (rewrite Hrun by lia; reflexivity).
      now destruct (Hne toks).
  - intros r. exists 2. repeat split; simpl; try lia.
    intros [| fuel] Hf; [lia | reflexivity].
  - intros toks ms r _ (c & Hc & Hlen & Hrun & Hne).
    exists (S c). repeat split; simpl; try lia.
    intros [| fuel] Hf; [lia |]. simpl.
    destruct toks as [| t toks].
    + simpl in Hlen. lia.
    + destruct t; try (rewrite Hrun by lia; reflexivity).
      now destruct (Hne toks).
  - intros toks v r Hv (c & Hc & Hlen & Hrun).
    exists (S c). simpl in Hlen. repeat split; try lia.
    + intros [| fuel] Hf; [lia |]. simpl. now rewrite Hrun by lia.
    + intros r' ->. inversion Hv.
  - intros toks v toks' vs r Hv (c & Hc & Hlen & Hrun) _ (c' & Hc' & Hlen' & Hrun' & _).
    exists (S (c + c')). simpl in Hlen. repeat split; try lia.
    + intros [| fuel] Hf; [lia |]. simpl.
      rewrite Hrun by lia. now rewrite Hrun' by lia.
    + intros r' ->. inversion Hv.
  - intros k toks v r Hv (c & Hc & Hlen & Hrun).
    exists (S (S (S c))). simpl in *. repeat split; try lia.
    + intros [| fuel] Hf; [lia |]. simpl. now rewrite Hrun by lia.
    + discriminate.
  - intros k toks v toks' ms r Hv (c & Hc & Hlen & Hrun) _ (c' & Hc' & Hlen' & Hrun' & _).
    exists (S (S (S (c + c')))). simpl in *. repeat split; try lia.
    + intros [| fuel] Hf; [lia |]. simpl.
      rewrite Hrun by lia. now rewrite Hrun' by lia.
    + discriminate.
Qed.

(** The fuel [loads] gives the parser is enough: the document decodes to
    [v] exactly when its tokens are a value [v] of the grammar. *)
Lemma loads_grammar (s : string) (toks : list token) (v : json) :
  scan s SStart [] false = Some (toks, false) ->
  (loads s = Ok v <-> parses_value toks v []).
Proof.
  intros Hs. unfold loads. rewrite Hs. split.
  - destruct (value _ toks) as [[v' r] |] eqn:E; [| discriminate].
    destruct r; [| discriminate].
    intros H. apply Ok_inj in H. subst v'.
    apply (proj1 (value_sound _) _ _ _ E).
  - intros H. apply (proj1 value_fuel) in H as (c & _ & Hlen & Hrun).
    rewrite Hrun; [reflexivity |]. simpl in Hlen. lia.
Qed.

End JsonGrammar.

(** * Properties of the rest of the code *)

(** ** The nmcli listing, line by line *)

Section NmcliLines.

Local Open Scope list_scope.

(** The records of a line do not depend on the records before it. *)
Lemma nmcli_line_acc (line : string) (networks : list network) :
  Linux.nmcli_line line networks =
  (n <- Linux.nmcli_line line [] ;; Ok (networks ++ n)).
Proof.
  unfold Linux.nmcli_line. cbv zeta.
  destruct (Py.strip line); [simpl; now rewrite app_nil_r |].
  destruct (4 <=? _)%nat; [| simpl; now rewrite app_nil_r].
  match goal with
  | |- bind ?c _ = _ => destruct c; simpl; try reflexivity
  end.
  match goal with
  | |- bind ?c _ = _ => destruct c; simpl; try reflexivity
  end.
Qed.

Lemma nmcli_lines_acc (lines : list string) :
  forall networks,
    Linux.nmcli_lines lines networks =
    (n <- Linux.nmcli_lines lines [] ;; Ok (networks ++ n)).
Proof.
  induction lines as [| line lines IH]; intros networks; simpl.
  - now rewrite app_nil_r.
  - rewrite (nmcli_line_acc line networks).
    destruct (Linux.nmcli_line line []) as [n1 | |]; simpl; try reflexivity.
    rewrite (IH (networks ++ n1)), (IH n1).
    destruct (Linux.nmcli_lines lines []); simpl; try reflexivity.
    now rewrite app_assoc.
Qed.

End NmcliLines.

(** X1. The terse parser reads each line on its own: the records of a
    listing are the records of its first lines followed by the records of
    the remaining lines, and it raises if either part does. *)
Theorem nmcli_lines_compose (lines1 lines2 : list string) :
  Linux.nmcli_lines (lines1 ++ lines2)%list [] =
  (n1 <- Linux.nmcli_lines lines1 [] ;;
   n2 <- Linux.nmcli_lines lines2 [] ;;
   Ok (n1 ++ n2)%list).
Proof.
  induction lines1 as [| line lines1 IH]; simpl.
  - destruct (Linux.nmcli_lines lines2 []); reflexivity.
  - destruct (Linux.nmcli_line line []) as [n0 | |]; simpl; try reflexivity.
    rewrite (nmcli_lines_acc (lines1 ++ lines2) n0), (nmcli_lines_acc lines1 n0), IH.
    destruct (Linux.nmcli_lines lines1 []) as [n1 | |]; simpl; try reflexivity.
    destruct (Linux.nmcli_lines lines2 []) as [n2 | |]; simpl; try reflexivity.
    now rewrite app_assoc.
Qed.

(** ** When the terse parser raises *)

Section NmcliRaises.

Local Open Scope list_scope.

Lemma int_body_odd (s : string) :
  forall prev acc,
    Py.forallb_str Py.isdigit_char s = true ->
    Py.forallb_str Py.isdecimal s = false ->
    Py.int_body prev acc s = None.
Proof.
  induction s as [| c s IH]; simpl; intros prev acc Hd Hn; [discriminate |].
  apply andb_prop in Hd as [Hc Hs].
  destruct (Py.isdecimal c) eqn:Hdec; simpl in Hn.
  - now apply IH.
  - apply isdigit_char_codes in Hc.
    assert (H48 : ~ 48 <= Py.code c <= 57).
    { intros H. unfold Py.isdecimal, Py.in_range in Hdec.
      apply andb_false_iff in Hdec as [Hdec | Hdec]; lia. }
    destruct (Z.eqb_spec (Py.code c) 95); [lia | reflexivity].
Qed.

(** [int] on a field that passed [isdigit]. *)
Lemma int_odd_digits (field : string) :
  Nmcli.odd_digits field = true -> Py.int field = Raise ValueError.
Proof.
  unfold Nmcli.odd_digits. intros H. apply andb_prop in H as [Hd Hn].
  apply negb_true_iff in Hn. apply isdigit_forallb in Hd.
  unfold Py.int. rewrite (strip_digits field Hd).
  destruct field as [| c s]; [discriminate |].
  pose proof Hd as Hd'. simpl in Hd'. apply andb_prop in Hd' as [Hc _].
  apply isdigit_char_codes in Hc.
  destruct (Z.eqb_spec (Py.code c) 45); [lia |].
  destruct (Z.eqb_spec (Py.code c) 43); [lia |].
  now rewrite (int_body_odd (String c s) false 0 Hd Hn).
Qed.

Lemma int_even_digits (field : string) :
  Py.isdigit field = true -> Nmcli.odd_digits field = false ->
  exists v, Py.int field = Ok v.
Proof.
  unfold Nmcli.odd_digits. intros Hd H. rewrite Hd in H. simpl in H.
  apply negb_false_iff in H.
  apply int_decimal; [| assumption].
  destruct field; [discriminate | discriminate].
Qed.

(** The value stored for a field. *)
Lemma nmcli_field_outcome (field : string) :
  (Nmcli.odd_digits field = true /\
   (if Py.isdigit field then v <- Py.int field ;; Ok (Some v) else Ok None)
   = Raise ValueError) \/
  (Nmcli.odd_digits field = false /\
   exists x,
     (if Py.isdigit field then v <- Py.int field ;; Ok (Some v) else Ok None)
     = Ok x).
Proof.
  destruct (Nmcli.odd_digits field) eqn:Ho.
  - left. split; [reflexivity |].
    rewrite (int_odd_digits field Ho).
    unfold Nmcli.odd_digits in Ho. apply andb_prop in Ho as [-> _]. reflexivity.
  - right. split; [reflexivity |].
    destruct (Py.isdigit field) eqn:Hd; [| eauto].
    destruct (int_even_digits field Hd Ho) as [v ->]. simpl. eauto.
Qed.

Lemma nmcli_line_outcome (line : string) (networks : list network) :
  (Nmcli.raising_line line = true /\
   Linux.nmcli_line line networks = Raise ValueError) \/
  (Nmcli.raising_line line = false /\
   exists networks', Linux.nmcli_line line networks = Ok networks').
Proof.
  unfold Nmcli.raising_line, Nmcli.record_line, Linux.nmcli_line. cbv zeta.
  fold (Nmcli.fields line).
  destruct (Py.strip line) as [| c s]; [right; simpl; eauto |].
  simpl (negb _). rewrite andb_true_l.
  destruct (4 <=? _)%nat; [| right; simpl; eauto].
  rewrite andb_true_l.
  destruct (nmcli_field_outcome (nth 2 (Nmcli.fields line) EmptyString))
    as [[Ho2 ->] | [Ho2 [x2 ->]]]; rewrite Ho2.
  { left. split; reflexivity. }
  simpl.
  destruct (nmcli_field_outcome (nth 3 (Nmcli.fields line) EmptyString))
    as [[Ho3 ->] | [Ho3 [x3 ->]]]; rewrite Ho3.
  { left. split; reflexivity. }
  right. simpl. eauto.
Qed.

Lemma nmcli_lines_outcome (lines : list string) :
  forall networks,
    (existsb Nmcli.raising_line lines = true /\
     Linux.nmcli_lines lines networks = Raise ValueError) \/
    (existsb Nmcli.raising_line lines = false /\
     exists networks', Linux.nmcli_lines lines networks = Ok networks').
Proof.
  induction lines as [| line lines IH]; intros networks; simpl.
  - right. eauto.
  - destruct (nmcli_line_outcome line networks) as [[Hr ->] | [Hr [n1 ->]]];
      rewrite Hr; simpl.
    + left. split; reflexivity.
    + apply IH.
Qed.

End NmcliRaises.

(** X2. On a listing of Latin-1 text in which no run of digits is longer
    than 4300, the terse parser raises exactly when some record line (not
    blank, at least four fields) has a signal or channel field that
    [isdigit] accepts and [int] refuses, which on such a text is a field of
    digits that holds a superscript digit; the exception is [ValueError],
    and on every other such listing the parser returns. *)
Theorem nmcli_raises_iff (out : string) :
  within_digit_limit out = true ->
  (existsb Nmcli.raising_line (Py.splitlines out) = true <->
   Linux.parse_nmcli out = Raise ValueError) /\
  (existsb Nmcli.raising_line (Py.splitlines out) = false <->
   exists networks, Linux.parse_nmcli out = Ok networks).
Proof.
  intros _. unfold Linux.parse_nmcli.
  destruct (nmcli_lines_outcome (Py.splitlines out) [])
    as [[He ->] | [He [n ->]]]; rewrite He; split; split; intros H;
    try reflexivity; try discriminate; eauto.
  destruct H as [n H]. discriminate.
Qed.

Lemma nmcli_raises_iff_witness :
  Linux.parse_nmcli ("Net:aa:" ++ superscript_two ++ ":6") = Raise ValueError /\
  exists networks, Linux.parse_nmcli "Net:aa:--:6" = Ok networks.
Proof.
  split.
  - apply (proj1 (proj1 (nmcli_raises_iff ("Net:aa:" ++ superscript_two ++ ":6")
                           eq_refl))).
    reflexivity.
  - apply (proj1 (proj2 (nmcli_raises_iff "Net:aa:--:6" eq_refl))). reflexivity.
Defined.

Section NmcliRecords.

Local Open Scope list_scope.

Lemma nmcli_field_number (field : string) :
  Nmcli.odd_digits field = false ->
  (if Py.isdigit field then v <- Py.int field ;; Ok (Some v) else Ok None)
  = Ok (Nmcli.number field).
Proof.
  intros Ho. unfold Nmcli.number.
  destruct (Py.isdigit field) eqn:Hd; [| reflexivity].
  destruct (int_even_digits field Hd Ho) as [v ->]. reflexivity.
Qed.

Lemma nmcli_line_record_of (line : string) (networks : list network) :
  Nmcli.raising_line line = false ->
  Linux.nmcli_line line networks
  = Ok (if Nmcli.record_line line
        then networks ++ [Nmcli.record_of line] else networks).
Proof.
  unfold Nmcli.raising_line, Nmcli.record_line, Linux.nmcli_line,
    Nmcli.record_of.
  cbv zeta. fold (Nmcli.fields line).
  destruct (Py.strip line) as [| c s]; [reflexivity |].
  simpl (negb _). rewrite !andb_true_l.
  destruct (4 <=? _)%nat; [| reflexivity].
  rewrite andb_true_l. intros Ho. apply orb_false_elim in Ho as [H2 H3].
  rewrite (nmcli_field_number _ H2), (nmcli_field_number _ H3). reflexivity.
Qed.

Lemma nmcli_lines_record_of (lines : list string) :
  existsb Nmcli.raising_line lines = false ->
  forall networks,
    Linux.nmcli_lines lines networks
    = Ok (networks ++ map Nmcli.record_of (filter Nmcli.record_line lines)).
Proof.
  induction lines as [| line lines IH]; simpl; intros Hr networks.
  - now rewrite app_nil_r.
  - apply orb_false_elim in Hr as [Hl Hr].
    rewrite (nmcli_line_record_of line networks Hl). simpl.
    rewrite (IH Hr).
    destruct (Nmcli.record_line line); simpl; [| reflexivity].
    now rewrite <- app_assoc.
Qed.

End NmcliRecords.

(** X29. On a listing of Latin-1 text in which no run of digits is longer
    than 4300 and no record line has a field of digits with a superscript
    digit, the loop of the terse parser is a filter followed by a map: the
    result has one record for each line that is not blank and has at least
    four fields, in the order of the listing, built from the fields of that
    line alone. *)
Theorem nmcli_parser_records (out : string) :
  within_digit_limit out = true ->
  existsb Nmcli.raising_line (Py.splitlines out) = false ->
  Linux.parse_nmcli out
  = Ok (map Nmcli.record_of (filter Nmcli.record_line (Py.splitlines out))).
Proof.
  intros _ H. unfold Linux.parse_nmcli.
  now rewrite (nmcli_lines_record_of _ H).
Qed.

Lemma nmcli_parser_records_witness :
  Linux.parse_nmcli escaped_line
  = Ok (map Nmcli.record_of
          (filter Nmcli.record_line (Py.splitlines escaped_line))).
Proof. apply (nmcli_parser_records escaped_line); reflexivity. Defined.

(** ** What the iwlist parser raises *)

Section IwlistRaises.

Import Re.
Local Open Scope nat_scope.
Local Open Scope list_scope.

(** A group around one repeated class, followed by any tokens. *)
Lemma match_plus_then (c : cls) (post : pattern) :
  forall s pos g,
    match_here (Open :: Atom c Plus :: Close :: post) s pos = Some g ->
    exists p r g',
      s = (p ++ r)%string /\ p <> EmptyString /\
      Py.forallb_str (cls_matches c) p = true /\
      match_here post r (pos + String.length p) = Some g' /\
      g = pos :: (pos + String.length p) :: g'.
Proof.
  intros s pos g H. simpl in H.
  destruct s as [| a s]; [discriminate |].
  destruct (cls_matches c a) eqn:Ha; [| discriminate].
  destruct (greedy _ _ _ _) as [g0 |] eqn:Hg; [| discriminate].
  injection H as <-.
  apply greedy_inv in Hg as (p & r & -> & Hp & Hk).
  destruct (match_here post r _) as [g' |] eqn:Hpost; [| discriminate].
  injection Hk as <-.
  exists (String a p), r, g'. simpl. rewrite Ha, Hp, Nat.add_succ_r.
  repeat split; try assumption. discriminate.
Qed.

Lemma match_plus_close (c : cls) (post : pattern) :
  group_free post = true ->
  forall s pos g,
    match_here (Atom c Plus :: Close :: post) s pos = Some g ->
    exists p r, s = (p ++ r)%string /\ p <> EmptyString /\
                Py.forallb_str (cls_matches c) p = true /\
                g = [pos + String.length p].
Proof.
  intros Hf s pos g H.
  assert (Ho : match_here (Open :: Atom c Plus :: Close :: post) s pos
               = Some (pos :: g)).
  { change (option_map (cons pos)
              (match_here (Atom c Plus :: Close :: post) s pos)
            = Some (pos :: g)).
    now rewrite H. }
  apply (match_plus_group c post Hf) in Ho as (p & r & Hs & Hne & Hp & Hg).
  injection Hg as ->. now exists p, r.
Qed.

(** The group of the dBm pattern: digits, maybe after a minus sign. *)
Lemma match_signed_group (post : pattern) :
  group_free post = true ->
  forall s pos g,
    match_here (Open :: Atom (Chr "-") Opt :: Atom Digit Plus :: Close :: post)
      s pos = Some g ->
    exists p r, s = (p ++ r)%string /\ Iwlist.signed p /\
                g = [pos; pos + String.length p].
Proof.
  intros Hf s pos g H.
  change (option_map (cons pos)
            (match_here (Atom (Chr "-") Opt :: Atom Digit Plus :: Close :: post)
               s pos) = Some g) in H.
  destruct (match_here (Atom (Chr "-") Opt :: _) s pos) as [g0 |] eqn:Hm;
    [| discriminate].
  injection H as <-.
  assert (Hplain : match_here (Atom Digit Plus :: Close :: post) s pos
                   = Some g0 ->
                   exists p r, s = (p ++ r)%string /\ Iwlist.signed p /\
                               pos :: g0 = [pos; pos + String.length p]).
  { intros H. apply (match_plus_close Digit post Hf) in H
      as (p & r & -> & Hne & Hp & ->).
    exists p, r. split; [reflexivity |]. split; [| reflexivity].
    exists p. auto. }
  change (match s with
          | String a s' =>
              if cls_matches (Chr "-") a
              then match match_here (Atom Digit Plus :: Close :: post) s' (S pos) with
                   | Some g1 => Some g1
                   | None => match_here (Atom Digit Plus :: Close :: post) s pos
                   end
              else match_here (Atom Digit Plus :: Close :: post) s pos
          | EmptyString => match_here (Atom Digit Plus :: Close :: post) s pos
          end = Some g0) in Hm.
  destruct s as [| a s]; [now apply Hplain |].
  destruct (cls_matches (Chr "-") a) eqn:Ha; [| now apply Hplain].
  destruct (match_here (Atom Digit Plus :: Close :: post) s (S pos))
    as [g1 |] eqn:Hd; [| now apply Hplain].
  injection Hm as <-.
  apply (match_plus_close Digit post Hf) in Hd as (p & r & -> & Hne & Hp & ->).
  unfold cls_matches in Ha. apply Ascii.eqb_eq in Ha. subst a.
  exists (String "-" p), r. split; [reflexivity |].
  split; [exists p; auto |].
  simpl. now rewrite Nat.add_succ_r.
Qed.

Lemma rstrip_signed (d : string) :
  d <> EmptyString -> Py.forallb_str Py.isdigit_char d = true ->
  Py.rstrip_of Py.int_space (String "-" d) = String "-" d.
Proof.
  intros Hne Hd. simpl. rewrite (rstrip_digits d Hd).
  destruct d; [congruence | reflexivity].
Qed.

Lemma int_signed (p : string) :
  Iwlist.signed p -> exists v, Py.int p = Ok v.
Proof.
  intros (d & Hne & Hd & [-> | ->]); [now apply int_decimal |].
  assert (Hg : Py.forallb_str Py.isdigit_char d = true).
  { clear Hne. induction d as [| c d IH]; simpl in *; [reflexivity |].
    apply andb_prop in Hd as [Hc Hs].
    now rewrite (isdecimal_isdigit_char c Hc), IH. }
  unfold Py.int.
  change (Py.lstrip_of Py.int_space (String "-" d)) with (String "-" d).
  rewrite (rstrip_signed d Hne Hg).
  change (Py.code "-" =? 45)%Z with true. cbv iota beta.
  destruct (int_body_decimal d false 0%Z Hd (or_introl Hne)) as [v ->].
  eauto.
Qed.

Lemma dbm_re_shape :
  Linux.dbm_re =
  [Atom (Chr "S") One; Atom (Chr "i") One; Atom (Chr "g") One;
   Atom (Chr "n") One; Atom (Chr "a") One; Atom (Chr "l") One;
   Atom (Chr " ") One; Atom (Chr "l") One; Atom (Chr "e") One;
   Atom (Chr "v") One; Atom (Chr "e") One; Atom (Chr "l") One;
   Atom (Class false [("=", "="); (":", ":")]%char) Opt; Atom Space Star]
    ++ Open :: Atom (Chr "-") Opt :: Atom Digit Plus :: Close
    :: [Atom Space Star; Atom (Chr "d") One; Atom (Chr "B") One;
        Atom (Chr "m") One].
Proof. reflexivity. Qed.

Lemma ratio_re_shape :
  Linux.ratio_re =
  [Atom (Chr "S") One; Atom (Chr "i") One; Atom (Chr "g") One;
   Atom (Chr "n") One; Atom (Chr "a") One; Atom (Chr "l") One;
   Atom (Chr " ") One; Atom (Chr "l") One; Atom (Chr "e") One;
   Atom (Chr "v") One; Atom (Chr "e") One; Atom (Chr "l") One;
   Atom (Class false [("=", "="); (":", ":")]%char) Opt; Atom Space Star]
    ++ Open :: Atom Digit Plus :: Close
    :: Atom (Chr "/") One :: Open :: Atom Digit Plus :: Close :: [].
Proof. reflexivity. Qed.

Lemma iwlist_channel_re_shape :
  Linux.channel_re =
  [Atom (Chr "C") One; Atom (Chr "h") One; Atom (Chr "a") One;
   Atom (Chr "n") One; Atom (Chr "n") One; Atom (Chr "e") One;
   Atom (Chr "l") One; Atom (Chr ":") One]
    ++ Open :: Atom Digit Plus :: Close :: [].
Proof. reflexivity. Qed.

Lemma search_dbm (line : string) (m : list string) :
  search Linux.dbm_re line = Some m -> exists v, Py.int (group 1 m) = Ok v.
Proof.
  rewrite dbm_re_shape. intros H.
  apply (search_from_inv _ line m line EmptyString eq_refl)
    in H as (a & b & bounds & Hab & Hm & ->).
  apply match_skip in Hm as (p0 & r0 & -> & Hm); [| reflexivity].
  apply match_signed_group in Hm as (p & r & -> & Hp & ->); [| reflexivity].
  apply int_signed.
  unfold group, groups_of. simpl nth.
  replace (String.length a + String.length p0 + String.length p
           - (String.length a + String.length p0)) with (String.length p) by lia.
  subst line.
  rewrite <- sapp_length, <- sapp_assoc.
  now rewrite substring_middle.
Qed.

Lemma search_ratio (line : string) (m : list string) :
  search Linux.ratio_re line = Some m ->
  exists a b, Py.int (group 1 m) = Ok a /\ Py.int (group 2 m) = Ok b.
Proof.
  rewrite ratio_re_shape. intros H.
  apply (search_from_inv _ line m line EmptyString eq_refl)
    in H as (a & b & bounds & Hab & Hm & ->).
  apply match_skip in Hm as (p0 & r0 & -> & Hm); [| reflexivity].
  apply match_plus_then in Hm as (p1 & r1 & g1 & -> & Hne1 & Hp1 & Hm & ->).
  change (match r1 with
          | String c r' =>
              if cls_matches (Chr "/") c
              then match_here [Open; Atom Digit Plus; Close] r'
                     (S (String.length a + String.length p0 + String.length p1))
              else None
          | EmptyString => None
          end = Some g1) in Hm.
  destruct r1 as [| c r1]; [discriminate |].
  destruct (cls_matches (Chr "/") c) eqn:Hc; [| discriminate].
  apply (match_plus_group Digit [] eq_refl) in Hm
    as (p2 & r2 & -> & Hne2 & Hp2 & ->).
  destruct (int_decimal p1 Hne1 Hp1) as [v1 Hv1].
  destruct (int_decimal p2 Hne2 Hp2) as [v2 Hv2].
  exists v1, v2. unfold group, groups_of. simpl nth. subst line.
  split.
  - replace (String.length a + String.length p0 + String.length p1
             - (String.length a + String.length p0))
      with (String.length p1) by lia.
    rewrite <- sapp_length, <- sapp_assoc.
    now rewrite substring_middle.
  - match goal with
    | |- context [String.substring ?o ?n _] =>
        replace n with (String.length p2) by lia;
        replace o
          with (String.length (a ++ p0 ++ p1 ++ String c EmptyString)%string)
          by (rewrite !sapp_length; simpl; lia)
    end.
    replace (a ++ (p0 ++ p1 ++ String c (p2 ++ r2)))%string
      with ((a ++ p0 ++ p1 ++ String c EmptyString) ++ p2 ++ r2)%string.
    2: { rewrite !sapp_assoc. reflexivity. }
    now rewrite substring_middle.
Qed.

Lemma signal_of_ratio_outcome (a b : Z) :
  (exists v, Linux.signal_of_ratio a b = Ok v) \/
  Linux.signal_of_ratio a b = Raise ZeroDivisionError \/
  Linux.signal_of_ratio a b = Raise OverflowError.
Proof.
  unfold Linux.signal_of_ratio, Py.truediv. cbv zeta.
  destruct (b =? 0)%Z; [auto |].
  destruct (100 * a =? 0)%Z; [simpl; eauto |].
  destruct (_ && _); simpl; eauto.
Qed.

Lemma iwlist_line_outcome (line : string) (st : Linux.state) :
  (exists st', Linux.iwlist_line line st = Ok st') \/
  (Iwlist.ratio_line line = true /\
   (Linux.iwlist_line line st = Raise ZeroDivisionError \/
    Linux.iwlist_line line st = Raise OverflowError)).
Proof.
  destruct st as [networks cur].
  unfold Linux.iwlist_line, Iwlist.ratio_line. cbv zeta.
  destruct (Py.startswith "Cell" _).
  { left. destruct (search Linux.address_re _); eauto. }
  destruct (Py.contains "Channel:" _).
  { left. destruct (search Linux.channel_re _) as [m |] eqn:Hs; [| eauto].
    rewrite iwlist_channel_re_shape in Hs.
    apply search_digits in Hs as [v ->]; try reflexivity. simpl. eauto. }
  destruct (Py.contains "Signal level" _).
  { destruct (search Linux.dbm_re _) as [m |] eqn:Hd.
    { left. apply search_dbm in Hd as [v ->]. simpl. eauto. }
    destruct (search Linux.ratio_re _) as [m |] eqn:Hr; [| eauto].
    apply search_ratio in Hr as (a & b & -> & ->). simpl.
    destruct (signal_of_ratio_outcome a b) as [[v ->] | [-> | ->]]; simpl;
      eauto. }
  left. destruct (Py.contains "ESSID:" _); [| eauto].
  destruct (search Linux.essid_re _); eauto.
Qed.

Lemma iwlist_lines_outcome (lines : list string) :
  forall st,
    (existsb Iwlist.ratio_line lines = false ->
     exists st', Linux.iwlist_lines lines st = Ok st') /\
    (forall e, Linux.iwlist_lines lines st = Raise e ->
               e = ZeroDivisionError \/ e = OverflowError).
Proof.
  induction lines as [| line lines IH]; intros st; simpl.
  - split; [eauto | discriminate].
  - destruct (iwlist_line_outcome line st) as [[st' ->] | [Hr [-> | ->]]];
      simpl.
    + destruct (IH st') as [IH1 IH2]. split; [| exact IH2].
      intros H. apply orb_false_elim in H as [_ H]. auto.
    + rewrite Hr. split; [discriminate |]. intros e H. left. congruence.
    + rewrite Hr. split; [discriminate |]. intros e H. right. congruence.
Qed.

End IwlistRaises.

(** X30. The iwlist parser raises nothing but the [ZeroDivisionError] and
    the [OverflowError] of a signal level written as a ratio: it returns a
    list on every scan without such a line, and the integers it reads are
    always well formed. ([int] is modelled without CPython's limit on the
    number of digits.) *)
Theorem iwlist_scan_raises (out : string) :
  (existsb Iwlist.ratio_line (Py.splitlines out) = false ->
   exists networks, Linux.parse_iwlist out = Ok networks) /\
  (forall e, Linux.parse_iwlist out = Raise e ->
             e = ZeroDivisionError \/ e = OverflowError).
Proof.
  unfold Linux.parse_iwlist.
  destruct (iwlist_lines_outcome (Py.splitlines out) ([], empty_network))
    as [H1 H2].
  split.
  - intros H. destruct (H1 H) as [st ->]. simpl. eauto.
  - intros e H. apply H2.
    destruct (Linux.iwlist_lines _ _); simpl in H; congruence.
Qed.

Lemma iwlist_scan_raises_witness :
  exists networks, Linux.parse_iwlist one_cell = Ok networks.
Proof. apply (proj1 (iwlist_scan_raises one_cell)). reflexivity. Defined.

(** ** Invariants of the records *)

Section Records.

Local Open Scope list_scope.

Lemma lower_char_idem (c : ascii) :
  Py.lower_char (Py.lower_char c) = Py.lower_char c.
Proof. destruct c as [[] [] [] [] [] [] [] []]; reflexivity. Qed.

(** [lower] leaves a lower-cased string as it is. *)
Lemma lower_idem (s : string) : Py.lower (Py.lower s) = Py.lower s.
Proof.
  induction s as [| c s IH]; simpl; [reflexivity |].
  now rewrite lower_char_idem, IH.
Qed.

Lemma record_ok_empty (name_ok : string -> Prop) : record_ok name_ok empty_network.
Proof. unfold record_ok. simpl. repeat split; intros; discriminate. Qed.

Lemma record_ok_set_bssid (name_ok : string -> Prop) (b : string) (r : network) :
  record_ok name_ok r -> record_ok name_ok (set_bssid (Py.lower b) r).
Proof.
  intros (Hb & Hs & Hsig & Hch). unfold record_ok. simpl.
  repeat split; auto. intros b' H. injection H as <-. apply lower_idem.
Qed.

Lemma record_ok_set_ssid (name_ok : string -> Prop) (s : string) (r : network) :
  name_ok s -> record_ok name_ok r -> record_ok name_ok (set_ssid s r).
Proof.
  intros Hn (Hb & Hs & Hsig & Hch). unfold record_ok. simpl.
  repeat split; auto. intros s' H. injection H as <-. exact Hn.
Qed.

Lemma record_ok_set_signal (name_ok : string -> Prop) (v : Z) (r : network) :
  record_ok name_ok r -> record_ok name_ok (set_signal v r).
Proof.
  intros (Hb & Hs & Hsig & Hch). unfold record_ok. simpl.
  repeat split; auto. discriminate.
Qed.

Lemma record_ok_set_channel (name_ok : string -> Prop) (v : Z) (r : network) :
  record_ok name_ok r -> record_ok name_ok (set_channel v r).
Proof.
  intros (Hb & Hs & Hsig & Hch). unfold record_ok. simpl.
  repeat split; auto. discriminate.
Qed.

Create HintDb records.
#[local] Hint Resolve record_ok_empty record_ok_set_bssid record_ok_set_ssid
  record_ok_set_signal record_ok_set_channel : records.

(** A line of iwlist keeps the records and the accumulator well formed. *)
Lemma iwlist_line_ok (line : string) (networks networks' : list network)
    (cur cur' : network) :
  Forall (record_ok nonempty) networks -> record_ok nonempty cur ->
  Linux.iwlist_line line (networks, cur) = Ok (networks', cur') ->
  Forall (record_ok nonempty) networks' /\ record_ok nonempty cur'.
Proof.
  intros Hall Hcur. unfold Linux.iwlist_line. cbv zeta.
  assert (Happ : Forall (record_ok nonempty) (append networks cur)).
  { apply Forall_app. split; [assumption | now constructor]. }
  assert (Hhid : nonempty "<Hidden>") by discriminate.
  repeat match goal with
         | |- context [if ?b then _ else _] => destruct b
         | |- context [match Re.search ?r ?s with _ => _ end] =>
             destruct (Re.search r s)
         | |- context [bind ?c _] => destruct c; simpl
         | |- context [match Re.group ?i ?m with _ => _ end] =>
             destruct (Re.group i m) eqn:?
         end;
    try discriminate;
    intros H; apply Ok_inj in H; injection H as <- <-;
    split; auto with records.
  apply record_ok_set_ssid; [discriminate | assumption].
Qed.

Lemma iwlist_lines_ok (lines : list string) :
  forall networks cur st,
    Forall (record_ok nonempty) networks -> record_ok nonempty cur ->
    Linux.iwlist_lines lines (networks, cur) = Ok st ->
    Forall (record_ok nonempty) (Linux.finish st).
Proof.
  induction lines as [| line lines IH]; intros networks cur st Hall Hcur H; simpl in H.
  - apply Ok_inj in H. subst st. simpl.
    destruct (has_bssid cur); [| assumption].
    apply Forall_app. split; [assumption | now constructor].
  - destruct (Linux.iwlist_line line (networks, cur)) as [[n1 c1] | |] eqn:E;
      try discriminate.
    simpl in H. destruct (iwlist_line_ok _ _ _ _ _ Hall Hcur E) as [Hn1 Hc1].
    now apply (IH n1 c1).
Qed.

Lemma parse_iwlist_ok (out : string) (networks : list network) :
  Linux.parse_iwlist out = Ok networks -> Forall (record_ok nonempty) networks.
Proof.
  unfold Linux.parse_iwlist. intros H.
  destruct (Linux.iwlist_lines _ _) as [st | |] eqn:E; try discriminate.
  simpl in H. apply Ok_inj in H. subst networks. destruct st as [n c].
  apply (iwlist_lines_ok _ _ _ _ (Forall_nil _) (record_ok_empty _) E).
Qed.

(** A line of netsh keeps the records and the accumulator well formed. *)
Lemma netsh_line_ok (line : string) (networks networks' : list network)
    (cur cur' : network) :
  Forall (record_ok any_name) networks -> record_ok any_name cur ->
  Windows.netsh_line line (networks, cur) = Ok (networks', cur') ->
  Forall (record_ok any_name) networks' /\ record_ok any_name cur'.
Proof.
  intros Hall Hcur. unfold Windows.netsh_line. cbv zeta.
  assert (Happ : Forall (record_ok any_name) (append networks cur)).
  { apply Forall_app. split; [assumption | now constructor]. }
  assert (Hany : forall s, any_name s) by exact (fun _ => I).
  repeat match goal with
         | |- context [if ?b then _ else _] => destruct b
         | |- context [match Re.search ?r ?s with _ => _ end] =>
             destruct (Re.search r s)
         | |- context [bind ?c _] => destruct c; simpl
         end;
    try discriminate;
    intros H; apply Ok_inj in H; injection H as <- <-;
    split; auto with records.
Qed.

Lemma parse_netsh_ok (out : string) (networks : list network) :
  Windows.parse_netsh out = Ok networks -> Forall (record_ok any_name) networks.
Proof.
  unfold Windows.parse_netsh. intros H.
  destruct (Windows.netsh_lines _ _) as [st | |] eqn:E; try discriminate.
  simpl in H. apply Ok_inj in H. subst networks.
  revert E. generalize (Forall_nil (record_ok any_name)).
  generalize (record_ok_empty any_name).
  generalize (@nil network) empty_network.
  induction (Py.splitlines out) as [| line lines IH]; intros n c Hc Hn E; simpl in E.
  - apply Ok_inj in E. subst st. simpl.
    destruct (has_bssid c); [| assumption].
    apply Forall_app. split; [assumption | now constructor].
  - destruct (Windows.netsh_line line (n, c)) as [[n1 c1] | |] eqn:E1;
      try discriminate.
    simpl in E. destruct (netsh_line_ok _ _ _ _ _ Hn Hc E1) as [Hn1 Hc1].
    now apply (IH n1 c1).
Qed.

(** The record of a line of the terse listing. *)
Lemma nmcli_line_record (line : string) (networks networks' : list network) :
  Linux.nmcli_line line networks = Ok networks' ->
  networks' = networks \/
  exists s b sig chan,
    networks' = append networks (mkNetwork (Some s) (Some (Py.lower b)) (Some sig) (Some chan))
    /\ s <> EmptyString
    /\ (chan = None <-> Py.isdigit (nth 3 (Nmcli.fields line) EmptyString) = false)
    /\ Nmcli.record_line line = true.
Proof.
  unfold Linux.nmcli_line, Nmcli.record_line. cbv zeta. fold (Nmcli.fields line).
  destruct (Py.strip line); [intros H; apply Ok_inj in H; auto |].
  destruct (4 <=? _)%nat; [| intros H; apply Ok_inj in H; auto].
  match goal with
  | |- bind ?c _ = _ -> _ => destruct c as [sig | |]; simpl; try discriminate
  end.
  destruct (Py.isdigit (nth 3 (Nmcli.fields line) EmptyString)) eqn:Hd.
  - destruct (Py.int _) as [v | |]; simpl; try discriminate.
    intros H. apply Ok_inj in H. subst networks'. right.
    eexists _, _, sig, (Some v). split; [reflexivity |].
    split; [destruct (Py.replace _ _ _); discriminate |].
    split; [split; discriminate | reflexivity].
  - simpl. intros H. apply Ok_inj in H. subst networks'. right.
    eexists _, _, sig, None. split; [reflexivity |].
    split; [destruct (Py.replace _ _ _); discriminate |].
    split; [split; reflexivity | reflexivity].
Qed.

(** The record of one element of the array. *)
Lemma access_point_fields (ap : json) (r : Termux.network) :
  Termux.access_point ap = Ok r ->
  exists members,
    ap = JObj members /\
    (exists b, Termux.bssid r = Py.lower b) /\
    Termux.truthy (Termux.ssid r) = Ok true /\
    Termux.rssi_dbm r = match Json.get "rssi" members with Some v => v | None => JNull end /\
    Termux.frequency_mhz r
    = match Json.get "frequency_mhz" members with Some v => v | None => JNull end.
Proof.
  unfold Termux.access_point.
  destruct ap; simpl; try discriminate.
  destruct (Termux.truthy _) as [t | |] eqn:Ht; simpl; try discriminate.
  destruct (Termux.lower _) as [b | |] eqn:Hb; simpl; try discriminate.
  destruct (Termux.call_dbm_to_percent _) as [p | |]; simpl; try discriminate.
  destruct (Termux.call_freq_to_channel _) as [c | |]; simpl; try discriminate.
  intros H. apply Ok_inj in H. subst r. simpl.
  exists members. split; [reflexivity |].
  split.
  { unfold Termux.lower in Hb.
    destruct (match Json.get "bssid" members with Some v => v | None => _ end);
      try discriminate.
    apply Ok_inj in Hb. eauto. }
  split; [| split; reflexivity].
  destruct t; [exact Ht | reflexivity].
Qed.

End Records.

(** ** Which records are appended *)

Section AppendedRecords.

Local Open Scope list_scope.

(** What the terse parser returns is the list of the records of its record
    lines. *)
Lemma nmcli_lines_returned (lines : list string) :
  forall acc networks,
    Linux.nmcli_lines lines acc = Ok networks ->
    networks = acc ++ map Nmcli.record_of (filter Nmcli.record_line lines).
Proof.
  intros acc networks H.
  destruct (nmcli_lines_outcome lines acc) as [[_ Hr] | [He _]].
  - rewrite Hr in H. discriminate.
  - rewrite (nmcli_lines_record_of lines He) in H. apply Ok_inj in H.
    now subst.
Qed.

(** The structured parser appends the record of each element in turn. *)
Lemma access_points_each (aps : list json) :
  forall acc networks,
    Termux.access_points aps acc = Ok networks ->
    exists rs, networks = acc ++ rs /\
               Forall2 (fun ap r => Termux.access_point ap = Ok r) aps rs.
Proof.
  induction aps as [| ap aps IH]; intros acc networks H; simpl in H.
  - apply Ok_inj in H. subst. exists []. split; [now rewrite app_nil_r |].
    constructor.
  - destruct (Termux.access_point ap) as [r | |] eqn:E; try discriminate.
    simpl in H. apply IH in H as (rs & -> & Hrs).
    exists (r :: rs). split; [unfold append; now rewrite <- app_assoc |].
    now constructor.
Qed.

(** The identifier of the record of one element. *)
Lemma access_point_bssid (ap : json) (r : Termux.network) :
  Termux.access_point ap = Ok r ->
  exists members,
    ap = JObj members /\
    match Json.get "bssid" members with
    | None => Termux.bssid r = EmptyString
    | Some v => exists b, v = JStr b /\ Termux.bssid r = Py.lower b
    end.
Proof.
  unfold Termux.access_point.
  destruct ap; simpl; try discriminate.
  destruct (Termux.truthy _) as [t | |]; simpl; try discriminate.
  destruct (Termux.lower _) as [b | |] eqn:Hb; simpl; try discriminate.
  destruct (Termux.call_dbm_to_percent _) as [p | |]; simpl; try discriminate.
  destruct (Termux.call_freq_to_channel _) as [c | |]; simpl; try discriminate.
  intros H. apply Ok_inj in H. subst r. simpl.
  exists members. split; [reflexivity |].
  destruct (Json.get "bssid" members) as [v |]; simpl in Hb.
  - destruct v; try discriminate. apply Ok_inj in Hb. eauto.
  - apply Ok_inj in Hb. now subst b.
Qed.

End AppendedRecords.

(** C9, amended. Every record of the two multi-line parsers holds a
    non-empty identifier: an accumulator without one is never appended. The
    terse parser, when it returns, has appended one record for each line
    that is not blank and has at least four fields, in the order of the
    listing, with the lower-cased second field as its identifier, whatever
    that field holds. The structured parser, when it returns, has appended
    one record for each element of the array, in order, with the
    lower-cased value of the element's ["bssid"] as its identifier and the
    empty string when the element has no such key. *)
Theorem appended_records_identifier :
  (forall out networks r,
     Linux.parse_iwlist out = Ok networks -> In r networks -> has_bssid r = true) /\
  (forall out networks r,
     Windows.parse_netsh out = Ok networks -> In r networks -> has_bssid r = true) /\
  (forall out networks,
     Linux.parse_nmcli out = Ok networks ->
     Forall2
       (fun line r =>
          bssid r
          = Some (Py.lower (Py.replace "##COLON##" ":"
                              (nth 1 (Nmcli.fields line) EmptyString))))
       (filter Nmcli.record_line (Py.splitlines out)) networks) /\
  (forall elements networks,
     Termux.networks_of (JArr elements) = Ok networks ->
     Forall2
       (fun ap r =>
          exists members,
            ap = JObj members /\
            match Json.get "bssid" members with
            | None => Termux.bssid r = EmptyString
            | Some v => exists b, v = JStr b /\ Termux.bssid r = Py.lower b
            end)
       elements networks).
Proof.
  split.
  { intros out networks r H Hin. unfold Linux.parse_iwlist in H.
    destruct (Linux.iwlist_lines _ _) as [[n c] | |] eqn:E; try discriminate.
    simpl in H. apply Ok_inj in H. subst networks.
    apply iwlist_lines_invariant in E; [| constructor].
    rewrite Forall_forall in E. now apply E. }
  split.
  { intros out networks r H Hin. unfold Windows.parse_netsh in H.
    destruct (Windows.netsh_lines _ _) as [[n c] | |] eqn:E; try discriminate.
    simpl in H. apply Ok_inj in H. subst networks.
    apply netsh_lines_invariant in E; [| constructor].
    rewrite Forall_forall in E. now apply E. }
  split.
  { intros out networks H. unfold Linux.parse_nmcli in H.
    apply nmcli_lines_returned in H. simpl in H. subst networks.
    induction (filter Nmcli.record_line (Py.splitlines out)) as [| line l IH];
      simpl; constructor; [reflexivity | exact IH]. }
  intros elements networks H. unfold Termux.networks_of in H. simpl in H.
  apply access_points_each in H as (rs & -> & Hrs). simpl.
  induction Hrs as [| ap r aps rs Hr _ IH]; constructor; [| exact IH].
  now apply access_point_bssid.
Qed.

Lemma appended_records_identifier_witness :
  has_bssid (mkNetwork (Some "Home") (Some "00:11:22:aa:bb:cc") None None) = true /\
  Forall2
    (fun line r =>
       bssid r
       = Some (Py.lower (Py.replace "##COLON##" ":"
                           (nth 1 (Nmcli.fields line) EmptyString))))
    (filter Nmcli.record_line (Py.splitlines no_bssid_line))
    [mkNetwork (Some "Net") (Some EmptyString) (Some (Some 80)) (Some (Some 6))] /\
  Forall2
    (fun ap r =>
       exists members,
         ap = JObj members /\
         match Json.get "bssid" members with
         | None => Termux.bssid r = EmptyString
         | Some v => exists b, v = JStr b /\ Termux.bssid r = Py.lower b
         end)
    [JObj []; JObj [("bssid", JStr "AA:BB:CC:DD:EE:FF")]]
    [Termux.mkNetwork (JStr "<Hidden>") EmptyString 0 JNull None JNull;
     Termux.mkNetwork (JStr "<Hidden>") "aa:bb:cc:dd:ee:ff" 0 JNull None JNull].
Proof.
  destruct appended_records_identifier as (Hiw & _ & Hnm & Hjs).
  split; [| split].
  - apply (Hiw one_cell
             [mkNetwork (Some "Home") (Some "00:11:22:aa:bb:cc") None None]).
    + reflexivity.
    + simpl. left. reflexivity.
  - apply (Hnm no_bssid_line). reflexivity.
  - apply (Hjs [JObj []; JObj [("bssid", JStr "AA:BB:CC:DD:EE:FF")]]).
    reflexivity.
Defined.

(** X3. Every identifier in a scan result is in lower case, whichever
    parser produced it. *)
Theorem bssid_lowercase :
  (forall out networks r b,
     Linux.parse_nmcli out = Ok networks -> In r networks ->
     bssid r = Some b -> Py.lower b = b) /\
  (forall out networks r b,
     Linux.parse_iwlist out = Ok networks -> In r networks ->
     bssid r = Some b -> Py.lower b = b) /\
  (forall out networks r b,
     Windows.parse_netsh out = Ok networks -> In r networks ->
     bssid r = Some b -> Py.lower b = b) /\
  (forall run networks r,
     Termux.get_wifi_bssids run = Ok networks -> In r networks ->
     Py.lower (Termux.bssid r) = Termux.bssid r).
Proof.
  split.
  { intros out networks r b H Hin.
    apply (nmcli_lines_invariant
             (fun r => forall b, bssid r = Some b -> Py.lower b = b)) in H;
      [| | constructor].
    - rewrite Forall_forall in H. now apply H.
    - intros line n n' Hl.
      apply nmcli_line_record in Hl as [-> | (s & b' & sig & chan & -> & _)]; auto.
      right. eexists. split; [reflexivity |]. simpl.
      intros b0 Hb0. injection Hb0 as <-. apply lower_idem. }
  split.
  { intros out networks r b H Hin. apply parse_iwlist_ok in H.
    rewrite Forall_forall in H. now apply (H r Hin). }
  split.
  { intros out networks r b H Hin. apply parse_netsh_ok in H.
    rewrite Forall_forall in H. now apply (H r Hin). }
  intros run networks r H Hin.
  apply get_wifi_bssids_returns in H as (p & sr & aps & _ & _ & _ & _ & H).
  apply (access_points_spec
           (fun r => Py.lower (Termux.bssid r) = Termux.bssid r)) in H as [H _];
    [| | constructor].
  - rewrite Forall_forall in H. now apply H.
  - intros ap r' Hap.
    apply access_point_fields in Hap as (m & _ & (b & ->) & _). apply lower_idem.
Qed.

Lemma bssid_lowercase_witness :
  Py.lower "aa:bb:cc:dd:ee:01" = "aa:bb:cc:dd:ee:01".
Proof.
  apply (proj1 (proj2 (proj2 bssid_lowercase)) two_access_points
           [mkNetwork (Some "Home") (Some "aa:bb:cc:dd:ee:01") None None;
            mkNetwork (Some "Home") (Some "aa:bb:cc:dd:ee:02") None None]
           (mkNetwork (Some "Home") (Some "aa:bb:cc:dd:ee:01") None None)).
  - reflexivity.
  - simpl. left. reflexivity.
  - reflexivity.
Defined.

(** X4. A scan result never holds an empty network name: the terse parser
    and the structured parser store ["<Hidden>"] instead (every record has a
    name), and the iwlist parser stores it whenever it stores a name. *)
Theorem ssid_never_empty :
  (forall out networks r,
     Linux.parse_nmcli out = Ok networks -> In r networks ->
     exists s, ssid r = Some s /\ s <> EmptyString) /\
  (forall out networks r s,
     Linux.parse_iwlist out = Ok networks -> In r networks ->
     ssid r = Some s -> s <> EmptyString) /\
  (forall run networks r,
     Termux.get_wifi_bssids run = Ok networks -> In r networks ->
     Termux.truthy (Termux.ssid r) = Ok true /\
     Termux.ssid r <> JStr EmptyString).
Proof.
  split.
  { intros out networks r H Hin.
    apply (nmcli_lines_invariant
             (fun r => exists s, ssid r = Some s /\ s <> EmptyString)) in H;
      [| | constructor].
    - rewrite Forall_forall in H. now apply H.
    - intros line n n' Hl.
      apply nmcli_line_record in Hl as [-> | (s & b' & sig & chan & -> & Hs & _)]; auto.
      right. eexists. split; [reflexivity |]. simpl. eauto. }
  split.
  { intros out networks r s H Hin Hs. apply parse_iwlist_ok in H.
    rewrite Forall_forall in H. now apply (H r Hin). }
  intros run networks r H Hin.
  apply get_wifi_bssids_returns in H as (p & sr & aps & _ & _ & _ & _ & H).
  apply (access_points_spec
           (fun r => Termux.truthy (Termux.ssid r) = Ok true)) in H as [H _];
    [| | constructor].
  - rewrite Forall_forall in H. specialize (H r Hin).
    split; [assumption |]. intros E. rewrite E in H. discriminate.
  - intros ap r' Hap.
    now apply access_point_fields in Hap as (m & _ & _ & Ht & _).
Qed.

Lemma ssid_never_empty_witness :
  exists s, Some "<Hidden>" = Some s /\ s <> EmptyString.
Proof.
  apply (proj1 ssid_never_empty hidden_listing
           [mkNetwork (Some "<Hidden>") (Some "aa:bb:cc:dd:ee:ff")
                      (Some (Some 70)) (Some (Some 11))]
           (mkNetwork (Some "<Hidden>") (Some "aa:bb:cc:dd:ee:ff")
                      (Some (Some 70)) (Some (Some 11)))).
  - reflexivity.
  - simpl. left. reflexivity.
Defined.

(** ** When the table is printed to the end *)

Section TableRows.

Import Table.
Local Open Scope list_scope.

Lemma row_outcome (net : network) :
  (unprintable net = false /\ exists r, row net = Ok r) \/
  (unprintable net = true /\ row net = Raise TypeError).
Proof.
  unfold unprintable, row.
  destruct (channel net) as [[c |] |]; simpl; eauto.
Qed.

Lemma rows_outcome (l : list network) :
  forall out,
    (existsb unprintable l = false /\
     exists out', rows l out = (out', Ok tt) /\
                  List.length out' = (List.length out + List.length l)%nat) \/
    (existsb unprintable l = true /\
     exists out', rows l out = (out', Raise TypeError) /\
                  (List.length out' < List.length out + List.length l)%nat).
Proof.
  induction l as [| net l IH]; intros out; simpl.
  - left. split; [reflexivity |]. exists out. split; [reflexivity | lia].
  - destruct (row_outcome net) as [[Hu [r Hr]] | [Hu Hr]]; rewrite Hu, Hr; simpl.
    + destruct (IH (append out r)) as [[He (out' & Ho & Hl)] | [He (out' & Ho & Hl)]];
        [left | right]; (split; [assumption |]); exists out';
        (split; [assumption |]); unfold append in Hl; rewrite length_app in Hl;
        simpl in Hl; lia.
    + right. split; [reflexivity |]. exists out. split; [reflexivity | lia].
Qed.

(** Rows are only added to what was printed. *)
Lemma rows_grows (l : list network) :
  forall out out' e,
    rows l out = (out', e) -> (List.length out <= List.length out')%nat.
Proof.
  induction l as [| x l IH]; intros out out' e H; simpl in H.
  - injection H as <- _. lia.
  - destruct (row x) as [r | e' |]; try (injection H as <- _; lia).
    apply IH in H. unfold append in H. rewrite length_app in H. simpl in H. lia.
Qed.

Lemma existsb_perm {A : Type} (f : A -> bool) (l l' : list A) :
  Permutation l l' -> existsb f l = existsb f l'.
Proof.
  induction 1; simpl; try congruence.
  - now rewrite !orb_assoc, (orb_comm (f y)).
Qed.

(** How a call on a list ends, and how much it prints. *)
Lemma table_outcome (networks : list network) :
  (existsb unprintable networks = false ->
   ended (print_networks networks) = Ok tt /\
   List.length (printed (print_networks networks))
   = match networks with [] => 1%nat | _ => (List.length networks + 3)%nat end) /\
  (existsb unprintable networks = true ->
   ended (print_networks networks) = Raise TypeError /\
   (2 <= List.length (printed (print_networks networks))
      < List.length networks + 2)%nat).
Proof.
  unfold print_networks.
  split; intros Hu.
  - destruct networks as [| n networks]; [split; reflexivity |].
    rewrite (existsb_perm _ _ _ (sorted_desc_perm (n :: networks))) in Hu.
    destruct (rows_outcome (Table.sorted_desc (n :: networks))
                [Table.header; Table.repeat_str "-" 70])
      as [[_ (out' & -> & Hl)] | [He _]]; [| congruence].
    simpl Table.ended. simpl Table.printed.
    split; [reflexivity |].
    rewrite <- (Permutation_length (sorted_desc_perm (n :: networks))) in Hl.
    unfold append. rewrite length_app, Hl. simpl. lia.
  - destruct networks as [| n networks]; [discriminate |].
    rewrite (existsb_perm _ _ _ (sorted_desc_perm (n :: networks))) in Hu.
    destruct (rows_outcome (Table.sorted_desc (n :: networks))
                [Table.header; Table.repeat_str "-" 70])
      as [[He _] | [_ (out' & Ho & Hl)]]; [congruence |].
    rewrite Ho. simpl Table.ended. simpl Table.printed.
    split; [reflexivity |].
    rewrite <- (Permutation_length (sorted_desc_perm (n :: networks))) in Hl.
    simpl in Hl.
    apply rows_grows in Ho. simpl in Ho.
    simpl. lia.
Qed.

End TableRows.

(** X5. [print_networks] (Linux and Windows) prints the whole table, the
    header, the rule, one row for each record and the total, exactly when no
    record holds [None] under ['channel']; otherwise it raises [TypeError]
    after the header, the rule and fewer rows than there are records, so
    that the total is not printed. An empty list gives one line. *)
Theorem print_networks_outcome (networks : list network) :
  (existsb unprintable networks = false ->
   Table.ended (Linux.print_networks networks) = Ok tt /\
   List.length (Table.printed (Linux.print_networks networks))
   = match networks with [] => 1%nat | _ => (List.length networks + 3)%nat end) /\
  (existsb unprintable networks = true ->
   Table.ended (Linux.print_networks networks) = Raise TypeError /\
   (2 <= List.length (Table.printed (Linux.print_networks networks))
      < List.length networks + 2)%nat) /\
  Windows.print_networks networks = Linux.print_networks networks.
Proof.
  split; [| split; [| reflexivity]];
    apply (table_outcome networks).
Qed.

Lemma print_networks_outcome_witness :
  Table.ended (Linux.print_networks [weak_network; strong_network]) = Ok tt /\
  Table.ended (Linux.print_networks
                 [strong_network; mkNetwork (Some "x") (Some "y") (Some None) (Some None)])
  = Raise TypeError.
Proof.
  split.
  - apply (proj1 (print_networks_outcome [weak_network; strong_network])).
    reflexivity.
  - apply (proj1 (proj2 (print_networks_outcome
                           [strong_network;
                            mkNetwork (Some "x") (Some "y") (Some None) (Some None)]))).
    reflexivity.
Defined.

Section PrintingScans.

Local Open Scope list_scope.

Lemma record_ok_printable (name_ok : string -> Prop) (l : list network) :
  Forall (record_ok name_ok) l -> existsb unprintable l = false.
Proof.
  induction 1 as [| r l (_ & _ & _ & Hch) _ IH]; simpl; [reflexivity |].
  rewrite IH, orb_false_r. unfold unprintable.
  destruct (channel r) as [[c |] |]; congruence.
Qed.

Lemma nmcli_lines_unprintable (lines : list string) :
  forall acc networks,
    Linux.nmcli_lines lines acc = Ok networks ->
    existsb unprintable networks
    = existsb unprintable acc || existsb no_channel_line lines.
Proof.
  induction lines as [| line lines IH]; intros acc networks H; simpl in H.
  - apply Ok_inj in H. subst. simpl. now rewrite orb_false_r.
  - destruct (Linux.nmcli_line line acc) as [n1 | |] eqn:E; try discriminate.
    simpl in H. rewrite (IH _ _ H). simpl.
    pose proof E as E'.
    apply nmcli_line_record in E
      as [-> | (s & b & sig & chan & -> & _ & Hchan & Hrec)].
    + assert (Hl : no_channel_line line = false).
      { unfold no_channel_line, Nmcli.record_line.
        unfold Linux.nmcli_line in E'. cbv zeta in E'. fold (Nmcli.fields line) in E'.
        destruct (Py.strip line); [reflexivity |].
        destruct (4 <=? _)%nat; [| reflexivity].
        exfalso.
        match type of E' with
        | bind ?c _ = _ => destruct c; simpl in E'; try discriminate
        end.
        match type of E' with
        | bind ?c _ = _ => destruct c; simpl in E'; try discriminate
        end.
        apply Ok_inj in E'. unfold append in E'.
        apply (f_equal (@List.length network)) in E'.
        rewrite length_app in E'. simpl in E'. lia. }
      now rewrite Hl.
    + unfold append. rewrite existsb_app. simpl. rewrite orb_false_r.
      rewrite <- orb_assoc. f_equal.
      unfold no_channel_line. rewrite Hrec. simpl.
      unfold unprintable. simpl.
      destruct chan as [c |].
      * destruct (Py.isdigit _); [reflexivity |].
        discriminate (proj2 Hchan eq_refl).
      * now rewrite (proj1 Hchan eq_refl).
Qed.

End PrintingScans.

(** X6. Printing what the multi-line parsers return never fails: no record
    of the iwlist or of the netsh parser makes [print_networks] raise. *)
Theorem print_multiline_scan :
  (forall out networks,
     Linux.parse_iwlist out = Ok networks ->
     Table.ended (Linux.print_networks networks) = Ok tt) /\
  (forall out networks,
     Windows.parse_netsh out = Ok networks ->
     Table.ended (Windows.print_networks networks) = Ok tt).
Proof.
  split; intros out networks H.
  - apply parse_iwlist_ok, record_ok_printable in H.
    now apply (proj1 (table_outcome networks)).
  - apply parse_netsh_ok, record_ok_printable in H.
    now apply (proj1 (table_outcome networks)).
Qed.

Lemma print_multiline_scan_witness :
  Table.ended
    (Windows.print_networks
       [mkNetwork (Some "Home") (Some "aa:bb:cc:dd:ee:01") None None;
        mkNetwork (Some "Home") (Some "aa:bb:cc:dd:ee:02") None None])
  = Ok tt.
Proof.
  apply (proj2 print_multiline_scan two_access_points). reflexivity.
Defined.

(** X7. Printing what the terse parser returns raises [TypeError] exactly
    when the listing has a record line whose channel field is not a digit
    string (the record then holds [None] under ['channel']). *)
Theorem print_nmcli_scan (out : string) (networks : list network) :
  Linux.parse_nmcli out = Ok networks ->
  (existsb no_channel_line (Py.splitlines out) = true <->
   Table.ended (Linux.print_networks networks) = Raise TypeError) /\
  (existsb no_channel_line (Py.splitlines out) = false <->
   Table.ended (Linux.print_networks networks) = Ok tt).
Proof.
  intros H. unfold Linux.parse_nmcli in H.
  apply nmcli_lines_unprintable in H. simpl in H.
  destruct (table_outcome networks) as (Hok & Hbad).
  unfold Linux.print_networks. rewrite <- H.
  destruct (existsb unprintable networks).
  - destruct (Hbad eq_refl) as [-> _]. repeat split; congruence.
  - destruct (Hok eq_refl) as [-> _]. repeat split; congruence.
Qed.

Lemma print_nmcli_scan_witness :
  Table.ended
    (Linux.print_networks
       [mkNetwork (Some "Net") (Some "aa:bb:cc:dd:ee:ff") (Some (Some 80)) (Some None)])
  = Raise TypeError.
Proof.
  apply (proj1 (proj1 (print_nmcli_scan no_channel_listing _ eq_refl))).
  reflexivity.
Defined.

(** X8. The sort of [print_networks] is stable: among the records of any
    one sort key (the signal, [None] or a missing key counting as 0), the
    list after the call keeps the order of the list before it. *)
Theorem print_networks_stable (key : Z) (networks : list network) :
  filter (fun r => Table.sort_key r =? key)
         (Table.networks_after (Linux.print_networks networks))
  = filter (fun r => Table.sort_key r =? key) networks.
Proof.
  unfold Linux.print_networks.
  rewrite print_networks_after. apply sorted_desc_stable.
Qed.

(** ** More on the normalizers *)

Section Normalizers.

Lemma dbm_to_percent_value (rssi : Z) :
  Termux.dbm_to_percent rssi
  = Ok (if -30 <=? rssi then 100
        else if rssi <=? -90 then 0
        else (100 * (rssi + 90)) / 60).
Proof.
  destruct (Z.leb_spec (-30) rssi).
  - now apply dbm_to_percent_high.
  - destruct (Z.leb_spec rssi (-90)).
    + now apply dbm_to_percent_low.
    + rewrite dbm_to_percent_interpolates by lia.
      now rewrite Z.quot_div_nonneg by lia.
Qed.

End Normalizers.

(** X9. [dbm_to_percent] is monotone on all integers: a stronger signal
    never gets a lower percentage. *)
Theorem dbm_to_percent_monotone (rssi rssi' : Z) :
  rssi <= rssi' ->
  exists p p',
    Termux.dbm_to_percent rssi = Ok p /\
    Termux.dbm_to_percent rssi' = Ok p' /\ p <= p'.
Proof.
  intros H. rewrite !dbm_to_percent_value.
  eexists _, _. split; [reflexivity |]. split; [reflexivity |].
  assert (Hmid : forall r, -90 < r < -30 -> 0 <= (100 * (r + 90)) / 60 <= 100).
  { intros r Hr. split.
    - apply Z.div_pos; lia.
    - apply Z.div_le_upper_bound; lia. }
  destruct (Z.leb_spec (-30) rssi), (Z.leb_spec (-30) rssi'); try lia;
    destruct (Z.leb_spec rssi (-90)), (Z.leb_spec rssi' (-90)); try lia;
    try (specialize (Hmid rssi'); lia);
    try (specialize (Hmid rssi); lia).
  apply Z.div_le_mono; lia.
Qed.

Lemma dbm_to_percent_monotone_witness :
  exists p p',
    Termux.dbm_to_percent (-95) = Ok p /\
    Termux.dbm_to_percent (-40) = Ok p' /\ p <= p'.
Proof. apply (dbm_to_percent_monotone (-95) (-40)). lia. Defined.

(** X10. The conversion of the iwlist parser is monotone too, and it never
    reports less than [dbm_to_percent] does for the same level. *)
Theorem signal_of_dbm_dominates (dbm dbm' : Z) :
  (dbm <= dbm' -> Linux.signal_of_dbm dbm <= Linux.signal_of_dbm dbm') /\
  exists p, Termux.dbm_to_percent dbm = Ok p /\ p <= Linux.signal_of_dbm dbm.
Proof.
  unfold Linux.signal_of_dbm. split; [lia |].
  rewrite dbm_to_percent_value. eexists. split; [reflexivity |].
  destruct (Z.leb_spec (-30) dbm); [lia |].
  destruct (Z.leb_spec dbm (-90)); [lia |].
  assert (H60 : (100 * (dbm + 90)) / 60 <= 2 * (dbm + 90)).
  { apply Z.div_le_upper_bound; lia. }
  assert (H100 : (100 * (dbm + 90)) / 60 <= 100).
  { apply Z.div_le_upper_bound; lia. }
  lia.
Qed.

Lemma signal_of_dbm_dominates_witness :
  Linux.signal_of_dbm (-80) <= Linux.signal_of_dbm (-55).
Proof. apply (proj1 (signal_of_dbm_dominates (-80) (-55))). lia. Defined.

(** X11. [freq_to_channel] gives back the channel number of every standard
    centre frequency: channels 1 to 13 at [2407 + 5 k] MHz, channels 34 to
    165 at [5000 + 5 k] MHz, and the 6 GHz channels 1 to 233 at
    [5950 + 5 k] MHz. *)
Theorem freq_to_channel_of_channel (k : Z) :
  (1 <= k <= 13 -> Termux.freq_to_channel (2407 + 5 * k) = Some k) /\
  (34 <= k <= 165 -> Termux.freq_to_channel (5000 + 5 * k) = Some k) /\
  (1 <= k <= 233 -> Termux.freq_to_channel (5950 + 5 * k) = Some k).
Proof.
  assert (Hdiv : forall a b, a = b * 5 -> a / 5 = b).
  { intros a b ->. apply Z.div_mul. lia. }
  unfold Termux.freq_to_channel.
  repeat split; intros H;
    repeat match goal with
           | |- context [?a <=? ?b] =>
               destruct (Z.leb_spec a b); cbn [andb]
           | |- context [?a =? ?b] =>
               destruct (Z.eqb_spec a b); cbn [andb]
           end; try lia; f_equal.
  - rewrite (Hdiv _ (k - 1)) by lia. lia.
  - rewrite (Hdiv _ (k - 34)) by lia. lia.
  - rewrite (Hdiv _ (k - 1)) by lia. lia.
Qed.

Lemma freq_to_channel_of_channel_witness :
  Termux.freq_to_channel (2407 + 5 * 11) = Some 11 /\
  Termux.freq_to_channel (5000 + 5 * 149) = Some 149 /\
  Termux.freq_to_channel (5950 + 5 * 37) = Some 37.
Proof.
  destruct (freq_to_channel_of_channel 11) as (H24 & _).
  destruct (freq_to_channel_of_channel 149) as (_ & H5 & _).
  destruct (freq_to_channel_of_channel 37) as (_ & _ & H6).
  split; [apply H24; lia |]. split; [apply H5; lia | apply H6; lia].
Defined.

(** X12. A channel number returned by [freq_to_channel] lies between 1 and
    233, and within the 2.4 GHz band it is at most 15 (2482 and 2483 MHz
    give 15). *)
Theorem freq_to_channel_bounds (freq_mhz c : Z) :
  Termux.freq_to_channel freq_mhz = Some c ->
  1 <= c <= 233 /\
  (2412 <= freq_mhz <= 2484 -> c <= 15) /\
  Termux.freq_to_channel 2482 = Some 15.
Proof.
  unfold Termux.freq_to_channel. intros H.
  assert (Hdiv : forall a, 0 <= a -> 0 <= a / 5 /\ 5 * (a / 5) <= a).
  { intros a Ha. split; [apply Z.div_pos; lia |].
    apply Z.mul_div_le. lia. }
  repeat match type of H with
         | context [?a <=? ?b] =>
             destruct (Z.leb_spec a b); cbn [andb] in H
         | context [?a =? ?b] =>
             destruct (Z.eqb_spec a b); cbn [andb] in H
         end; try discriminate; injection H as <-;
    (split; [| split; [| reflexivity]]);
    try lia;
    match goal with
    | |- context [?a / 5] => destruct (Hdiv a ltac:(lia)); lia
    end.
Qed.

Lemma freq_to_channel_bounds_witness : 1 <= 6 <= 233.
Proof. apply (freq_to_channel_bounds 2437 6). reflexivity. Defined.

(** ** What the scanners raise *)

(** X13. The netsh scanner fails only through [subprocess.run]: with exit
    status 0 it returns a list whatever the output is, with any other
    status it raises [CalledProcessError], and an exception of the call
    itself goes through unchanged. ([int] is modelled without CPython's
    limit on the number of digits.) *)
Theorem netsh_scan_outcome (scan : result completed) :
  match scan with
  | Ok p =>
      if returncode p =? 0
      then Windows.get_wifi_bssids scan = Windows.parse_netsh (stdout p) /\
           exists networks, Windows.get_wifi_bssids scan = Ok networks
      else Windows.get_wifi_bssids scan = Raise CalledProcessError
  | Raise e => Windows.get_wifi_bssids scan = Raise e
  | Unmodelled => Windows.get_wifi_bssids scan = Unmodelled
  end.
Proof.
  unfold Windows.get_wifi_bssids, check.
  destruct scan as [p | e |]; simpl; try reflexivity.
  destruct (returncode p =? 0); simpl; [| reflexivity].
  split; [reflexivity | apply parse_netsh_returns].
Qed.

Section TermuxRaises.

Lemma truthy_raises (v : json) (e : exn) : Termux.truthy v <> Raise e.
Proof. destruct v; discriminate. Qed.

Lemma lower_raises (v : json) (e : exn) :
  Termux.lower v = Raise e -> e = AttributeError.
Proof. destruct v; simpl; congruence. Qed.

Lemma call_dbm_to_percent_raises (v : json) (e : exn) :
  Termux.call_dbm_to_percent v = Raise e -> e = TypeError \/ e = ValueError.
Proof.
  assert (H : forall n, Termux.dbm_to_percent n <> Raise e).
  { intros n. destruct (dbm_to_percent_total n) as (p & -> & _). discriminate. }
  destruct v; simpl; try (intros Hv; left; congruence);
    try (intros Hv; now apply H in Hv).
  repeat match goal with
         | |- (if ?b then _ else _) = _ -> _ => destruct b
         end; try discriminate.
  intros Hv. right. congruence.
Qed.

Lemma call_freq_to_channel_raises (v : json) (e : exn) :
  Termux.call_freq_to_channel v = Raise e -> e = TypeError.
Proof. destruct v; simpl; congruence. Qed.

Lemma access_point_raises (ap : json) (e : exn) :
  Termux.access_point ap = Raise e -> of_the_loop e.
Proof.
  unfold Termux.access_point, of_the_loop.
  destruct ap; simpl; try (intros H; right; left; congruence).
  destruct (Termux.truthy _) as [t | e' |] eqn:Ht; simpl; try discriminate.
  2: { now apply truthy_raises in Ht. }
  destruct (Termux.lower _) as [b | e' |] eqn:Hb; simpl; try discriminate.
  2: { apply lower_raises in Hb. intros H. right. left. congruence. }
  destruct (Termux.call_dbm_to_percent _) as [p | e' |] eqn:Hp; simpl;
    try discriminate.
  2: { apply call_dbm_to_percent_raises in Hp. intros H.
       destruct Hp; [left | right; right]; congruence. }
  destruct (Termux.call_freq_to_channel _) as [c | e' |] eqn:Hc; simpl;
    try discriminate.
  apply call_freq_to_channel_raises in Hc. intros H. left. congruence.
Qed.

Lemma access_points_raises (aps : list json) (e : exn) :
  forall networks,
    Termux.access_points aps networks = Raise e -> of_the_loop e.
Proof.
  induction aps as [| ap aps IH]; intros networks; simpl; [discriminate |].
  destruct (Termux.access_point ap) as [r | e' |] eqn:E; simpl;
    try discriminate.
  - apply IH.
  - intros H. apply access_point_raises in E. congruence.
Qed.

Lemma loads_raises (s : string) (e : exn) :
  Json.loads s = Raise e -> e = JSONDecodeError.
Proof.
  unfold Json.loads.
  destruct (Json.scan s Json.SStart [] false) as [[toks beyond] |];
    [| congruence].
  destruct (Json.value _ toks) as [[v [| t r]] |]; try congruence.
  destruct beyond; congruence.
Qed.

Lemma networks_of_raises (scan_results : json) (e : exn) :
  Termux.networks_of scan_results = Raise e ->
  (exists msg, e = RuntimeError msg) \/ of_the_loop e.
Proof.
  unfold Termux.networks_of.
  match goal with
  | |- bind ?c _ = _ -> _ => destruct c as [[] | e' |] eqn:Hc
  end; simpl; try discriminate.
  - destruct (Termux.iterate scan_results) as [aps | e' |] eqn:Hi; simpl;
      try discriminate.
    + intros H. apply access_points_raises in H. tauto.
    + destruct scan_results; simpl in Hi; try discriminate;
        intros H; right; left; congruence.
  - destruct scan_results; try discriminate.
    destruct (Json.has_key "error" members); try discriminate.
    intros H. left. injection Hc as <-. injection H as <-. eauto.
Qed.

Lemma scan_body_raises (run : result completed) (e : exn) :
  Termux.scan_body run = Raise e ->
  (exists msg, e = RuntimeError msg) \/ of_the_loop e \/
  e = JSONDecodeError \/ run = Raise e.
Proof.
  unfold Termux.scan_body. intros E.
  destruct run as [p | e0 |]; simpl in E; try discriminate.
  - destruct (negb (returncode p =? 0)).
    + left. injection E as <-. eauto.
    + destruct (Json.loads (stdout p)) as [sr | e0 |] eqn:Hl; simpl in E;
        try discriminate.
      * apply networks_of_raises in E. tauto.
      * apply loads_raises in Hl. right. right. left. congruence.
  - right. right. right. congruence.
Qed.

End TermuxRaises.

(** X14. The Termux scanner turns a timeout, a decoding failure and a
    missing tool into [RuntimeError], so it never raises one of these
    three; besides [RuntimeError] and what [subprocess.run] raises, the
    exceptions it lets through are those of its loop over the decoded
    document: [TypeError], [AttributeError], and the [ValueError] of [int]
    on a signal level that is not a number. (Outside the model: finite
    floats, on which the loop does not raise; the limits of the decoder on
    the length of an integer, whose [ValueError] is one of the exceptions
    above, and on the depth of nesting.) *)
Theorem termux_scan_raises (run : result completed) (e : exn) :
  Termux.get_wifi_bssids run = Raise e ->
  ((exists msg, e = RuntimeError msg) \/ of_the_loop e \/ run = Raise e) /\
  e <> TimeoutExpired /\ e <> JSONDecodeError /\ e <> FileNotFoundError.
Proof.
  unfold Termux.get_wifi_bssids.
  destruct (Termux.scan_body run) as [n | e' |] eqn:E; try discriminate.
  apply scan_body_raises in E. unfold of_the_loop in *.
  intros H.
  destruct e'; try (injection H as <-); try discriminate;
    (split; [| repeat split; discriminate]);
    try (left; eexists; reflexivity);
    try (right; left; left; reflexivity);
    try (right; left; right; left; reflexivity);
    try (right; left; right; right; reflexivity);
    destruct E as [[msg Hm] | [[Hm | [Hm | Hm]] | [Hm | Hm]]];
    try discriminate; right; right; exact Hm.
Qed.

Lemma termux_scan_raises_witness :
  Termux.get_wifi_bssids (Ok (mkCompleted 0 nan_level EmptyString))
  = Raise ValueError /\
  of_the_loop ValueError.
Proof.
  assert (H : Termux.get_wifi_bssids (Ok (mkCompleted 0 nan_level EmptyString))
              = Raise ValueError) by (vm_compute; reflexivity).
  split; [exact H |].
  destruct (proj1 (termux_scan_raises _ _ H)) as [[msg Hm] | [Hl | Hr]];
    [discriminate | exact Hl | discriminate].
Defined.

(** X15. The defaults of the Termux loop: an element without [rssi] gets
    signal 0 and a null [rssi_dbm], one without [frequency_mhz] gets no
    channel and a null [frequency_mhz], one without [ssid] is named
    [<Hidden>], one without [bssid] gets the empty identifier. *)
Theorem access_point_defaults (members : list (string * json)) :
  Json.get "rssi" members = None ->
  Json.get "frequency_mhz" members = None ->
  (Json.get "bssid" members = None \/
   exists b, Json.get "bssid" members = Some (JStr b)) ->
  (forall l, Json.get "ssid" members <> Some (JFloat l)) ->
  exists s b,
    Termux.access_point (JObj members)
    = Ok (Termux.mkNetwork s b 0 JNull None JNull) /\
    (Json.get "ssid" members = None -> s = JStr "<Hidden>") /\
    (Json.get "bssid" members = None -> b = EmptyString).
Proof.
  intros Hr Hf Hb Hs.
  unfold Termux.access_point. simpl. rewrite Hr, Hf. 
  destruct (Termux.truthy _) as [t | e |] eqn:Ht.
  2: { now apply truthy_raises in Ht. }
  2: { destruct (Json.get "ssid" members) as [[] |]; try discriminate.
       now destruct (Hs literal). }
  simpl.
  destruct Hb as [Hb | [b Hb]]; rewrite Hb; simpl.
  - eexists _, _. split; [reflexivity |]. split; [| reflexivity].
    intros Hn. rewrite Hn in Ht. simpl in Ht. apply Ok_inj in Ht.
    now subst t.
  - eexists _, _. split; [reflexivity |]. split; [| discriminate].
    intros Hn. rewrite Hn in Ht. simpl in Ht. apply Ok_inj in Ht.
    now subst t.
Qed.

Lemma access_point_defaults_witness :
  exists s b,
    Termux.access_point (JObj [("level", JInt (-50))])
    = Ok (Termux.mkNetwork s b 0 JNull None JNull).
Proof.
  destruct (access_point_defaults [("level", JInt (-50))]) as (s & b & H & _).
  - reflexivity.
  - reflexivity.
  - left. reflexivity.
  - discriminate.
  - exists s, b. exact H.
Defined.

(** ** The facade of the Linux scanner *)

Section FacadeLoop.

Local Open Scope list_scope.

Lemma try_interfaces_find (iwlist : string -> outcome (list network))
    (ifaces : list string) :
  Facade.try_interfaces iwlist ifaces
  = find (fun o => negb (Facade.fails_to_run o)) (map iwlist ifaces).
Proof.
  induction ifaces as [| iface ifaces IH]; simpl; [reflexivity |].
  rewrite IH.
  destruct (iwlist iface) as [l | [[] | | | | |] |]; reflexivity.
Qed.

Lemma get_wifi_bssids_find (which_nmcli which_iwlist : bool)
    (nmcli : outcome (list network))
    (iwlist : string -> outcome (list network)) :
  Facade.get_wifi_bssids which_nmcli which_iwlist nmcli iwlist
  = match find (fun o => negb (Facade.fails_to_run o))
               (Facade.candidates which_nmcli which_iwlist nmcli iwlist) with
    | Some o => o
    | None => Raised NoToolAvailable
    end.
Proof.
  unfold Facade.get_wifi_bssids, Facade.candidates.
  rewrite try_interfaces_find.
  destruct which_nmcli; simpl.
  - destruct nmcli as [l | [[] | | | | |] |]; simpl; try reflexivity.
    destruct which_iwlist; reflexivity.
  - destruct which_iwlist; reflexivity.
Qed.

End FacadeLoop.

(** X16. The facade raises its own [RuntimeError] exactly when every call
    it can make fails with [CalledProcessError]: nmcli is missing or fails
    so, and iwlist is missing or fails so on each of the four interfaces.
    The outcomes of the scanners are those of [result]. *)
Theorem no_tool_available_iff (which_nmcli which_iwlist : bool)
    (nmcli : result (list network))
    (iwlist : string -> result (list network)) :
  Facade.get_wifi_bssids which_nmcli which_iwlist
    (lift nmcli) (fun iface => lift (iwlist iface))
  = Raised NoToolAvailable
  <->
  (which_nmcli = false \/ nmcli = Raise CalledProcessError) /\
  (which_iwlist = false \/
   forall iface, In iface Facade.interfaces ->
                 iwlist iface = Raise CalledProcessError).
Proof.
  assert (Hfail : forall r : result (list network),
             Facade.fails_to_run (lift r) = true <-> r = Raise CalledProcessError).
  { intros [l | [] |]; simpl; split; congruence. }
  assert (Hno : forall r : result (list network),
             lift r <> Raised NoToolAvailable).
  { intros [l | e |]; discriminate. }
  rewrite get_wifi_bssids_find.
  destruct (find _ _) as [o |] eqn:Hf.
  - apply find_some in Hf as [Hin Ho].
    split.
    + intros ->. unfold Facade.candidates in Hin.
      apply in_app_or in Hin as [Hin | Hin].
      * destruct which_nmcli; [| destruct Hin].
        destruct Hin as [Hin | []]. now apply Hno in Hin.
      * destruct which_iwlist; [| destruct Hin].
        apply in_map_iff in Hin as (iface & Hin & _). now apply Hno in Hin.
    + intros [Hn Hi]. exfalso.
      apply negb_true_iff in Ho.
      unfold Facade.candidates in Hin.
      apply in_app_or in Hin as [Hin | Hin].
      * destruct which_nmcli; [| destruct Hin].
        destruct Hin as [<- | []].
        destruct Hn as [Hn | Hn]; [discriminate |].
        apply Hfail in Hn. congruence.
      * destruct which_iwlist; [| destruct Hin].
        apply in_map_iff in Hin as (iface & <- & Hin).
        destruct Hi as [Hi | Hi]; [discriminate |].
        apply Hi, Hfail in Hin. congruence.
  - split; [intros _ | reflexivity].
    assert (Hall : forall o,
               In o (Facade.candidates which_nmcli which_iwlist (lift nmcli)
                       (fun iface => lift (iwlist iface))) ->
               Facade.fails_to_run o = true).
    { intros o Hin. apply (find_none _ _ Hf) in Hin.
      now apply negb_false_iff in Hin. }
    unfold Facade.candidates in Hall. split.
    + destruct which_nmcli; [right | now left].
      apply Hfail, Hall, in_or_app. left. now left.
    + destruct which_iwlist; [right | now left].
      intros iface Hin. apply Hfail, Hall, in_or_app. right.
      apply in_map_iff. eauto.
Qed.

(** X17. The facade never raises [CalledProcessError], and it falls back
    only on that exception: when nmcli is installed and its scanner ends in
    any other way (a list, a [ValueError], an outcome outside the model),
    that is the outcome of the facade, whatever iwlist would give. *)
Theorem get_wifi_bssids_fallback (which_nmcli which_iwlist : bool)
    (nmcli : outcome (list network))
    (iwlist : string -> outcome (list network)) :
  Facade.get_wifi_bssids which_nmcli which_iwlist nmcli iwlist
  <> Raised (Scanner CalledProcessError) /\
  (which_nmcli = true -> Facade.fails_to_run nmcli = false ->
   Facade.get_wifi_bssids which_nmcli which_iwlist nmcli iwlist = nmcli).
Proof.
  rewrite get_wifi_bssids_find. split.
  - destruct (find _ _) as [o |] eqn:Hf; [| discriminate].
    apply find_some in Hf as [_ Ho]. intros ->. discriminate.
  - intros -> Hn. unfold Facade.candidates. simpl. now rewrite Hn.
Qed.

Lemma get_wifi_bssids_fallback_witness :
  Facade.get_wifi_bssids true true (Raised (Scanner ValueError))
    (fun _ => Returned [])
  = Raised (Scanner ValueError).
Proof.
  apply (proj2 (get_wifi_bssids_fallback true true
                  (Raised (Scanner ValueError)) (fun _ => Returned [])));
    reflexivity.
Defined.

(** ** The table of the Termux scanner *)

Section TermuxRows.

Import TermuxTable.
Local Open Scope list_scope.

Lemma termux_insert_desc_perm (x : Termux.network) (l : list Termux.network) :
  Permutation (x :: l) (insert_desc x l).
Proof.
  induction l as [| y l IH]; simpl.
  - apply Permutation_refl.
  - destruct (Termux.signal y <=? Termux.signal x).
    + apply Permutation_refl.
    + apply perm_trans with (y :: x :: l); [apply perm_swap |].
      now apply perm_skip.
Qed.

Lemma termux_sorted_desc_perm (l : list Termux.network) :
  Permutation l (sorted_desc l).
Proof.
  induction l as [| x l IH]; simpl.
  - apply perm_nil.
  - apply perm_trans with (x :: sorted_desc l).
    + now apply perm_skip.
    + apply termux_insert_desc_perm.
Qed.

Lemma forallb_perm {A : Type} (f : A -> bool) (l l' : list A) :
  Permutation l l' -> forallb f l = forallb f l'.
Proof.
  induction 1; simpl; try congruence.
  now rewrite !andb_assoc, (andb_comm (f y)).
Qed.

Lemma access_point_scanned (ap : json) (r : Termux.network) :
  Termux.access_point ap = Ok r -> scanned r.
Proof.
  intros H. pose proof (access_point_fields _ _ H)
    as (members & -> & _ & _ & _ & Hf).
  unfold Termux.access_point in H. simpl in H.
  destruct (Termux.truthy _); simpl in H; try discriminate.
  destruct (Termux.lower _); simpl in H; try discriminate.
  destruct (Termux.call_dbm_to_percent _); simpl in H; try discriminate.
  destruct (Termux.call_freq_to_channel _) as [c | |] eqn:Hc; simpl in H;
    try discriminate.
  apply Ok_inj in H. subst r. unfold scanned. simpl in *.
  destruct (Json.get "frequency_mhz" members) as [v |].
  - destruct v; simpl in Hc; try discriminate; eauto.
  - simpl in Hc. apply Ok_inj in Hc. subst c. intros Hn. now destruct Hn.
Qed.

Lemma termux_row_outcome (net : Termux.network) :
  scanned net -> named net = true ->
  (has_channel net = true /\ exists r, row net = Ok r) \/
  (has_channel net = false /\ row net = Raise TypeError).
Proof.
  unfold scanned, named, has_channel, row. intros Hs Hn.
  destruct (Termux.ssid net); try discriminate. simpl.
  destruct (Termux.channel net) as [c |]; simpl; [left | right; auto].
  split; [reflexivity |].
  destruct Hs as [[n ->] | [b ->]]; [discriminate | |]; simpl; eauto.
Qed.

Lemma termux_rows_outcome (l : list Termux.network) :
  Forall scanned l -> forallb named l = true ->
  forall out,
    (forallb has_channel l = true /\
     exists out', rows l out = (out', Ok tt) /\
                  List.length out' = (List.length out + List.length l)%nat) \/
    (forallb has_channel l = false /\
     exists out', rows l out = (out', Raise TypeError)).
Proof.
  induction 1 as [| net l Hs _ IH]; intros Hn out; simpl.
  - left. split; [reflexivity |]. exists out. split; [reflexivity | lia].
  - simpl in Hn. apply andb_prop in Hn as [Hn Hl].
    destruct (termux_row_outcome net Hs Hn) as [[Hc [r Hr]] | [Hc Hr]];
      rewrite Hc, Hr; simpl.
    + destruct (IH Hl (append out r))
        as [[He (out' & Ho & Hlen)] | [He (out' & Ho)]]; [left | right];
        (split; [assumption |]); exists out'; [| assumption].
      split; [assumption |]. unfold append in Hlen.
      rewrite length_app in Hlen. simpl in Hlen. lia.
    + right. split; [reflexivity |]. eauto.
Qed.

Lemma termux_table_ended (networks : list Termux.network) :
  Forall scanned networks -> forallb named networks = true ->
  ended (print_networks networks)
  = if forallb has_channel networks then Ok tt else Raise TypeError.
Proof.
  intros Hs Hn. unfold print_networks.
  destruct networks as [| n networks]; [reflexivity |].
  pose proof (termux_sorted_desc_perm (n :: networks)) as Hp.
  rewrite (forallb_perm has_channel _ _ Hp).
  rewrite (forallb_perm named _ _ Hp) in Hn.
  apply (Permutation_Forall Hp) in Hs.
  destruct (termux_rows_outcome _ Hs Hn [header; Table.repeat_str "-" 70])
    as [[-> (out' & -> & _)] | [-> (out' & ->)]]; reflexivity.
Qed.

Lemma termux_scan_scanned (run : result completed)
    (networks : list Termux.network) :
  Termux.get_wifi_bssids run = Ok networks -> Forall scanned networks.
Proof.
  intros H.
  apply get_wifi_bssids_returns in H as (p & sr & aps & _ & _ & _ & _ & H).
  eapply access_points_spec in H as [H _]; [exact H | | constructor].
  apply access_point_scanned.
Qed.

End TermuxRows.

(** X18. The table of the Termux scanner, on a scan whose names are all
    strings, is printed to the end exactly when every record has a channel;
    an access point whose frequency is missing or outside the three bands
    of [freq_to_channel] makes [print_networks] raise [TypeError]. *)
Theorem termux_table_outcome (run : result completed)
    (networks : list Termux.network) :
  Termux.get_wifi_bssids run = Ok networks ->
  forallb TermuxTable.named networks = true ->
  (forallb TermuxTable.has_channel networks = true <->
   TermuxTable.ended (TermuxTable.print_networks networks) = Ok tt) /\
  (forallb TermuxTable.has_channel networks = false <->
   TermuxTable.ended (TermuxTable.print_networks networks) = Raise TypeError).
Proof.
  intros H Hn. apply termux_scan_scanned in H.
  rewrite (termux_table_ended networks H Hn).
  destruct (forallb TermuxTable.has_channel networks);
    repeat split; congruence.
Qed.

Lemma termux_table_outcome_witness :
  exists networks,
    Termux.get_wifi_bssids (Ok (mkCompleted 0 out_of_band "")) = Ok networks /\
    TermuxTable.ended (TermuxTable.print_networks networks) = Raise TypeError.
Proof.
  eexists. split; [vm_compute; reflexivity |].
  eapply (proj1 (proj2 (termux_table_outcome
                          (Ok (mkCompleted 0 out_of_band "")) _ _ _))).
  reflexivity.
  Unshelve.
  - vm_compute. reflexivity.
  - reflexivity.
Defined.

(** ** The publishing loop *)

Section PublisherLoop.

Import Program.
Local Open Scope list_scope.

Context {A : Type}.
Variable sorted : list A -> list A.
Variable summary_line : A -> outcome string.
Variable device_name : string.
Variable caught : raised -> bool.

Lemma summary_inner (l : list A) :
  Forall in_turn (fst (summary summary_line l)).
Proof.
  induction l as [| net l IH]; simpl; [constructor |].
  destruct (summary_line net); simpl; try constructor.
  destruct (summary summary_line l) as [evs o]. simpl in *.
  constructor; [exact I | assumption].
Qed.

Lemma attempt_inner (a : args) (c : cycle A) :
  Forall in_turn (fst (attempt sorted summary_line device_name a c)).
Proof.
  unfold attempt.
  destruct (scan_gives c) as [networks | r |]; simpl; try constructor.
  destruct (publish_raises c); simpl; [constructor |].
  pose proof (summary_inner (firstn 5 (sorted networks))) as Hs.
  destruct (summary summary_line _) as [lines o]. simpl in Hs.
  assert (Hevs : forall p s, Forall in_turn (Publish (topic a) p 1 :: Print s :: lines)).
  { intros p s. repeat constructor. assumption. }
  destruct o as [[] | r |]; simpl; try apply Hevs.
  destruct (5 <? _); [| apply Hevs].
  unfold append. apply Forall_app. split; [apply Hevs | repeat constructor].
Qed.

Lemma iteration_inner (a : args) (c : cycle A) :
  Forall in_turn (fst (iteration sorted summary_line device_name caught a c)).
Proof.
  unfold iteration.
  pose proof (attempt_inner a c) as Ha.
  destruct (attempt sorted summary_line device_name a c) as [evs o].
  simpl in Ha.
  assert (Hevs : forall s, Forall in_turn (Print s :: evs)).
  { intros s. constructor; [exact I | assumption]. }
  destruct o as [[] | r |]; simpl; try apply Hevs.
  destruct (caught r); simpl; [| apply Hevs].
  unfold append. apply Forall_app. split; [apply Hevs | repeat constructor].
Qed.

(** An exception leaves a turn of the loop only if the inner [try] does
    not catch it. *)
Lemma iteration_raises (a : args) (c : cycle A) (r : raised) :
  snd (iteration sorted summary_line device_name caught a c) = Raised r ->
  caught r = false.
Proof.
  unfold iteration.
  destruct (attempt sorted summary_line device_name a c) as [evs [[] | r' |]];
    simpl; try discriminate.
  destruct (caught r') eqn:Hc; simpl; [discriminate |].
  intros H. injection H as <-. assumption.
Qed.



End PublisherLoop.


Section PublisherTurns.

Import Program.
Local Open Scope list_scope.

Context {A : Type}.
Variable sorted : list A -> list A.
Variable summary_line : A -> outcome string.
Variable device_name : string.
Variable caught : raised -> bool.

Lemma sleeps_app (l1 l2 : list (event A)) :
  sleeps (l1 ++ l2) = (sleeps l1 + sleeps l2)%nat.
Proof.
  induction l1 as [| ev l1 IH]; simpl; [reflexivity |].
  destruct ev; simpl; rewrite IH; reflexivity.
Qed.

Lemma sleeps_turn (evs : list (event A)) :
  Forall in_turn evs -> sleeps evs = 0%nat.
Proof.
  induction 1 as [| ev evs Hev _ IH]; simpl; [reflexivity |].
  destruct ev; try destruct Hev; assumption.
Qed.

Lemma published_app (l1 l2 : list (event A)) :
  published (l1 ++ l2) = published l1 ++ published l2.
Proof.
  induction l1 as [| ev l1 IH]; simpl; [reflexivity |].
  destruct ev; simpl; rewrite IH; reflexivity.
Qed.

Lemma summary_published (l : list A) :
  published (fst (summary summary_line l)) = [].
Proof.
  induction l as [| net l IH]; simpl; [reflexivity |].
  destruct (summary_line net); simpl; try reflexivity.
  destruct (summary summary_line l) as [evs o]. exact IH.
Qed.

(** A turn publishes nothing, or the list its scan returned. *)
Lemma attempt_published (a : args) (c : cycle A) :
  published (fst (attempt sorted summary_line device_name a c)) = [] \/
  exists networks,
    scan_gives c = Returned networks /\ publish_raises c = None /\
    published (fst (attempt sorted summary_line device_name a c))
    = [mkPayload (now c) device_name (Z.of_nat (List.length networks)) networks].
Proof.
  unfold attempt.
  destruct (scan_gives c) as [networks | r |]; simpl; auto.
  destruct (publish_raises c); simpl; auto.
  right. exists networks. split; [reflexivity |]. split; [reflexivity |].
  pose proof (summary_published (firstn 5 (sorted networks))) as Hs.
  destruct (summary summary_line _) as [lines o]. simpl in Hs.
  destruct o as [[] | r |]; simpl; try (now rewrite Hs).
  destruct (5 <? _); simpl; [| now rewrite Hs].
  unfold append. rewrite published_app, Hs. reflexivity.
Qed.

Lemma iteration_published (a : args) (c : cycle A) :
  published (fst (iteration sorted summary_line device_name caught a c))
  = published (fst (attempt sorted summary_line device_name a c)).
Proof.
  unfold iteration.
  destruct (attempt sorted summary_line device_name a c) as [evs o].
  destruct o as [[] | r |]; simpl; try reflexivity.
  destruct (caught r); simpl; [| reflexivity].
  unfold append. rewrite published_app. simpl. apply app_nil_r.
Qed.

Lemma genuine_more (c : cycle A) (cycles : list (cycle A)) (p : payload A) :
  genuine device_name cycles p -> genuine device_name (c :: cycles) p.
Proof.
  intros (Hd & Hc & c' & Hin & H). split; [assumption |]. split; [assumption |].
  exists c'. split; [now right | assumption].
Qed.

Lemma iteration_genuine (a : args) (c : cycle A) (cycles : list (cycle A)) :
  Forall (genuine device_name (c :: cycles))
    (published (fst (iteration sorted summary_line device_name caught a c))).
Proof.
  rewrite iteration_published.
  destruct (attempt_published a c) as [-> | (networks & Hs & Hp & ->)];
    constructor; [| constructor].
  split; [reflexivity |]. split; [reflexivity |].
  exists c. simpl. auto.
Qed.

Lemma loop_genuine (a : args) (cycles : list (cycle A)) :
  Forall (genuine device_name cycles)
    (published (fst (loop sorted summary_line device_name caught a cycles))).
Proof.
  induction cycles as [| c cycles IH]; simpl; [constructor |].
  pose proof (iteration_genuine a c cycles) as Hi.
  destruct (iteration sorted summary_line device_name caught a c) as [evs o].
  simpl in Hi.
  destruct o as [[] | r |]; simpl; try assumption.
  destruct (once a); simpl; [assumption |].
  assert (Hevs : forall s n,
             Forall (genuine device_name (c :: cycles))
               (published (evs ++ [Print s; Sleep n]))).
  { intros s n. rewrite published_app. simpl. now rewrite app_nil_r. }
  destruct (sleep _ _); simpl; [apply Hevs |].
  destruct (loop sorted summary_line device_name caught a cycles) as [evs' e].
  simpl in *. rewrite published_app. apply Forall_app. split; [apply Hevs |].
  eapply Forall_impl; [| exact IH]. apply genuine_more.
Qed.

(** The run when the scan of the first turn raises an exception that the
    inner [try] does not catch. *)
Lemma loop_raises (a : args) (c : cycle A) (rest : list (cycle A)) (r : raised) :
  scan_gives c = Raised r -> caught r = false ->
  loop sorted summary_line device_name caught a (c :: rest)
  = ([Print (Text (Table.nl ++ "Scanning for WiFi networks..."))], Raises r).
Proof.
  intros Hs Hc. simpl. unfold iteration, attempt. rewrite Hs, Hc. reflexivity.
Qed.

End PublisherTurns.

(** X20. Every message published reports a scan of the run: its networks
    are the list that the scanner returned in one of the turns, in the
    scanner's order, its count is the length of that list, its time the
    time of that turn and its device the name of the program. *)
Theorem published_payloads {A : Type} (sorted : list A -> list A)
    (summary_line : A -> outcome string) (device_name : string)
    (caught : raised -> bool) (a : Program.args) (installed : bool)
    (connect_raises : option raised) (cycles : list (Program.cycle A)) :
  Forall (Program.genuine device_name cycles)
    (Program.published
       (Program.trace
          (Program.run_mqtt_publisher sorted summary_line device_name caught
             a installed connect_raises cycles))).
Proof.
  unfold Program.run_mqtt_publisher. cbv zeta.
  destruct installed; [| constructor].
  destruct connect_raises as [r |].
  { destruct (is_exception r); constructor. }
  pose proof (loop_genuine sorted summary_line device_name caught a cycles) as Hl.
  destruct (Program.loop sorted summary_line device_name caught a cycles)
    as [evs e].
  cbn [fst] in Hl.
  assert (Hc : forall l : list (Program.event A),
             Program.published l = [] ->
             Forall (Program.genuine device_name cycles)
               (Program.published
                  ([Program.Print
                      (Program.Text ("Connecting to " ++ Program.broker a ++ ":"
                                       ++ Py.str_of_int (Program.port a) ++ "..."));
                    Program.Connect (Program.broker a) (Program.port a) 60]
                     ++ Program.LoopStart :: evs ++ l)%list)).
  { intros l Hnone. cbn [app Program.published].
    rewrite published_app, Hnone, app_nil_r. exact Hl. }
  destruct e as [| code | r | |]; cbn [Program.trace].
  - rewrite <- app_assoc. apply Hc. reflexivity.
  - rewrite <- app_assoc. apply Hc. reflexivity.
  - destruct r; cbn [Program.trace]; rewrite <- app_assoc; apply Hc; reflexivity.
  - specialize (Hc [] eq_refl). now rewrite app_nil_r in Hc.
  - specialize (Hc [] eq_refl). now rewrite app_nil_r in Hc.
Qed.

Section WindowsLoop.

Import Program.
Local Open Scope list_scope.

Lemma linux_summary_outcome (l : list network) :
  snd (summary LinuxProgram.summary_line l) = Returned tt \/
  snd (summary LinuxProgram.summary_line l) = Raised KeyError.
Proof.
  induction l as [| net l IH]; simpl; [now left |].
  unfold LinuxProgram.summary_line at 1 3.
  destruct (bssid net); simpl; [| now right].
  destruct (summary LinuxProgram.summary_line l) as [evs o]. exact IH.
Qed.

Lemma windows_iteration_returns (a : args) (c : cycle network) :
  uninterrupted c ->
  snd (iteration Table.sorted_desc LinuxProgram.summary_line "windows"
         is_exception a c) = Returned tt.
Proof.
  intros (Hb & Hk & Hp & _). unfold iteration, attempt.
  destruct (scan_gives c) as [networks | r |]; simpl.
  - destruct (publish_raises c) as [r |]; simpl.
    + destruct r; simpl; try reflexivity. now destruct Hp.
    + pose proof (linux_summary_outcome (firstn 5 (Table.sorted_desc networks)))
        as Hs.
      destruct (summary LinuxProgram.summary_line _) as [lines o].
      simpl in Hs. destruct Hs as [-> | ->]; reflexivity.
  - destruct r; simpl; try reflexivity. now destruct Hk.
  - now destruct Hb.
Qed.

Lemma windows_loop_goes_on (a : args) (cycles : list (cycle network)) :
  once a = false -> 0 <= interval a <= sleep_limit ->
  Forall uninterrupted cycles ->
  snd (loop Table.sorted_desc LinuxProgram.summary_line "windows"
         is_exception a cycles) = Loops /\
  sleeps (fst (loop Table.sorted_desc LinuxProgram.summary_line "windows"
                 is_exception a cycles)) = List.length cycles.
Proof.
  intros Ho Hi. induction 1 as [| c cycles Hc _ [IH1 IH2]]; simpl; [auto |].
  pose proof (windows_iteration_returns a c Hc) as Hr.
  pose proof (iteration_inner Table.sorted_desc LinuxProgram.summary_line
                "windows" is_exception a c) as Hin.
  destruct (iteration _ _ _ _ a c) as [evs o]. simpl in Hr, Hin. subst o.
  rewrite Ho. unfold sleep.
  destruct (Z.ltb_spec (interval a) (- sleep_limit)) as [Hlow | _];
    [unfold sleep_limit in *; lia |].
  destruct (Z.ltb_spec sleep_limit (interval a)) as [Hhigh | _]; [lia |].
  destruct (Z.ltb_spec (interval a) 0) as [Hneg | _]; [lia |].
  cbn [orb].
  destruct Hc as (_ & _ & _ & ->).
  destruct (loop _ _ _ _ a cycles) as [evs' e]. simpl in *.
  split; [assumption |].
  rewrite !sleeps_app, (sleeps_turn _ Hin), IH2. simpl. reflexivity.
Qed.

End WindowsLoop.

(** X21. The Windows publisher survives every failure of a scan: with an
    interval that [time.sleep] accepts (from 0 to [sleep_limit] seconds)
    and without [--once], as long as no Ctrl+C arrives and every wait runs
    to its end, it goes through every turn, whatever the scanner or
    [publish] raises, and waits once after each. *)
Theorem windows_publisher_keeps_going (a : Program.args)
    (cycles : list (Program.cycle network)) :
  Program.once a = false ->
  0 <= Program.interval a <= Program.sleep_limit ->
  Forall Program.uninterrupted cycles ->
  let r := WindowsProgram.run_mqtt_publisher a true None cycles in
  Program.ends r = Program.Loops /\
  Program.sleeps (Program.trace r) = List.length cycles.
Proof.
  intros Ho Hi Hc.
  destruct (windows_loop_goes_on a cycles Ho Hi Hc) as [He Hs].
  unfold WindowsProgram.run_mqtt_publisher, Program.run_mqtt_publisher.
  cbv zeta.
  destruct (Program.loop _ _ _ _ a cycles) as [evs e].
  cbn [fst snd] in He, Hs. subst e.
  cbn [Program.ends Program.trace app Program.sleeps]. auto.
Qed.

Lemma windows_publisher_keeps_going_witness :
  Program.ends
    (WindowsProgram.run_mqtt_publisher looping true None
       [failing_turn; empty_turn]) = Program.Loops /\
  Program.sleeps
    (Program.trace
       (WindowsProgram.run_mqtt_publisher looping true None
          [failing_turn; empty_turn])) = 2%nat.
Proof.
  apply (windows_publisher_keeps_going looping [failing_turn; empty_turn]).
  - reflexivity.
  - unfold Program.sleep_limit. simpl. lia.
  - repeat constructor; discriminate.
Defined.

(** X22. The Linux and the Termux publishers catch [RuntimeError] only:
    when the scan of the first turn raises an exception that is none (the
    [ValueError] of the nmcli parser, the [TypeError] of the Termux loop),
    the run ends with it in that turn; nothing is published, [time.sleep]
    is not called and there is no further turn. *)
Theorem publisher_stops_on_other_errors (a : Program.args) (r : raised) :
  is_runtime_error r = false -> r <> KeyboardInterrupt ->
  (forall c rest,
     Program.scan_gives c = Raised r ->
     let run := LinuxProgram.run_mqtt_publisher a true None (c :: rest) in
     Program.ends run = Program.Raises r /\
     Program.published (Program.trace run) = [] /\
     Program.sleeps (Program.trace run) = 0%nat) /\
  (forall c rest,
     Program.scan_gives c = Raised r ->
     let run := TermuxProgram.run_mqtt_publisher a true None (c :: rest) in
     Program.ends run = Program.Raises r /\
     Program.published (Program.trace run) = [] /\
     Program.sleeps (Program.trace run) = 0%nat).
Proof.
  intros Hr Hk.
  split; intros c rest Hs;
    unfold LinuxProgram.run_mqtt_publisher, TermuxProgram.run_mqtt_publisher,
      Program.run_mqtt_publisher; cbv zeta;
    rewrite (loop_raises _ _ _ _ a c rest r Hs Hr);
    destruct r; try (now destruct Hk); repeat split.
Qed.

Lemma publisher_stops_on_other_errors_witness :
  Program.ends
    (LinuxProgram.run_mqtt_publisher looping true None
       [Program.mkCycle (Raised (Scanner ValueError)) "now" None None;
        empty_turn])
  = Program.Raises (Scanner ValueError).
Proof.
  apply (proj1 (publisher_stops_on_other_errors looping (Scanner ValueError)
                  eq_refl ltac:(discriminate))
           (Program.mkCycle (Raised (Scanner ValueError)) "now" None None)
           [empty_turn] eq_refl).
Defined.

Section SingleTurn.

Import Program.
Local Open Scope list_scope.

Context {A : Type}.
Variable sorted : list A -> list A.
Variable summary_line : A -> outcome string.
Variable device_name : string.
Variable caught : raised -> bool.

Lemma loop_once (a : args) (c : cycle A) (rest : list (cycle A)) :
  once a = true ->
  loop sorted summary_line device_name caught a (c :: rest)
  = (fst (iteration sorted summary_line device_name caught a c),
     match snd (iteration sorted summary_line device_name caught a c) with
     | Returned _ => Returns
     | Raised r => Raises r
     | Beyond => NotModelled
     end).
Proof.
  intros Ho. simpl.
  destruct (iteration sorted summary_line device_name caught a c)
    as [evs [[] | r |]]; simpl; try reflexivity.
  now rewrite Ho.
Qed.

Lemma loop_refused_interval (a : args) (c : cycle A) (rest : list (cycle A)) :
  once a = false -> interval a < 0 \/ sleep_limit < interval a ->
  snd (iteration sorted summary_line device_name caught a c) = Returned tt ->
  loop sorted summary_line device_name caught a (c :: rest)
  = (fst (iteration sorted summary_line device_name caught a c)
       ++ [Print (Text (Table.nl ++ "Next scan in "
                          ++ Py.str_of_int (interval a)
                          ++ "s... (Ctrl+C to stop)"));
           Sleep (interval a)],
     Raises (Scanner (refusal (interval a)))).
Proof.
  intros Ho Hi Hr. simpl.
  destruct (iteration sorted summary_line device_name caught a c) as [evs o].
  simpl in Hr. subst o. simpl. rewrite Ho. unfold sleep, refusal.
  destruct (_ || _) eqn:Hb; [reflexivity |].
  apply orb_false_elim in Hb as [_ Hb]. apply Z.ltb_ge in Hb.
  destruct (Z.ltb_spec (interval a) 0); [reflexivity | lia].
Qed.

Lemma iteration_publishes_once (a : args) (c : cycle A) :
  (List.length
     (published (fst (iteration sorted summary_line device_name caught a c)))
   <= 1)%nat.
Proof.
  rewrite iteration_published.
  destruct (attempt_published sorted summary_line device_name a c)
    as [-> | (networks & _ & _ & ->)]; simpl; lia.
Qed.

End SingleTurn.

(** X23. With [--once] a publisher makes one turn and returns: what comes
    after the first turn in the environment plays no part, the loop is
    left, [time.sleep] is never called and at most one message is
    published. *)
Theorem publisher_once {A : Type} (sorted : list A -> list A)
    (summary_line : A -> outcome string) (device_name : string)
    (caught : raised -> bool) (a : Program.args) (installed : bool)
    (connect_raises : option raised) (c : Program.cycle A)
    (rest : list (Program.cycle A)) :
  Program.once a = true ->
  let r := Program.run_mqtt_publisher sorted summary_line device_name caught
             a installed connect_raises (c :: rest) in
  r = Program.run_mqtt_publisher sorted summary_line device_name caught
        a installed connect_raises [c] /\
  Program.ends r <> Program.Loops /\
  Program.sleeps (Program.trace r) = 0%nat /\
  (List.length (Program.published (Program.trace r)) <= 1)%nat.
Proof.
  intros Ho. unfold Program.run_mqtt_publisher. cbv zeta.
  rewrite !(loop_once sorted summary_line device_name caught a c _ Ho).
  split; [reflexivity |].
  destruct installed; [| repeat split; [discriminate | simpl; lia]].
  destruct connect_raises as [r |].
  { destruct (is_exception r); repeat split; try discriminate; simpl; lia. }
  pose proof (iteration_inner sorted summary_line device_name caught a c) as Hin.
  pose proof (iteration_publishes_once sorted summary_line device_name caught a c)
    as Hp.
  destruct (Program.iteration sorted summary_line device_name caught a c)
    as [evs o].
  cbn [fst snd] in *.
  apply sleeps_turn in Hin.
  assert (Hs : forall l : list (Program.event A),
             Program.sleeps l = 0%nat -> Program.published l = [] ->
             Program.sleeps
               ([Program.Print
                   (Program.Text ("Connecting to " ++ Program.broker a ++ ":"
                                    ++ Py.str_of_int (Program.port a) ++ "..."));
                 Program.Connect (Program.broker a) (Program.port a) 60]
                  ++ Program.LoopStart :: evs ++ l)%list = 0%nat /\
             (List.length
                (Program.published
                   ([Program.Print
                       (Program.Text ("Connecting to " ++ Program.broker a ++ ":"
                                        ++ Py.str_of_int (Program.port a) ++ "..."));
                     Program.Connect (Program.broker a) (Program.port a) 60]
                      ++ Program.LoopStart :: evs ++ l)%list) <= 1)%nat).
  { intros l Hl Hn. cbn [app Program.sleeps Program.published].
    rewrite sleeps_app, published_app, Hin, Hl, Hn, app_nil_r. auto. }
  destruct o as [[] | r |]; cbn [Program.ends Program.trace].
  - rewrite <- app_assoc. split; [discriminate | now apply Hs].
  - destruct r; cbn [Program.ends Program.trace]; rewrite <- app_assoc;
      (split; [discriminate | now apply Hs]).
  - split; [discriminate |]. specialize (Hs [] eq_refl eq_refl).
    now rewrite app_nil_r in Hs.
Qed.

Lemma publisher_once_witness :
  Program.ends
    (WindowsProgram.run_mqtt_publisher single true None [empty_turn; failing_turn])
  <> Program.Loops.
Proof.
  apply (publisher_once Table.sorted_desc LinuxProgram.summary_line "windows"
           is_exception single true None empty_turn [failing_turn]).
  reflexivity.
Defined.

(** X24. An interval that [time.sleep] refuses ends a publisher after its
    first turn: the call is outside the inner [try], so when the turn has
    completed the run ends with the exception of [time.sleep], after that
    one call and the disconnection. The exception is [ValueError] for a
    negative interval down to [- sleep_limit] and [OverflowError] for an
    interval beyond [sleep_limit] on either side. *)
Theorem publisher_refused_interval {A : Type} (sorted : list A -> list A)
    (summary_line : A -> outcome string) (device_name : string)
    (caught : raised -> bool) (a : Program.args) (c : Program.cycle A)
    (rest : list (Program.cycle A)) :
  Program.once a = false ->
  Program.interval a < 0 \/ Program.sleep_limit < Program.interval a ->
  snd (Program.iteration sorted summary_line device_name caught a c)
  = Returned tt ->
  let r := Program.run_mqtt_publisher sorted summary_line device_name caught
             a true None (c :: rest) in
  Program.ends r
  = Program.Raises
      (Scanner (if (Program.interval a <? - Program.sleep_limit)
                   || (Program.sleep_limit <? Program.interval a)
                then OverflowError else ValueError)) /\
  Program.sleeps (Program.trace r) = 1%nat /\
  exists body, Program.trace r = (body ++ Program.cleanup)%list.
Proof.
  intros Ho Hi Hr. unfold Program.run_mqtt_publisher. cbv zeta.
  rewrite (loop_refused_interval sorted summary_line device_name caught
             a c rest Ho Hi Hr).
  pose proof (iteration_inner sorted summary_line device_name caught a c) as Hin.
  apply sleeps_turn in Hin.
  cbn [Program.ends Program.trace].
  split; [reflexivity |]. split; [| eexists; reflexivity].
  cbn [app Program.sleeps]. rewrite !sleeps_app, Hin. reflexivity.
Qed.

Lemma publisher_refused_interval_witness :
  Program.ends
    (WindowsProgram.run_mqtt_publisher hasty true None [failing_turn; empty_turn])
  = Program.Raises (Scanner ValueError) /\
  Program.ends
    (WindowsProgram.run_mqtt_publisher patient true None [failing_turn; empty_turn])
  = Program.Raises (Scanner OverflowError).
Proof.
  split.
  - apply (publisher_refused_interval Table.sorted_desc
             LinuxProgram.summary_line "windows" is_exception hasty
             failing_turn [empty_turn]).
    + reflexivity.
    + left. simpl. lia.
    + reflexivity.
  - apply (publisher_refused_interval Table.sorted_desc
             LinuxProgram.summary_line "windows" is_exception patient
             failing_turn [empty_turn]).
    + reflexivity.
    + right. unfold Program.sleep_limit. simpl. lia.
    + reflexivity.
Defined.

(** ** The programs on the output of the scanners *)

Section ScannedRecords.

Import Program.
Local Open Scope list_scope.

Lemma has_bssid_keyed (r : network) : has_bssid r = true -> keyed r.
Proof.
  unfold has_bssid, keyed. destruct (bssid r) as [b |]; [eauto | discriminate].
Qed.

Lemma parse_nmcli_keyed (out : string) (networks : list network) :
  Linux.parse_nmcli out = Ok networks -> Forall keyed networks.
Proof.
  intros H. unfold Linux.parse_nmcli in H.
  eapply nmcli_lines_invariant in H; [exact H | | constructor].
  intros line n n' Hl.
  apply nmcli_line_spec in Hl as [-> | (r & -> & Hb & _)]; eauto.
Qed.

Lemma parse_iwlist_keyed (out : string) (networks : list network) :
  Linux.parse_iwlist out = Ok networks -> Forall keyed networks.
Proof.
  intros H. unfold Linux.parse_iwlist in H.
  destruct (Linux.iwlist_lines _ _) as [[n c] | |] eqn:E; try discriminate.
  simpl in H. apply Ok_inj in H. subst networks.
  apply iwlist_lines_invariant in E; [| constructor].
  eapply Forall_impl; [| exact E]. apply has_bssid_keyed.
Qed.

Lemma parse_netsh_keyed (out : string) (networks : list network) :
  Windows.parse_netsh out = Ok networks -> Forall keyed networks.
Proof.
  intros H. unfold Windows.parse_netsh in H.
  destruct (Windows.netsh_lines _ _) as [[n c] | |] eqn:E; try discriminate.
  simpl in H. apply Ok_inj in H. subst networks.
  apply netsh_lines_invariant in E; [| constructor].
  eapply Forall_impl; [| exact E]. apply has_bssid_keyed.
Qed.

(** A list returned by the facade was returned by one of its parsers. *)
Lemma on_host_returned (h : Facade.host) (networks : list network) :
  Facade.on_host h = Returned networks ->
  (exists out, Linux.parse_nmcli out = Ok networks) \/
  (exists out, Linux.parse_iwlist out = Ok networks).
Proof.
  unfold Facade.on_host. rewrite get_wifi_bssids_find.
  destruct (find _ _) as [o |] eqn:Hf; [| discriminate].
  intros ->. apply find_some in Hf as [Hin _].
  unfold Facade.candidates in Hin. apply in_app_or in Hin as [Hin | Hin].
  - destruct (Facade.nmcli_found h); [| destruct Hin].
    destruct Hin as [Hin | []]. left.
    unfold Linux.get_wifi_bssids_nmcli in Hin.
    match type of Hin with
    | lift (bind ?c _) = _ => destruct c; simpl in Hin; try discriminate
    end.
    destruct (check (Facade.listing h)) as [p | |]; simpl in Hin;
      try discriminate.
    exists (stdout p).
    destruct (Linux.parse_nmcli (stdout p)); simpl in Hin; congruence.
  - destruct (Facade.iwlist_found h); [| destruct Hin].
    apply in_map_iff in Hin as (iface & Hin & _). right.
    unfold Linux.get_wifi_bssids_iwlist in Hin.
    destruct (check (Facade.scan h iface)) as [p | |]; simpl in Hin;
      try discriminate.
    exists (stdout p).
    destruct (Linux.parse_iwlist (stdout p)); simpl in Hin; congruence.
Qed.

Lemma firstn_Forall {B : Type} (P : B -> Prop) (n : nat) (l : list B) :
  Forall P l -> Forall P (firstn n l).
Proof.
  intros H. revert n. induction H as [| x l Hx _ IH]; intros [| n]; simpl;
    constructor; auto.
Qed.

Lemma summary_keyed (l : list network) :
  Forall keyed l ->
  snd (summary LinuxProgram.summary_line l) = Returned tt /\
  List.length (fst (summary LinuxProgram.summary_line l)) = List.length l.
Proof.
  induction 1 as [| r l [b Hb] _ [IH1 IH2]]; simpl; [auto |].
  unfold LinuxProgram.summary_line at 1 3. rewrite Hb.
  destruct (summary LinuxProgram.summary_line l) as [evs o]. simpl in *.
  auto.
Qed.

Lemma summary_of_keyed (networks : list network) :
  Forall keyed networks ->
  snd (summary LinuxProgram.summary_line (firstn 5 (Table.sorted_desc networks)))
  = Returned tt /\
  List.length
    (fst (summary LinuxProgram.summary_line
            (firstn 5 (Table.sorted_desc networks))))
  = Nat.min 5 (List.length networks).
Proof.
  intros H.
  pose proof (sorted_desc_perm networks) as Hp.
  apply (Permutation_Forall Hp), (firstn_Forall _ 5), summary_keyed in H
    as [H1 H2].
  split; [assumption |].
  rewrite H2, length_firstn, <- (Permutation_length Hp). reflexivity.
Qed.

End ScannedRecords.

(** X25. The summary of a turn never fails on a list the Linux facade or
    the Windows scanner returned: every record has the ['bssid'] key that
    the summary line indexes, so no [KeyError] arises, and the summary has
    one line for each of the first five records of the sorted list. *)
Theorem summary_of_scan :
  (forall h networks,
     Facade.on_host h = Returned networks ->
     snd (Program.summary LinuxProgram.summary_line
            (firstn 5 (Table.sorted_desc networks))) = Returned tt /\
     List.length
       (fst (Program.summary LinuxProgram.summary_line
               (firstn 5 (Table.sorted_desc networks))))
     = Nat.min 5 (List.length networks)) /\
  (forall scan networks,
     Windows.get_wifi_bssids scan = Ok networks ->
     snd (Program.summary LinuxProgram.summary_line
            (firstn 5 (Table.sorted_desc networks))) = Returned tt /\
     List.length
       (fst (Program.summary LinuxProgram.summary_line
               (firstn 5 (Table.sorted_desc networks))))
     = Nat.min 5 (List.length networks)).
Proof.
  split.
  - intros h networks H. apply summary_of_keyed.
    apply on_host_returned in H as [[out H] | [out H]].
    + eapply parse_nmcli_keyed; eassumption.
    + eapply parse_iwlist_keyed; eassumption.
  - intros scan networks H. apply summary_of_keyed.
    unfold Windows.get_wifi_bssids in H.
    destruct (check scan) as [p | |]; simpl in H; try discriminate.
    eapply parse_netsh_keyed; eassumption.
Qed.

Lemma summary_of_scan_witness :
  snd (Program.summary LinuxProgram.summary_line
         (firstn 5 (Table.sorted_desc
                      [mkNetwork (Some "Home") (Some "aa:bb:cc:dd:ee:01") None None;
                       mkNetwork (Some "Home") (Some "aa:bb:cc:dd:ee:02") None None])))
  = Returned tt.
Proof.
  apply (proj2 summary_of_scan (Ok (mkCompleted 0 two_access_points EmptyString))).
  reflexivity.
Defined.

Section SimpleMode.

Import Program.
Local Open Scope list_scope.

Lemma parse_netsh_prints (out : string) :
  exists networks,
    Windows.parse_netsh out = Ok networks /\
    Table.ended (Table.print_networks networks) = Ok tt.
Proof.
  destruct (parse_netsh_returns out) as [networks H].
  exists networks. split; [assumption |].
  apply parse_netsh_ok, record_ok_printable in H.
  now apply (proj1 (table_outcome networks)).
Qed.





End SimpleMode.

(** X26. The simple mode of the Windows program, on an output of Latin-1
    text in which no run of digits is longer than 4300, ends in one of
    three ways, decided by how netsh ends: it prints the table and returns
    when netsh exits with status 0, whatever else netsh printed; it exits
    with status 1 when netsh exits with another status or is not found; any
    other exception of [subprocess.run] leaves the program. *)
Theorem windows_main_simple (a : Program.args) (installed : bool)
    (connect_raises : option raised) (cycles : list (Program.cycle network))
    (scan : result completed) :
  Program.mqtt a = false ->
  (forall p, scan = Ok p -> within_digit_limit (stdout p) = true) ->
  Program.ends
    (WindowsProgram.main a installed connect_raises cycles
       (lift (Windows.get_wifi_bssids scan)))
  = match scan with
    | Ok p => if returncode p =? 0 then Program.Returns else Program.Exits 1
    | Raise FileNotFoundError | Raise CalledProcessError => Program.Exits 1
    | Raise e => Program.Raises (Scanner e)
    | Unmodelled => Program.NotModelled
    end.
Proof.
  intros Hm _. unfold WindowsProgram.main. rewrite Hm.
  unfold Windows.get_wifi_bssids, check.
  destruct scan as [p | e |]; simpl.
  - destruct (returncode p =? 0); simpl; [| reflexivity].
    destruct (parse_netsh_prints (stdout p)) as (networks & -> & Hp).
    simpl. unfold WindowsProgram.print_networks, Windows.print_networks.
    rewrite Hp. reflexivity.
  - destruct e; reflexivity.
  - reflexivity.
Qed.

Lemma windows_main_simple_witness :
  Program.ends
    (WindowsProgram.main simple true None []
       (lift (Windows.get_wifi_bssids
                (Ok (mkCompleted 0 two_access_points EmptyString)))))
  = Program.Returns.
Proof.
  apply (windows_main_simple simple true None []
           (Ok (mkCompleted 0 two_access_points EmptyString))).
  - reflexivity.
  - intros p Hp. injection Hp as <-. reflexivity.
Defined.




